(** * vjf: variational joint filtering -- a shallow embedding

    The development follows the three source files of the package:

    - [src/vjf/module.py]: the RBF feature bank and the Bayesian linear
      regressor [LinearRegression] with its recursive least squares update;
    - [src/vjf/model.py]: the likelihoods, the dynamics model [RBFLDS] and
      the orchestrator [VJF] (prior / filter / fit);
    - [src/vjf/online.py]: the configuration driven orchestrator [VJF]
      (filter / feed / fit / forecast).

    Python exceptions are values of [exn]; a call that may raise returns a
    [res]; a method that mutates [self] is a function in the state and error
    monad [M].  Tensors carry their shape and their row-major contents.
    Scalars are kept abstract behind the class [Scalar], with one instance for
    IEEE binary32 (the default dtype of torch) and one for the real numbers. *)

From Stdlib Require Import String Bool Arith PeanoNat ZArith Lia List.
From Stdlib Require Import Floats.SpecFloat.
From Stdlib Require Import Reals Lra.
Import ListNotations.

Set Implicit Arguments.

(* ================================================================== *)
(** * Python values, exceptions and the state/error monad *)

Module Py.

Inductive exn : Set :=
| ZeroDivisionError
| AssertionError
| RuntimeError
| TypeError
| IndexError
| AttributeError
| ImportError
| ModuleNotFoundError
| UnboundLocalError
| NotImplementedError.

Inductive res (A : Type) : Type :=
| Ok (a : A)
| Raise (e : exn).

Arguments Ok {A} a.
Arguments Raise {A} e.

Definition bind {A B} (r : res A) (k : A -> res B) : res B :=
  match r with
  | Ok a => k a
  | Raise e => Raise e
  end.

Definition is_ok {A} (r : res A) : bool :=
  match r with Ok _ => true | Raise _ => false end.

Definition is_some {A} (o : option A) : bool :=
  match o with Some _ => true | None => false end.

(** [assert c]: the Python statement of the same name. *)
Definition assert (c : bool) : res unit :=
  if c then Ok tt else Raise AssertionError.

(** A method of an object of type [S]: it reads and writes [self], and it
    keeps what it wrote when it raises. *)
Definition M (S A : Type) : Type := S -> res A * S.

Definition ret {S A} (a : A) : M S A := fun s => (Ok a, s).

Definition mbind {S A B} (m : M S A) (k : A -> M S B) : M S B :=
  fun s => match m s with
           | (Ok a, s') => k a s'
           | (Raise e, s') => (Raise e, s')
           end.

Definition lift {S A} (r : res A) : M S A := fun s => (r, s).
Definition get {S} : M S S := fun s => (Ok s, s).
Definition put {S} (s : S) : M S unit := fun _ => (Ok tt, s).
Definition modify {S} (f : S -> S) : M S unit := fun s => (Ok tt, f s).
Definition print {S} (log : S -> string -> S) (msg : string) : M S unit :=
  fun s => (Ok tt, log s msg).

End Py.

Import Py.

Declare Scope py_scope.
Delimit Scope py_scope with py.
Notation "x <- e ;; k" := (bind e (fun x => k))
  (at level 61, e at next level, right associativity) : py_scope.
Notation "e ;;; k" := (bind e (fun _ => k))
  (at level 61, right associativity) : py_scope.

Declare Scope meth_scope.
Delimit Scope meth_scope with meth.
Notation "x <- e ;; k" := (mbind e (fun x => k))
  (at level 61, e at next level, right associativity) : meth_scope.
Notation "e ;;; k" := (mbind e (fun _ => k))
  (at level 61, right associativity) : meth_scope.

(* ================================================================== *)
(** * Scalars *)

(** The arithmetic a tensor entry supports.  Nothing is assumed of the
    operations here: rounding, infinities and NaN are left to the instance. *)
Class Scalar : Type := {
  F : Type;
  zero : F;
  one : F;
  half : F;                       (* the literal [.5] *)
  rtol : F;                       (* [1e-05], default of torch.isclose *)
  atol : F;                       (* [1e-08], default of torch.isclose *)
  add : F -> F -> F;
  sub : F -> F -> F;
  mul : F -> F -> F;
  div : F -> F -> F;
  neg : F -> F;
  abs : F -> F;
  sqrt : F -> F;
  of_nat : nat -> F;
  eqb : F -> F -> bool;           (* [==] *)
  leb : F -> F -> bool;           (* [<=] *)
  ltb : F -> F -> bool;           (* [<] *)
  is_finite : F -> bool           (* torch.isfinite *)
}.

(** [torch.exp] on one entry; it is not part of the arithmetic above because
    IEEE 754 does not fix its rounding. *)
Class Exp (Sc : Scalar) : Type := exp : F -> F.

(** ** IEEE 754 binary32, the default dtype of torch *)

Module Binary32.

Definition prec : Z := 24.
Definition emax : Z := 128.

Definition of_Z (z : Z) : spec_float := binary_normalize prec emax z 0 false.

Definition fdiv := SFdiv prec emax.

Definition finite (x : spec_float) : bool :=
  match x with
  | S754_zero _ | S754_finite _ _ _ => true
  | _ => false
  end.

#[export] Instance scalar : Scalar := {|
  F := spec_float;
  zero := S754_zero false;
  one := of_Z 1;
  half := fdiv (of_Z 1) (of_Z 2);
  rtol := fdiv (of_Z 1) (of_Z 100000);
  atol := fdiv (of_Z 1) (of_Z 100000000);
  add := SFadd prec emax;
  sub := SFsub prec emax;
  mul := SFmul prec emax;
  div := fdiv;
  neg := SFopp;
  abs := SFabs;
  sqrt := SFsqrt prec emax;
  of_nat := fun n => of_Z (Z.of_nat n);
  eqb := SFeqb;
  leb := SFleb;
  ltb := SFltb;
  is_finite := finite
|}.

End Binary32.

(** ** The real numbers: exact arithmetic *)

Module Exact.

Definition Rbool {P Q : Prop} (d : {P} + {Q}) : bool := if d then true else false.

#[export] Instance scalar : Scalar := {|
  F := R;
  zero := 0%R;
  one := 1%R;
  half := (1 / 2)%R;
  rtol := (1 / 100000)%R;
  atol := (1 / 100000000)%R;
  add := Rplus;
  sub := Rminus;
  mul := Rmult;
  div := Rdiv;
  neg := Ropp;
  abs := Rabs;
  sqrt := R_sqrt.sqrt;
  of_nat := INR;
  eqb := fun x y => Rbool (Req_dec_T x y);
  leb := fun x y => Rbool (Rle_dec x y);
  ltb := fun x y => Rbool (Rlt_dec x y);
  is_finite := fun _ => true
|}.

End Exact.

(* ================================================================== *)
(** * Tensors *)

(** The part of torch the package uses.  A tensor is its shape and its
    entries in row-major order; [ndim] is the number of axes.  Operations
    that torch refuses raise [RuntimeError].  Sums are accumulated from the
    left, starting at zero. *)

Module Torch.
Section Tensors.
Context {Sc : Scalar}.

Record tensor : Type := mkT { shape : list nat; data : list F }.

Definition numel (s : list nat) : nat := fold_right Nat.mul 1 s.
Definition ndim (a : tensor) : nat := length (shape a).
Definition size (a : tensor) (axis : nat) : nat := nth axis (shape a) 0.

(** A tensor is well formed when it has as many entries as its shape says. *)
Definition wf (a : tensor) : Prop := length (data a) = numel (shape a).

Definition tabulate (s : list nat) (g : nat -> F) : tensor :=
  mkT s (map g (seq 0 (numel s))).

Definition scalar_tensor (x : F) : tensor := mkT [] [x].
Definition zeros (s : list nat) : tensor := tabulate s (fun _ => zero).
Definition zeros_like (a : tensor) : tensor := zeros (shape a).

(** ** Two axes *)

Definition get2 (a : tensor) (i j : nat) : F :=
  nth (i * size a 1 + j) (data a) zero.

Definition tab2 (r c : nat) (f : nat -> nat -> F) : tensor :=
  tabulate [r; c] (fun k => f (k / c) (k mod c)).

Definition eye (n : nat) : tensor :=
  tab2 n n (fun i j => if i =? j then one else zero).

Definition of_rows (r c : nat) (rows : list (list F)) : tensor :=
  tab2 r c (fun i j => nth j (nth i rows []) zero).

(** [a.t()] *)
Definition t (a : tensor) : res tensor :=
  match shape a with
  | [] | [_] => Ok a
  | [r; c] => Ok (tab2 c r (fun i j => get2 a j i))
  | _ => Raise RuntimeError
  end.

Definition dot (n : nat) (f g : nat -> F) : F :=
  fold_left (fun acc k => add acc (mul (f k) (g k))) (seq 0 n) zero.

(** [a.mm(b)] *)
Definition mm (a b : tensor) : res tensor :=
  match shape a, shape b with
  | [r; k], [k'; c] =>
      if k =? k'
      then Ok (tab2 r c (fun i j => dot k (fun l => get2 a i l) (fun l => get2 b l j)))
      else Raise RuntimeError
  | _, _ => Raise RuntimeError
  end.

(** [functional.linear(input, weight)], without bias: [input @ weight.T]
    for an input of one or more axes, the last of extent [in_features].
    The axes before the last are kept: the input is read as the matrix of
    its rows, and the product gets the leading axes back.  A weight with one
    axis gives one output per row. *)
Definition linear (input weight : tensor) : res tensor :=
  match rev (shape input) with
  | [] => Raise RuntimeError
  | k :: lead =>
      let lead := rev lead in
      let rows := mkT [numel lead; k] (data input) in
      match shape weight with
      | [c; k'] =>
          (wt <- t weight ;;
           out <- mm rows wt ;;
           Ok (mkT (lead ++ [c]) (data out)))%py
      | [k'] =>
          if k =? k'
          then Ok (tabulate lead (fun i => dot k (fun l => get2 rows i l)
                                               (fun l => nth l (data weight) zero)))
          else Raise RuntimeError
      | _ => Raise RuntimeError
      end
  end.

(** ** Broadcasting *)

(** Shapes are aligned at the last axis, so both functions work on reversed
    shapes. *)
Fixpoint bshape_rev (s1 s2 : list nat) : option (list nat) :=
  match s1, s2 with
  | [], s => Some s
  | s, [] => Some s
  | n :: s1', m :: s2' =>
      match bshape_rev s1' s2' with
      | None => None
      | Some r =>
          if n =? m then Some (n :: r)
          else if n =? 1 then Some (m :: r)
          else if m =? 1 then Some (n :: r)
          else None
      end
  end.

Definition broadcast_shapes (s1 s2 : list nat) : option (list nat) :=
  option_map (@rev nat) (bshape_rev (rev s1) (rev s2)).

(** [src out s k]: the position, in a tensor of (reversed) shape [s], of the
    entry that lands at position [k] of the broadcast (reversed) shape [out]. *)
Fixpoint src (out s : list nat) (k : nat) : nat :=
  match out, s with
  | n :: out', m :: s' =>
      (if m =? 1 then 0 else k mod n) + m * src out' s' (k / n)
  | _, _ => 0
  end.

Definition bget (out : list nat) (a : tensor) (k : nat) : F :=
  nth (src (rev out) (rev (shape a)) k) (data a) zero.

Definition map2 (f : F -> F -> F) (a b : tensor) : res tensor :=
  match broadcast_shapes (shape a) (shape b) with
  | None => Raise RuntimeError
  | Some s => Ok (tabulate s (fun k => f (bget s a k) (bget s b k)))
  end.

Definition tadd := map2 add.
Definition tsub := map2 sub.
Definition tmul := map2 mul.
Definition tdiv := map2 div.

Definition tmap (f : F -> F) (a : tensor) : tensor :=
  mkT (shape a) (map f (data a)).

(** A Python number times a tensor. *)
Definition smul (c : F) (a : tensor) : tensor := tmap (mul c) a.

(** [torch.allclose(a, b)] with the default tolerances. *)
Definition isclose (x y : F) : bool :=
  eqb x y
  || (is_finite (abs (sub x y))
      && leb (abs (sub x y)) (add atol (abs (mul rtol y)))).

Definition allclose (a b : tensor) : res bool :=
  match broadcast_shapes (shape a) (shape b) with
  | None => Raise RuntimeError
  | Some s =>
      Ok (forallb (fun k => isclose (bget s a k) (bget s b k)) (seq 0 (numel s)))
  end.

(** ** Shape changes *)

Definition atleast_2d (a : tensor) : tensor :=
  match shape a with
  | [] => mkT [1; 1] (data a)
  | [n] => mkT [1; n] (data a)
  | _ => a
  end.

(** [a.tile((n, 1))] for a tensor with two axes. *)
Definition tile_rows (n : nat) (a : tensor) : res tensor :=
  match shape a with
  | [r; c] => Ok (tab2 (n * r) c (fun i j => get2 a (i mod r) j))
  | _ => Raise RuntimeError
  end.

(** [torch.cat((a, b), dim=-1)]: the two tensors have the same axes but
    the last.  A tensor of shape [(0,)] is skipped, as torch does; one
    without axes is refused. *)
Definition cat_last (a b : tensor) : res tensor :=
  match rev (shape a), rev (shape b) with
  | [], _ | _, [] => Raise RuntimeError
  | [0], _ => Ok b
  | _, [0] => Ok a
  | ca :: la, cb :: lb =>
      if list_eq_dec Nat.eq_dec la lb
      then Ok (tabulate (rev ((ca + cb) :: la))
                 (fun k => let i := k / (ca + cb) in
                           let j := k mod (ca + cb) in
                           if j <? ca then nth (i * ca + j) (data a) zero
                           else nth (i * cb + (j - ca)) (data b) zero))
      else Raise RuntimeError
  end.

(** ** Indexing along the first axis *)

(** [torch.empty(shape)]: the contents are whatever the allocator left; the
    callers below overwrite every entry before they read it. *)
Definition empty (s : list nat) : tensor := zeros s.

(** [a[i]] *)
Definition select0 (a : tensor) (i : nat) : res tensor :=
  match shape a with
  | n :: rest =>
      if i <? n
      then Ok (tabulate rest (fun k => nth (i * numel rest + k) (data a) zero))
      else Raise IndexError
  | [] => Raise IndexError
  end.

(** [for slice in a]: a tensor without axes cannot be iterated. *)
Definition unbind (a : tensor) : res (list tensor) :=
  match shape a with
  | n :: rest =>
      Ok (map (fun i => tabulate rest (fun k => nth (i * numel rest + k) (data a) zero))
              (seq 0 n))
  | [] => Raise TypeError
  end.

(** [a[i] = v], also written [a[i, ...] = v] and [a[i, :, :] = v]: [v] is
    broadcast to the shape of the slice. *)
Definition set0 (a : tensor) (i : nat) (v : tensor) : res tensor :=
  match shape a with
  | n :: rest =>
      if i <? n
      then match broadcast_shapes rest (shape v) with
           | Some s =>
               if list_eq_dec Nat.eq_dec s rest
               then Ok (tabulate (n :: rest)
                          (fun k => if k / numel rest =? i
                                    then bget rest v (k mod numel rest)
                                    else nth k (data a) zero))
               else Raise RuntimeError
           | None => Raise RuntimeError
           end
      else Raise IndexError
  | [] => Raise IndexError
  end.

(** [a[1:]] *)
Definition drop_first (a : tensor) : res tensor :=
  match shape a with
  | n :: rest =>
      Ok (tabulate ((n - 1) :: rest) (fun k => nth (numel rest + k) (data a) zero))
  | [] => Raise IndexError
  end.

(** [torch.transpose(a, 1, 0)] *)
Definition transpose01 (a : tensor) : res tensor :=
  match shape a with
  | n :: m :: rest =>
      let R := numel rest in
      Ok (tabulate (m :: n :: rest)
            (fun k => let j := k / (n * R) in
                      let i := (k / R) mod n in
                      nth ((i * m + j) * R + k mod R) (data a) zero))
  | _ => Raise IndexError
  end.

(** ** Reductions *)

Definition sum_list (l : list F) : F := fold_left add l zero.

(** [a.sum(-1)] *)
Definition sum_last (a : tensor) : res tensor :=
  match rev (shape a) with
  | c :: lead =>
      Ok (tabulate (rev lead)
            (fun i => sum_list (map (fun j => nth (i * c + j) (data a) zero) (seq 0 c))))
  | [] => Ok a
  end.

(** [a.mean()]: a tensor without axes. *)
Definition mean (a : tensor) : tensor :=
  scalar_tensor (div (sum_list (data a)) (of_nat (numel (shape a)))).

(** ** Factorisations *)

Fixpoint dotl (xs ys : list F) (acc : F) : F :=
  match xs, ys with
  | x :: xs', y :: ys' => dotl xs' ys' (add acc (mul x y))
  | _, _ => acc
  end.

(** Row [i] of the lower Cholesky factor of [A], from the rows [L] above it.
    A pivot that is not positive (or is NaN) is refused. *)
Definition chol_row (A : tensor) (L : list (list F)) (i : nat) : res (list F) :=
  fold_left
    (fun (acc : res (list F)) (j : nat) =>
       (row <- acc ;;
        if j <? i
        then let Lj := nth j L [] in
             Ok (row ++ [div (sub (get2 A i j) (dotl row Lj zero)) (nth j Lj zero)])
        else let d := sub (get2 A i i) (dotl row row zero) in
             if ltb zero d then Ok (row ++ [sqrt d]) else Raise RuntimeError)%py)
    (seq 0 (S i)) (Ok []).

Definition chol_rows (A : tensor) (n : nat) : res (list (list F)) :=
  fold_left
    (fun (acc : res (list (list F))) (i : nat) =>
       (L <- acc ;; row <- chol_row A L i ;; Ok (L ++ [row]))%py)
    (seq 0 n) (Ok []).

(** [linalg.cholesky(A)] *)
Definition cholesky (A : tensor) : res tensor :=
  match shape A with
  | [n; m] =>
      if n =? m
      then (rows <- chol_rows A n ;; Ok (of_rows n n rows))%py
      else Raise RuntimeError
  | _ => Raise RuntimeError
  end.

(** Forward substitution, [L X = b] for a lower triangular [L]. *)
Definition fsub_row (L b : tensor) (X : list (list F)) (i m : nat) : list F :=
  map (fun c =>
         div (sub (get2 b i c)
                  (fold_left (fun acc k => add acc (mul (get2 L i k) (nth c (nth k X []) zero)))
                             (seq 0 i) zero))
             (get2 L i i))
      (seq 0 m).

Definition forward_rows (L b : tensor) (n m : nat) : list (list F) :=
  fold_left (fun X i => X ++ [fsub_row L b X i m]) (seq 0 n) [].

(** Back substitution, [U X = y] for an upper triangular [U]; [X] holds the
    rows below row [i]. *)
Definition bsub_row (U y : tensor) (X : list (list F)) (i n m : nat) : list F :=
  map (fun c =>
         div (sub (get2 y i c)
                  (fold_left (fun acc k => add acc (mul (get2 U i k) (nth c (nth (k - i - 1) X []) zero)))
                             (seq (i + 1) (n - i - 1)) zero))
             (get2 U i i))
      (seq 0 m).

Definition backward_rows (U y : tensor) (n m : nat) : list (list F) :=
  fold_right (fun i X => bsub_row U y X i n m :: X) [] (seq 0 n).

(** [b.triangular_solve(A, upper=False).solution] *)
Definition triangular_solve (b A : tensor) : res tensor :=
  match shape A, shape b with
  | [n; n'], [k; m] =>
      if (n =? n') && (n =? k)
      then Ok (of_rows n m (forward_rows A b n m))
      else Raise RuntimeError
  | _, _ => Raise RuntimeError
  end.

(** [b.cholesky_solve(L)]: solves [(L L^T) X = b]. *)
Definition cholesky_solve (b L : tensor) : res tensor :=
  (y <- triangular_solve b L ;;
   U <- t L ;;
   match shape y with
   | [n; m] => Ok (of_rows n m (backward_rows U y n m))
   | _ => Raise RuntimeError
   end)%py.

End Tensors.
End Torch.

Import Torch.

(* ================================================================== *)
(** * src/vjf/module.py *)

Module ModulePy.
Section Regression.
Context {Sc : Scalar}.

(** What [LinearRegression] asks of its [feature] argument: a module with an
    [n_feature] attribute that maps a batch of inputs to a batch of feature
    rows ([RBF] is the one the package passes). *)
Record Feature : Type := mkFeature {
  n_feature : nat;
  feature_forward : tensor -> res tensor
}.

(** An argument annotated [Union[Tensor, float]]. *)
Inductive number : Type :=
| PyFloat (x : F)
| PyTensor (a : tensor).

(** [torch.sqrt] takes tensors only. *)
Definition torch_sqrt (v : number) : res tensor :=
  match v with
  | PyTensor a => Ok (tmap sqrt a)
  | PyFloat _ => Raise TypeError
  end.

(** [a / b] on Python floats. *)
Definition py_div (a b : F) : res F :=
  if eqb b zero then Raise ZeroDivisionError else Ok (div a b).

(** [a.shape[0]] *)
Definition shape0 (a : tensor) : res nat :=
  match shape a with
  | n :: _ => Ok n
  | [] => Raise IndexError
  end.

(** class LinearRegression: Bayesian linear regression *)
Record LinearRegression : Type := mkLinearRegression {
  feature : Feature;
  n_output : nat;
  w_mean : tensor;
  w_chol : tensor;
  w_precision : tensor
}.

Definition set_w_mean (m : tensor) (self : LinearRegression) : LinearRegression :=
  mkLinearRegression (feature self) (n_output self) m (w_chol self) (w_precision self).
Definition set_w_chol (c : tensor) (self : LinearRegression) : LinearRegression :=
  mkLinearRegression (feature self) (n_output self) (w_mean self) c (w_precision self).
Definition set_w_precision (p : tensor) (self : LinearRegression) : LinearRegression :=
  mkLinearRegression (feature self) (n_output self) (w_mean self) (w_chol self) p.

(** [LinearRegression.__init__] *)
Definition init (feature : Feature) (n_output : nat) : LinearRegression :=
  {| feature := feature;
     n_output := n_output;
     w_mean := zeros [n_feature feature; n_output];
     w_chol := eye (n_feature feature);
     w_precision := eye (n_feature feature) |}.

(** [LinearRegression.forward]; [randn shape] is the standard normal draw
    of that shape. *)
Definition forward (self : LinearRegression) (randn : list nat -> tensor)
    (x : tensor) (sampling : bool) : res tensor :=
  (feat <- feature_forward (feature self) x ;;
   let w := w_mean self in
   w <- (if sampling
         then (n <- mm (w_chol self) (randn (shape w)) ;; tadd w n)
         else Ok w) ;;
   wt <- t w ;;
   linear feat wt)%py.

(** [LinearRegression.rls] *)
Definition rls (x target : tensor) (v : number) (diffusion : F)
  : M LinearRegression unit :=
  (self <- get ;;
   n <- lift (shape0 (w_precision self)) ;;
   let eye := eye n in
   let P := w_precision self in
   c <- lift (py_div one diffusion) ;;
   A <- lift (tadd P (smul c eye)) ;;
   L <- lift (cholesky A) ;;
   H <- lift (triangular_solve P L) ;;
   Ht <- lift (t H) ;;
   HtH <- lift (mm Ht H) ;;
   P <- lift (tsub P HtH) ;;
   feat <- lift (feature_forward (feature self) x) ;;
   s <- lift (torch_sqrt v) ;;
   scaled_feat <- lift (tdiv feat s) ;;
   scaled_target <- lift (tdiv target s) ;;
   Pw <- lift (mm P (w_mean self)) ;;
   sft <- lift (t scaled_feat) ;;
   fty <- lift (mm sft scaled_target) ;;
   g <- lift (tadd Pw fty) ;;
   ftf <- lift (mm sft scaled_feat) ;;
   newP <- lift (tadd P ftf) ;;
   modify (set_w_precision newP) ;;;
   self <- get ;;
   Pt <- lift (t (w_precision self)) ;;
   ok <- lift (allclose (w_precision self) Pt) ;;
   lift (assert ok) ;;;
   L <- lift (cholesky (w_precision self)) ;;
   m <- lift (cholesky_solve g L) ;;
   modify (set_w_mean m))%meth.

(** [LinearRegression.reset] *)
Definition reset : M LinearRegression unit :=
  (self <- get ;;
   modify (set_w_mean (zeros_like (w_mean self))) ;;;
   modify (set_w_chol (eye (n_feature (feature self)))))%meth.

End Regression.
End ModulePy.

(* ================================================================== *)
(** * src/vjf/model.py *)

Module ModelPy.
Section Model.
Context {Sc : Scalar} {E : Exp Sc}.

(** An argument that is an array or [None]. *)
Inductive pyobj : Type :=
| PyNone
| PyArray (a : tensor).

(** [torch.as_tensor(a)]: the dtype cannot be inferred from [None]. *)
Definition as_tensor (a : pyobj) : res tensor :=
  match a with
  | PyArray a => Ok a
  | PyNone => Raise RuntimeError
  end.

(** [torch.as_tensor(a, dtype=...)]: [None] is not a real number. *)
Definition as_tensor_dtype (a : pyobj) : res tensor :=
  match a with
  | PyArray a => Ok a
  | PyNone => Raise TypeError
  end.

(** [functional.mse_loss(input, target, reduction='none')] *)
Definition mse_loss (input target : tensor) : res tensor :=
  (d <- tsub input target ;; Ok (tmap (fun x => mul x x) d))%py.

(** [functional.poisson_nll_loss(input, target, log_input=True, reduction='none')] *)
Definition poisson_nll_loss (input target : tensor) : res tensor :=
  (ti <- tmul target input ;; tsub (tmap exp input) ti)%py.

(** ** The likelihoods *)

(** [GaussianLikelihood] holds its parameter [logvar]; [PoissonLikelihood]
    has none. *)
Inductive Likelihood : Type :=
| GaussianLikelihood (logvar : tensor)
| PoissonLikelihood.

(** [GaussianLikelihood.__init__]: [logvar] is [torch.zeros(1)]. *)
Definition gaussian_init : Likelihood := GaussianLikelihood (zeros [1]).

(** [GaussianLikelihood.loss] *)
Definition gaussian_loss (logvar eta target : tensor) : res tensor :=
  (mse <- mse_loss eta target ;;
   assert (ndim mse =? 2) ;;;
   let p := tmap exp (tmap neg logvar) in
   mp <- tmul mse p ;;
   mpl <- tadd mp logvar ;;
   let nll := smul half mpl in
   s <- sum_last nll ;;
   Ok (mean s))%py.

(** [PoissonLikelihood.loss] *)
Definition poisson_loss (eta target : tensor) : res tensor :=
  (nll <- poisson_nll_loss eta target ;;
   assert (ndim nll =? 2) ;;;
   s <- sum_last nll ;;
   Ok (mean s))%py.

Definition likelihood_loss (l : Likelihood) (eta target : tensor) : res tensor :=
  match l with
  | GaussianLikelihood logvar => gaussian_loss logvar eta target
  | PoissonLikelihood => poisson_loss eta target
  end.

(** ** The latent state *)

(** [DiagonalGaussian], a named tuple of mean and log variance. *)
Record DiagonalGaussian : Type := mkDG { dg_mean : tensor; dg_logvar : tensor }.

(** [detach]: the values are kept, the gradient history is dropped; values
    are all there is here. *)
Definition detach (q : DiagonalGaussian) : DiagonalGaussian :=
  mkDG (dg_mean q) (dg_logvar q).

(** ** class RBFLDS *)

Record RBFLDS : Type := mkRBFLDS {
  linreg : ModulePy.LinearRegression;
  lds_logvar : tensor
}.

(** [RBFLDS.forward] *)
Definition rbflds_forward (self : RBFLDS) (randn : list nat -> tensor)
    (x : tensor) (u : option tensor) (sampling : bool) : res tensor :=
  (xu <- match u with
         | None => Ok x
         | Some u => let u := atleast_2d u in cat_last x u
         end ;;
   dx <- ModulePy.forward (linreg self) randn xu sampling ;;
   tadd x dx)%py.

(** [RBFLDS.loss] *)
Definition rbflds_loss (self : RBFLDS) (pt xt : tensor) : res tensor :=
  (mse <- mse_loss pt xt ;;
   let p := tmap exp (tmap neg (lds_logvar self)) in
   mp <- tmul mse p ;;
   mpl <- tadd mp (lds_logvar self) ;;
   let nll := smul half mpl in
   assert (ndim nll =? 2) ;;;
   s <- sum_last nll ;;
   Ok (mean s))%py.

(** ** class VJF *)

Variable Weights : Type.

Record VJF : Type := mkVJF {
  likelihood : Likelihood;
  mean : list F;          (* Parameter(torch.zeros(xdim)): one axis *)
  logvar : list F;        (* Parameter(torch.zeros(xdim)): one axis *)
  weights : Weights;
  draws : nat             (* how many normal draws were taken so far *)
}.

(** The sub-modules [transition], [recognition] and [decoder] are arguments
    of the constructor, and [reparametrize], [entropy] and the optimizer come
    from outside the package sources; all the orchestrator needs of them is
    what they return.  [Weights] stands for the parameters they train and the
    state of the optimizer. *)
Class Modules : Type := {
  transition : Weights -> tensor -> option tensor -> res tensor;
  transition_loss : Weights -> tensor -> tensor -> res tensor;
  recognition : Weights -> tensor -> tensor -> res DiagonalGaussian;
  decoder : Weights -> tensor -> res tensor;
  (** [reparametrize draw q]: the sample of [q] built from the [draw]-th
      standard normal draw. *)
  reparametrize : nat -> DiagonalGaussian -> res tensor;
  entropy : DiagonalGaussian -> res tensor;
  (** [optimizer.zero_grad(); loss.backward(); optimizer.step()]: the new
      parameters, from the current ones and from the loss as a function of
      the parameters. *)
  adam : VJF -> (VJF -> res tensor) -> VJF
}.

Context {Mods : Modules}.

Definition vector (l : list F) : tensor := mkT [length l] l.

Definition set_draws (n : nat) (self : VJF) : VJF :=
  mkVJF (likelihood self) (mean self) (logvar self) (weights self) n.
Definition take_draws (n : nat) (self : VJF) : VJF :=
  set_draws (draws self + n) self.

(** [VJF.prior] *)
Definition prior (self : VJF) (y : tensor) : res DiagonalGaussian :=
  (assert (ndim y =? 2) ;;;
   let n_batch := size y 0 in
   let mean := atleast_2d (vector (mean self)) in
   let logvar := atleast_2d (vector (logvar self)) in
   mean <- (if size mean 0 =? 1 then tile_rows n_batch mean else Ok mean) ;;
   logvar <- (if size logvar 0 =? 1 then tile_rows n_batch logvar else Ok logvar) ;;
   assert ((size mean 0 =? n_batch) && (size logvar 0 =? n_batch)) ;;;
   Ok (mkDG mean logvar))%py.

(** [VJF.forward]; the two samples use the draws [draw] and [draw + 1]. *)
Definition forward (self : VJF) (draw : nat) (y : tensor) (qs : DiagonalGaussian)
    (u : option tensor)
  : res (tensor * tensor * DiagonalGaussian * tensor * tensor) :=
  (let qs := detach qs in
   xs <- reparametrize draw qs ;;
   pt <- transition (weights self) xs u ;;
   let y := atleast_2d y in
   qt <- recognition (weights self) y pt ;;
   xt <- reparametrize (draw + 1) qt ;;
   py <- decoder (weights self) xt ;;
   Ok (xs, pt, qt, xt, py))%py.

(** [VJF.loss]: the loss, and its components when they are asked for. *)
Definition loss (self : VJF) (y xs pt : tensor) (qt : DiagonalGaussian)
    (xt py : tensor) (components full : bool)
  : res (tensor * option (tensor * tensor * tensor)) :=
  if full then Raise NotImplementedError
  else
    (l_recon <- likelihood_loss (likelihood self) py y ;;
     l_dynamics <- transition_loss (weights self) pt xt ;;
     h <- entropy qt ;;
     lh <- tsub l_recon h ;;
     loss <- tadd lh l_dynamics ;;
     if components
     then Ok (loss, Some (tmap neg l_recon, tmap neg l_dynamics, h))
     else Ok (loss, None))%py.

(** The loss of one step as a function of the parameters: what
    [loss.backward()] differentiates. *)
Definition step_loss (draw : nat) (y : tensor) (qs : DiagonalGaussian)
    (u : option tensor) (self : VJF) : res tensor :=
  (r <- forward self draw y qs u ;;
   let '(xs, pt, qt, xt, py) := r in
   l <- loss self y xs pt qt xt py false false ;;
   Ok (fst l))%py.

(** [VJF.filter] *)
Definition filter (y : pyobj) (u : option tensor) (qs : option DiagonalGaussian)
    (update : bool) : M VJF (DiagonalGaussian * tensor) :=
  (y <- lift (as_tensor_dtype y) ;;
   let y := atleast_2d y in
   let u := match u with
            | Some u => Some (atleast_2d u)
            | None => None
            end in
   self <- get ;;
   qs <- match qs with
         | None => lift (prior self y)
         | Some qs => let _ := detach qs in ret qs
         end ;;
   let draw := draws self in
   modify (take_draws 2) ;;;
   r <- lift (forward self draw y qs u) ;;
   let '(xs, pt, qt, xt, py) := r in
   l <- lift (loss self y xs pt qt xt py false false) ;;
   let loss := fst l in
   (if update
    then modify (fun s => adam s (fun m => step_loss draw y qs u m))
    else ret tt) ;;;
   ret (qt, loss))%meth.

(** [zip_longest(y, u)]: the shorter sequence is padded with [None]. *)
Definition zip_longest (ys us : list pyobj) : list (pyobj * pyobj) :=
  map (fun i => (nth i ys PyNone, nth i us PyNone))
      (seq 0 (Nat.max (length ys) (length us))).

Definition as_option (u : pyobj) : option tensor :=
  match u with
  | PyNone => None
  | PyArray a => Some a
  end.

(** The inner loop of [fit]: one filtering pass without updates. *)
Fixpoint fit_pass (obs : list (pyobj * pyobj)) (q : option DiagonalGaussian)
    (q_seq : list DiagonalGaussian) (losses : list tensor)
  : M VJF (list DiagonalGaussian * list tensor) :=
  match obs with
  | [] => ret (q_seq, losses)
  | (yt, ut) :: obs' =>
      (r <- filter yt (as_option ut) q false ;;
       let '(q, loss) := r in
       fit_pass obs' (Some q) (q_seq ++ [q]) (losses ++ [loss]))%meth
  end.

(** [sum(losses) / len(losses)]; [sum] starts from the integer 0. *)
Definition total_loss (losses : list tensor) : res tensor :=
  match losses with
  | [] => Raise ZeroDivisionError
  | l :: ls =>
      (s <- fold_left (fun acc x => (a <- acc ;; tadd a x)%py) ls (Ok l) ;;
       Ok (tmap (fun x => div x (of_nat (length losses))) s))%py
  end.

(** The loss of one pass as a function of the parameters. *)
Definition pass_loss (obs : list (pyobj * pyobj)) (self : VJF) : res tensor :=
  (r <- fst (fit_pass obs None [] [] self) ;;
   total_loss (snd r))%py.

(** The outer loop of [fit]: [q_seq] is bound once an iteration has run. *)
Fixpoint fit_loop (max_iter : nat) (obs : list (pyobj * pyobj))
    (q_seq : option (list DiagonalGaussian))
  : M VJF (option (list DiagonalGaussian)) :=
  match max_iter with
  | 0 => ret q_seq
  | S n =>
      (self <- get ;;
       r <- fit_pass obs None [] [] ;;
       let '(q_seq, losses) := r in
       _ <- lift (total_loss losses) ;;
       modify (fun s => adam s (fun m => pass_loss obs (set_draws (draws self) m))) ;;;
       fit_loop n obs (Some q_seq))%meth
  end.

(** [VJF.fit] *)
Definition fit (y u : pyobj) (max_iter : nat) : M VJF (list DiagonalGaussian) :=
  (y <- lift (as_tensor y) ;;
   let y := atleast_2d y in
   us <- match u with
         | PyNone => ret [PyNone]
         | PyArray _ =>
             (u <- lift (as_tensor u) ;;
              l <- lift (unbind u) ;;
              ret (map PyArray l))
         end ;;
   ys <- lift (unbind y) ;;
   q_seq <- fit_loop max_iter (zip_longest (map PyArray ys) us) None ;;
   match q_seq with
   | Some q_seq => ret q_seq
   | None => lift (Raise UnboundLocalError)
   end)%meth.

End Model.
End ModelPy.

(* ================================================================== *)
(** * src/vjf/online.py *)

Module OnlinePy.
Section Online.
Context {Sc : Scalar}.

Import ModelPy.

(** What the orchestrator is built from: the recognizer, the ELBO of
    [metric], the dynamical system with its state noise, the decoder with
    its likelihood, and the four optimizers with their schedulers.  Their
    sources are not part of the package files at hand; the orchestrator
    only depends on what they return.  [Weights] stands for every trained
    parameter together with the optimizer states, [Grads] for the gradients
    [backward] leaves on the parameters. *)
Variable Weights : Type.
Variable Grads : Type.

Class Parts : Type := {
  recognizer :
    Weights -> tensor -> tensor -> tensor * tensor -> res (tensor * tensor);
  (** [elbo w draw q0 q obs sample regularize]: reconstruction, dynamics and
      entropy terms, three scalars.  [draw] is the position of the random
      stream the call starts at; what it draws from there is its own. *)
  elbo :
    Weights -> nat -> tensor * tensor -> tensor * tensor -> tensor * tensor ->
    bool -> bool -> res (F * F * F);
  system : Weights -> tensor -> tensor -> res tensor;
  state_noise_std : Weights -> tensor;
  (** [self.decoder.likelihood(self.decoder(x))] *)
  decode : Weights -> tensor -> res tensor;
  (** [cost.backward()] after the gradients were zeroed. *)
  backward : Weights -> (Weights -> res F) -> Grads;
  (** [torch.nn.utils.clip_grad_value_(self.parameters(), clip)] *)
  clip_grad_value : option F -> Grads -> res Grads;
  decoder_step : Grads -> Weights -> Weights;
  dynamics_step : Grads -> Weights -> Weights;
  encoder_step : Grads -> Weights -> Weights;
  noise_step : Grads -> Weights -> Weights;
  decoder_scheduler_step : Weights -> Weights;
  dynamics_scheduler_step : Weights -> Weights;
  encoder_scheduler_step : Weights -> Weights;
  (** [randn draw shape]: the [draw]-th standard normal draw, of that shape. *)
  randn : nat -> list nat -> tensor
}.

Context {parts : Parts}.

Record VJF : Type := mkVJF {
  ydim : nat;
  xdim : nat;
  udim : nat;
  clip_gradients : option F;      (* config["clip_gradients"] *)
  weights : Weights;
  draws : nat;                    (* position in the stream of the random generator *)
  stdout : list string            (* what [print] wrote, oldest first *)
}.

Definition set_weights (w : Weights) (self : VJF) : VJF :=
  mkVJF (ydim self) (xdim self) (udim self) (clip_gradients self) w
        (draws self) (stdout self).
Definition take_draw (self : VJF) : VJF :=
  mkVJF (ydim self) (xdim self) (udim self) (clip_gradients self) (weights self)
        (draws self + 1) (stdout self).
Definition write (self : VJF) (line : string) : VJF :=
  mkVJF (ydim self) (xdim self) (udim self) (clip_gradients self) (weights self)
        (draws self) (stdout self ++ [line]).

(** The keyword switches of [filter], [feed] and [fit]. *)
Record switches : Type := mkSwitches {
  sw_decoder : bool;
  sw_encoder : bool;
  sw_dynamics : bool;
  sw_noise : bool
}.

Definition when (c : bool) (f : Weights -> Weights) (w : Weights) : Weights :=
  if c then f w else w.

(** The posterior a step starts from. *)
Definition feed_start (self : VJF) (batch : nat) (q0 : option (tensor * tensor))
  : tensor * tensor :=
  match q0 with
  | None => (zeros [batch; xdim self], zeros [batch; xdim self])
  | Some q0 => q0
  end.

(** [VJF.feed].  Each call hands [elbo] its own position of the random
    stream and moves the stream one position on. *)
Definition feed (obs : tensor * tensor) (q0 : option (tensor * tensor))
    (sw : switches) (sample regularize optim : bool)
  : M VJF ((tensor * tensor) * (F * F * F)) :=
  (let '(y, u) := obs in
   batch <- lift (ModulePy.shape0 y) ;;
   self <- get ;;
   let '(mu0, logvar0) := feed_start self batch q0 in
   q1 <- lift (recognizer (weights self) y u (mu0, logvar0)) ;;
   let draw := draws self in
   modify take_draw ;;;
   e <- lift (elbo (weights self) draw (mu0, logvar0) q1 (y, u) sample regularize) ;;
   (if optim
    then
      let cost (w : Weights) : res F :=
        (q1 <- recognizer w y u (mu0, logvar0) ;;
         e <- elbo w draw (mu0, logvar0) q1 (y, u) sample regularize ;;
         let '(ll_recon, ll_dyn, entropy) := e in
         Ok (neg (add (add ll_recon ll_dyn) entropy)))%py in
      let g := backward (weights self) cost in
      g <- lift (clip_grad_value (clip_gradients self) g) ;;
      modify (fun s => set_weights
                (when (sw_noise sw) (noise_step g)
                   (when (sw_encoder sw) (encoder_step g)
                      (when (sw_dynamics sw) (dynamics_step g)
                         (when (sw_decoder sw) (decoder_step g) (weights s))))) s)
    else ret tt) ;;;
   self <- get ;;
   q1 <- lift (recognizer (weights self) y u (mu0, logvar0)) ;;
   ret (q1, e))%meth.

(** The loop of [filter] over the time steps; [i] is the index of the next
    step. *)
Fixpoint filter_loop (obs : list (tensor * tensor)) (i : nat)
    (q0 : option (tensor * tensor)) (mu logvar : tensor) (losses : list (F * F * F))
    (sw : switches) (sample regularize optim : bool)
  : M VJF (tensor * tensor * list (F * F * F)) :=
  match obs with
  | [] => ret (mu, logvar, losses)
  | o :: obs' =>
      (r <- feed o q0 sw sample regularize optim ;;
       let '(q, loss) := r in
       mu <- lift (set0 mu i (fst q)) ;;
       logvar <- lift (set0 logvar i (snd q)) ;;
       filter_loop obs' (i + 1) (Some q) mu logvar (losses ++ [loss])
                   sw sample regularize optim)%meth
  end.

(** [VJF.filter] *)
Definition filter (y u : pyobj) (q0 : option (tensor * tensor)) (time_major : bool)
    (sw : switches) (sample regularize optim : bool)
  : M VJF (tensor * tensor * list (F * F * F)) :=
  (ys <- lift (as_tensor_dtype y) ;;
   us <- lift (as_tensor_dtype u) ;;
   ys <- lift (if time_major then Ok ys else transpose01 ys) ;;
   us <- lift (if time_major then Ok us else transpose01 us) ;;
   s0 <- lift (ModulePy.shape0 ys) ;;
   s1 <- lift (match shape ys with _ :: s1 :: _ => Ok s1 | _ => Raise IndexError end) ;;
   self <- get ;;
   let mu := zeros [s0; s1; xdim self] in
   let logvar := zeros [s0; s1; xdim self] in
   ysl <- lift (unbind ys) ;;
   usl <- lift (unbind us) ;;
   r <- filter_loop (combine ysl usl) 0 q0 mu logvar [] sw sample regularize optim ;;
   let '(mu, logvar, losses) := r in
   mu <- lift (if time_major then Ok mu else transpose01 mu) ;;
   logvar <- lift (if time_major then Ok logvar else transpose01 logvar) ;;
   ret (mu, logvar, losses))%meth.

(** [-sum([sum(e) for e in elbos]) / T]; both sums start from the integer 0,
    so an empty list gives a Python number and not a tensor. *)
Definition new_loss (elbos : list (F * F * F)) (T : nat) : res F :=
  match elbos with
  | [] => if T =? 0 then Raise ZeroDivisionError else Raise AttributeError
  | e :: es =>
      let sum3 (e : F * F * F) := let '(a, b, c) := e in add (add a b) c in
      Ok (div (neg (fold_left (fun acc e => add acc (sum3 e)) es (sum3 e))) (of_nat T))
  end.

Definition no_switch : switches := mkSwitches false false false false.

(** One pass of [fit] over the sequence: the posterior and the loss. *)
Definition fit_pass (y u : pyobj) (q0 : option (tensor * tensor)) (time_major : bool)
    (T : nat) : M VJF (tensor * tensor * F) :=
  (r <- filter y u q0 time_major no_switch true false false ;;
   let '(mu, logvar, elbos) := r in
   l <- lift (new_loss elbos T) ;;
   ret (mu, logvar, l))%meth.

(** The loss of a pass as a function of the parameters. *)
Definition fit_cost (y u : pyobj) (q0 : option (tensor * tensor)) (time_major : bool)
    (T : nat) (self : VJF) (w : Weights) : res F :=
  (r <- fst (fit_pass y u q0 time_major T (set_weights w self)) ;;
   Ok (snd r))%py.

(** [loss.backward()], the clipping and the optimizer steps of [fit]. *)
Definition fit_update (y u : pyobj) (q0 : option (tensor * tensor)) (time_major : bool)
    (T : nat) (sw : switches) (before : VJF) : M VJF unit :=
  (self <- get ;;
   let g := backward (weights self) (fit_cost y u q0 time_major T before) in
   g <- lift (clip_grad_value (clip_gradients self) g) ;;
   modify (fun s => set_weights
             (when (sw_noise sw) (noise_step g)
                (when (sw_encoder sw) (fun w => encoder_scheduler_step (encoder_step g w))
                   (when (sw_dynamics sw) (fun w => dynamics_scheduler_step (dynamics_step g w))
                      (when (sw_decoder sw) (fun w => decoder_scheduler_step (decoder_step g w))
                         (weights s))))) s))%meth.

(** [torch.isclose(loss, new_loss)]; [loss] starts as [torch.tensor(nan)],
    here [None], which is close to nothing. *)
Definition converged (loss : option F) (new_loss : F) : bool :=
  match loss with
  | None => false
  | Some l => isclose l new_loss
  end.

(** The [for ... else] loop of [fit]; [out] is bound once an iteration has
    run. *)
Fixpoint fit_loop (max_iter : nat) (y u : pyobj) (q0 : option (tensor * tensor))
    (time_major : bool) (T : nat) (sw : switches)
    (out : option (tensor * tensor)) (loss : option F)
  : M VJF (option (tensor * tensor) * option F) :=
  match max_iter with
  | 0 =>
      (print write "Maximum iteration reached." ;;;
       ret (out, loss))%meth
  | S n =>
      (before <- get ;;
       r <- fit_pass y u q0 time_major T ;;
       let '(mu, logvar, new_loss) := r in
       if converged loss new_loss
       then (print write "Converged" ;;;
             ret (Some (mu, logvar), loss))
       else (fit_update y u q0 time_major T sw before ;;;
             fit_loop n y u q0 time_major T sw (Some (mu, logvar)) (Some new_loss)))%meth
  end.

(** [y.shape[0] if time_major else y.shape[1]] *)
Definition time_steps (y : pyobj) (time_major : bool) : res nat :=
  match y with
  | PyNone => Raise AttributeError
  | PyArray a =>
      match shape a with
      | s0 :: rest =>
          if time_major then Ok s0
          else match rest with s1 :: _ => Ok s1 | [] => Raise IndexError end
      | [] => Raise IndexError
      end
  end.

(** [VJF.fit]; the loss returned is [None] for [torch.tensor(nan)]. *)
Definition fit (y u : pyobj) (q0 : option (tensor * tensor)) (time_major : bool)
    (max_iter : nat) (sw : switches)
  : M VJF (tensor * tensor * option F) :=
  (T <- lift (time_steps y time_major) ;;
   r <- fit_loop max_iter y u q0 time_major T sw None None ;;
   match r with
   | (Some (mu, logvar), loss) => ret (mu, logvar, loss)
   | (None, _) => lift (Raise UnboundLocalError)
   end)%meth.

(** The loop of [forecast]: steps [i], [i + 1], ... *)
Fixpoint forecast_loop (self : VJF) (step i : nat) (x u : tensor) : res tensor :=
  match step with
  | 0 => Ok x
  | S n =>
      (xi <- select0 x i ;;
       m <- system (weights self) xi u ;;
       noise <- tmul (randn (draws self + i) (shape m)) (state_noise_std (weights self)) ;;
       v <- tadd m noise ;;
       x <- set0 x (i + 1) v ;;
       forecast_loop self n (i + 1) x u)%py
  end.

(** [VJF.forecast] *)
Definition forecast (self : VJF) (x0 : tensor) (step : nat) (inclusive : bool)
  : res (tensor * tensor) :=
  (let x0 := atleast_2d x0 in
   size <- ModulePy.shape0 x0 ;;
   let x := empty [step + 1; size; xdim self] in
   let u := zeros [size; udim self] in
   x <- set0 x 0 x0 ;;
   x <- forecast_loop self step 0 x u ;;
   y <- decode (weights self) x ;;
   if inclusive then Ok (x, y)
   else (x <- drop_first x ;; y <- drop_first y ;; Ok (x, y)))%py.

End Online.
End OnlinePy.

(* ================================================================== *)
(** * The import statements of the package *)

(** Loading a module runs its top-level statements in order.  Each one
    binds names in the namespace of the module; [from m import a] needs [m]
    to load and to have an attribute [a]. *)

Module Imports.

Local Open Scope string_scope.

Inductive stmt : Set :=
| Import (module : string)                          (* import m *)
| FromImport (module : string) (names : list (string * string))
                                                    (* from m import a as b, ... *)
| ClassDef (name : string)                          (* class C: ... *)
| FunctionDef (name : string).                      (* def f(...): ... *)

Definition namespace : Set := list string.

(** What importing a module gives: its namespace, or the exception raised. *)
Definition loader : Type := string -> res namespace.

Definition bound (name : string) (ns : namespace) : bool :=
  existsb (String.eqb name) ns.

Definition exec_stmt (load : loader) (ns : namespace) (s : stmt) : res namespace :=
  match s with
  | Import m => (_ <- load m ;; Ok (m :: ns))%py
  | FromImport m names =>
      (mns <- load m ;;
       if forallb (fun n => bound (fst n) mns) names
       then Ok (map snd names ++ ns)%list
       else Raise ImportError)%py
  | ClassDef name => Ok (name :: ns)
  | FunctionDef name => Ok (name :: ns)
  end.

Definition exec_module (load : loader) (body : list stmt) : res namespace :=
  fold_left (fun acc s => (ns <- acc ;; exec_stmt load ns s)%py) body (Ok []).

Definition same (name : string) : string * string := (name, name).

(** The top level of src/vjf/module.py *)
Definition module_py : list stmt :=
  [ FromImport "typing" [same "Union"];
    Import "torch";
    FromImport "torch" [same "Tensor"; same "linalg"];
    FromImport "torch.nn" [same "Parameter"; same "Module"; same "functional"];
    FromImport "vjf.functional" [same "rbf"];
    FromImport "vjf" [same "kalman"];
    FromImport "vjf.util" [same "symmetric"];
    ClassDef "RBF";
    ClassDef "LinearRegression" ].

(** The top level of src/vjf/model.py *)
Definition model_py : list stmt :=
  [ FromImport "itertools" [same "zip_longest"];
    FromImport "typing" [same "Tuple"; same "Sequence"; same "Union"];
    Import "torch";
    FromImport "torch" [same "Tensor"];
    FromImport "torch.nn" [same "Module"; same "Linear"; same "functional"; same "Parameter"];
    FromImport "torch.optim" [same "Adam"];
    FromImport "torch.optim.lr_scheduler" [same "ExponentialLR"];
    FromImport "tqdm" [same "trange"];
    FromImport "vjf.functional" [("gaussian_entropy", "entropy")];
    FromImport "vjf.module" [same "bLinReg"; same "RBF"];
    FromImport "vjf.recognition" [same "DiagonalGaussian"; same "Recognition"];
    FromImport "vjf.util" [same "reparametrize"];
    ClassDef "GaussianLikelihood";
    ClassDef "PoissonLikelihood";
    FunctionDef "detach";
    ClassDef "VJF";
    ClassDef "RBFLDS" ].

(** The loader of the package: [vjf.module] and [vjf.model] are the two
    files above; every other module is whatever the environment [ext] has. *)
Definition load_module (ext : loader) : res namespace :=
  exec_module ext module_py.

Definition package (ext : loader) : loader :=
  fun m => if String.eqb m "vjf.module" then load_module ext else ext m.

Definition load_model (ext : loader) : res namespace :=
  exec_module (package ext) model_py.

(** [from vjf.model import name], as a caller that wants to construct the
    class would write it. *)
Definition import_from_model (ext : loader) (name : string) : res unit :=
  (ns <- load_model ext ;;
   if bound name ns then Ok tt else Raise ImportError)%py.

End Imports.

(* ================================================================== *)
(** * Predicates and reference definitions used in the statements *)

Module Spec.
Section Spec.
Context {Sc : Scalar}.

(** The regressor applied to features, [feat @ w]: every feature vector
    (the last axis of [feat], of length [k]) is multiplied with the [k x c]
    weight matrix, and the axes of [feat] before the last are kept. *)
Definition apply_weights (feat w : tensor) : res tensor :=
  match rev (shape feat), shape w with
  | k :: lead, [k'; c] =>
      if k =? k'
      then Ok (tabulate (rev lead ++ [c])
                 (fun n => dot k (fun l => nth (n / c * k + l) (data feat) zero)
                                 (fun l => get2 w l (n mod c))))
      else Raise RuntimeError
  | _, _ => Raise RuntimeError
  end.

(** A parameter vector broadcast to a batch: one row per batch element,
    every row the vector. *)
Definition broadcast_to_batch (batch : nat) (v : list F) : tensor :=
  tab2 batch (length v) (fun _ j => nth j v zero).

(** "The step starts from the learned parameters": some mean and log
    variance among the trained parameters, which training can change, are
    what [feed] starts from when it gets no previous posterior. *)
Definition feed_starts_from_learned_prior (Weights : Type) : Prop :=
  exists learned : Weights -> list F * list F,
    (exists w1 w2, learned w1 <> learned w2) /\
    forall (self : OnlinePy.VJF Weights) (batch : nat),
      OnlinePy.feed_start self batch None =
      (broadcast_to_batch batch (fst (learned (OnlinePy.weights self))),
       broadcast_to_batch batch (snd (learned (OnlinePy.weights self)))).

(** The normal equations of ordinary least squares, [F^T F w = F^T y] for
    the features [F] of [x], tested with [torch.allclose]. *)
Definition solves_least_squares (feature : ModulePy.Feature) (x target w : tensor)
  : res bool :=
  (feat <- ModulePy.feature_forward feature x ;;
   ft <- t feat ;;
   ftf <- mm ft feat ;;
   lhs <- mm ftf w ;;
   rhs <- mm ft target ;;
   allclose lhs rhs)%py.

(** "After a reset, one [rls] update with one data point reproduces
    ordinary least squares on that point." *)
Definition rls_after_reset_is_least_squares : Prop :=
  forall (self after : ModulePy.LinearRegression) (x target : tensor)
         (v : ModulePy.number) (diffusion : F) (dim dim' : nat),
    shape x = [1; dim] -> shape target = [1; dim'] ->
    ModulePy.rls x target v diffusion (snd (ModulePy.reset self)) = (Ok tt, after) ->
    solves_least_squares (ModulePy.feature self) x target (ModulePy.w_mean after)
    = Ok true.

(** What [rls] computes for a regressor with one feature and one output,
    operation by operation: the stored precision [p] after the forgetting
    step, the new precision, the gain and the new weight, for the feature
    value [f], the target [y], the noise [v], the diffusion [d] and the
    stored weight [m]. *)
Definition forgotten (p d : F) : F :=
  let L := sqrt (sub (add p (mul (div one d) one)) zero) in
  let H := div (sub p zero) L in
  sub p (add zero (mul H H)).

Definition new_precision (p f v d : F) : F :=
  add (forgotten p d) (add zero (mul (div f (sqrt v)) (div f (sqrt v)))).

Definition gain (p m f y v d : F) : F :=
  add (add zero (mul (forgotten p d) m))
      (add zero (mul (div f (sqrt v)) (div y (sqrt v)))).

Definition new_weight (p m f y v d : F) : F :=
  let L := sqrt (sub (new_precision p f v d) zero) in
  div (sub (div (sub (gain p m f y v d) zero) L) zero) L.

(** "The loop stops once the loss has settled": whenever the loss an
    iteration [k >= 1] within the budget computes is the loss of the
    iteration before it, no more than [k] updates are made.  [updates N] is
    the number of optimizer steps [fit] makes with the budget [N], and
    [loss_at k] the loss of iteration [k]. *)
Definition stops_once_settled {Loss : Type} (updates : nat -> nat)
    (loss_at : nat -> option Loss) : Prop :=
  forall N k, 1 <= k -> k < N ->
    loss_at k <> None -> loss_at (k - 1) = loss_at k ->
    updates N <= k.

(** The Gaussian negative log likelihood, in the words of the
    specification: [0.5 * (mse * precision + logvar)] with
    [precision = exp(-logvar)], summed over the [d] output dimensions and
    averaged over the [b] elements of the batch; [mse i j] is the squared
    error of output [j] of batch element [i]. *)
Definition gaussian_nll {E : Exp Sc} (mse : nat -> nat -> F) (logvar : F) (b d : nat) : F :=
  let precision := exp (neg logvar) in
  div (sum_list
         (map (fun i =>
                 sum_list
                   (map (fun j => mul half (add (mul (mse i j) precision) logvar))
                        (seq 0 d)))
              (seq 0 b)))
      (of_nat b).

End Spec.
End Spec.

Import Spec.

(* ================================================================== *)
(** * Concrete inputs *)

(** A regressor with one feature, the input itself, in binary32. *)
Module Example32.
Import Binary32 ModulePy.

Definition num (z : Z) : F := of_Z z.

Definition identity_feature (n : nat) : Feature := mkFeature n (fun x => Ok x).

Definition lr0 : LinearRegression := init (identity_feature 1) 1.

(** One data point: input 1, target 1, noise 1. *)
Definition x1 : tensor := mkT [1; 1] [num 1].
Definition y1 : tensor := mkT [1; 1] [num 1].
Definition v1 : number := PyTensor (mkT [1] [num 1]).

(** The input 0 and the noise 0. *)
Definition x0 : tensor := mkT [1; 1] [zero].
Definition v0 : number := PyTensor (mkT [1] [zero]).

(** A regressor with two features, the input itself, and the weights
    [[1, 0], [1, 1]]; a state with one axis. *)
Definition lr2 : LinearRegression :=
  mkLinearRegression (identity_feature 2) 2
    (of_rows 2 2 [[num 1; zero]; [num 1; num 1]]) (eye 2) (eye 2).
Definition point2 : tensor := mkT [2] [num 1; num 4].

End Example32.

(** An environment in which every module outside the two source files
    loads and has every name asked of it. *)
Module ExampleEnv.
Import Imports.
Local Open Scope string_scope.

Definition everything : namespace :=
  [ "Union"; "Tuple"; "Sequence"; "Tensor"; "linalg"; "Parameter"; "Module";
    "Linear"; "functional"; "Adam"; "ExponentialLR"; "trange"; "zip_longest";
    "rbf"; "gaussian_entropy"; "kalman"; "symmetric"; "reparametrize";
    "DiagonalGaussian"; "Recognition" ].

Definition complete : loader := fun _ => Ok everything.

End ExampleEnv.

(** A small model in exact arithmetic.  The weights count the optimizer
    steps taken; the sub-modules pass their input on, so that every step
    has the same loss. *)
Module ExampleExact.
Import Exact.

#[export] Instance real_exp : Exp Exact.scalar := Rtrigo_def.exp.

Definition modules : ModelPy.Modules nat := {|
  ModelPy.transition := fun _ x _ => Ok x;
  ModelPy.transition_loss := fun _ _ _ => Ok (scalar_tensor zero);
  ModelPy.recognition := fun _ _ pt => Ok (ModelPy.mkDG pt pt);
  ModelPy.decoder := fun _ xt => Ok xt;
  ModelPy.reparametrize := fun _ q => Ok (ModelPy.dg_mean q);
  ModelPy.entropy := fun _ => Ok (scalar_tensor zero);
  ModelPy.adam := fun self _ =>
    ModelPy.mkVJF (ModelPy.likelihood self) (ModelPy.mean self) (ModelPy.logvar self)
                  (S (ModelPy.weights self)) (ModelPy.draws self)
|}.

(** [ydim = xdim = 1], Gaussian likelihood, no optimizer step taken yet. *)
Definition model0 : ModelPy.VJF nat :=
  ModelPy.mkVJF ModelPy.gaussian_init [zero] [zero] 0 0.

(** One observation of one batch element: the number 0. *)
Definition obs1 : tensor := mkT [1; 1] [zero].

(** A fresh regressor with one feature, the input itself, and the data
    point (1, 1) at noise 1. *)
Definition regressor0 : ModulePy.LinearRegression :=
  ModulePy.init (ModulePy.mkFeature 1 (fun x => Ok x)) 1.
Definition point1 : tensor := mkT [1; 1] [one].
Definition noise1 : ModulePy.number := ModulePy.PyTensor (mkT [1] [one]).

Definition parts : OnlinePy.Parts nat unit := {|
  OnlinePy.recognizer := fun _ _ _ q => Ok q;
  OnlinePy.elbo := fun _ _ _ _ _ _ _ => Ok (zero, zero, zero);
  OnlinePy.system := fun _ x _ => Ok x;
  OnlinePy.state_noise_std := fun _ => mkT [1] [zero];
  OnlinePy.decode := fun _ x => Ok x;
  OnlinePy.backward := fun _ _ => tt;
  OnlinePy.clip_grad_value := fun _ g => Ok g;
  OnlinePy.decoder_step := fun _ w => S w;
  OnlinePy.dynamics_step := fun _ w => w;
  OnlinePy.encoder_step := fun _ w => w;
  OnlinePy.noise_step := fun _ w => w;
  OnlinePy.decoder_scheduler_step := fun w => w;
  OnlinePy.dynamics_scheduler_step := fun w => w;
  OnlinePy.encoder_scheduler_step := fun w => w;
  OnlinePy.randn := fun _ s => zeros s
|}.

Definition online0 : OnlinePy.VJF nat :=
  OnlinePy.mkVJF 1 1 0 None 0 0 [].

(** [fit] of model.py on the one observation [obs1]: the model after a
    budget of [N] iterations, the optimizer steps it has taken, and the
    loss the iteration after those would compute. *)
Definition model_after (N : nat) : ModelPy.VJF nat :=
  snd (ModelPy.fit (Mods := modules) (ModelPy.PyArray obs1) ModelPy.PyNone N model0).

Definition model_updates (N : nat) : nat := ModelPy.weights (model_after N).

Definition model_loss_at (k : nat) : option tensor :=
  match ModelPy.pass_loss (Mods := modules)
          [(ModelPy.PyArray (mkT [1] [zero]), ModelPy.PyNone)] (model_after k) with
  | Ok l => Some l
  | Raise _ => None
  end.

End ExampleExact.

(** The orchestrator of online.py in binary32, on a sequence of two time
    steps.  The weights count the steps of the decoder optimizer; the ELBO
    is [elbo_of] of the weights. *)
Module ExampleOnline32.
Import Binary32 OnlinePy.

Definition parts_of (elbo_of : nat -> F) : Parts nat unit := {|
  recognizer := fun _ _ _ q => Ok q;
  elbo := fun w _ _ _ _ _ _ => Ok (elbo_of w, zero, zero);
  system := fun _ x _ => Ok x;
  state_noise_std := fun _ => mkT [1] [zero];
  decode := fun _ x => Ok x;
  backward := fun _ _ => tt;
  clip_grad_value := fun _ g => Ok g;
  decoder_step := fun _ w => S w;
  dynamics_step := fun _ w => w;
  encoder_step := fun _ w => w;
  noise_step := fun _ w => w;
  decoder_scheduler_step := fun w => w;
  dynamics_scheduler_step := fun w => w;
  encoder_scheduler_step := fun w => w;
  randn := fun _ s => zeros s
|}.

(** The loss never moves. *)
Definition steady : Parts nat unit := parts_of (fun _ => zero).
(** The loss moves by one with every update. *)
Definition moving : Parts nat unit := parts_of (fun w => of_nat w).

Definition online0 : VJF nat := mkVJF 1 1 1 None 0 0 [].

(** One batch element, two time steps, batch axis first. *)
Definition ys : ModelPy.pyobj := ModelPy.PyArray (mkT [1; 2; 1] [zero; zero]).
Definition us : ModelPy.pyobj := ModelPy.PyArray (mkT [1; 2; 1] [zero; zero]).

Definition all_but_noise : switches := mkSwitches true true true false.

Definition run (p : Parts nat unit) (max_iter : nat) :=
  fit (parts := p) ys us None false max_iter all_but_noise online0.

End ExampleOnline32.

(* ================================================================== *)
(** * The outer loop of fit, unrolled *)

(** The iterations of [VJF.fit] of online.py one after the other, without
    the convergence test: iteration [k] runs one pass over the sequence and
    then the update. *)
Module FitSpec.
Section FitSpec.
Context {Sc : Scalar} {Weights Grads : Type} {parts : OnlinePy.Parts Weights Grads}.
Import OnlinePy.

Variables (y u : ModelPy.pyobj) (q0 : option (tensor * tensor)) (time_major : bool)
          (T : nat) (sw : switches).

(** One iteration: the state after its update, when neither the pass nor
    the update raises. *)
Definition round (st : VJF Weights) : option (VJF Weights) :=
  match fit_pass y u q0 time_major T st with
  | (Ok _, after_pass) =>
      match fit_update y u q0 time_major T sw st after_pass with
      | (Ok _, after_update) => Some after_update
      | (Raise _, _) => None
      end
  | (Raise _, _) => None
  end.

(** The state in which iteration [k] starts. *)
Fixpoint state_at (k : nat) (st : VJF Weights) : option (VJF Weights) :=
  match k with
  | 0 => Some st
  | S k' =>
      match round st with
      | Some st' => state_at k' st'
      | None => None
      end
  end.

(** The pass of iteration [k]: posterior mean and log variance, total
    loss, and the state the pass leaves. *)
Definition pass_at (k : nat) (st : VJF Weights)
  : option (tensor * tensor * F * VJF Weights) :=
  match state_at k st with
  | Some s =>
      match fit_pass y u q0 time_major T s with
      | (Ok r, after_pass) => Some (r, after_pass)
      | (Raise _, _) => None
      end
  | None => None
  end.

(** The total loss iteration [k] computes. *)
Definition loss_at (k : nat) (st : VJF Weights) : option F :=
  match pass_at k st with
  | Some (_, _, l, _) => Some l
  | None => None
  end.

(** The loss of iteration [k] is within the tolerance of [torch.isclose]
    of the loss of the iteration before it. *)
Definition close_at (k : nat) (st : VJF Weights) : bool :=
  match k with
  | 0 => false
  | S k' =>
      match loss_at k' st, loss_at k st with
      | Some before, Some now => isclose before now
      | _, _ => false
      end
  end.

(** The test iteration [k] makes when the loop is entered with the previous
    loss [prev]. *)
Definition test_at (prev : option F) (k : nat) (st : VJF Weights) : bool :=
  match k with
  | 0 => match loss_at 0 st with
         | Some l => converged prev l
         | None => false
         end
  | S _ => close_at k st
  end.

(** The loss a loop entered with [prev] holds when iteration [k] starts. *)
Definition held_at (prev : option F) (k : nat) (st : VJF Weights) : option F :=
  match k with
  | 0 => prev
  | S k' => loss_at k' st
  end.

(** The posterior a loop entered with [out] holds after [n] iterations. *)
Definition out_at (out : option (tensor * tensor)) (n : nat) (st : VJF Weights)
  : option (tensor * tensor) :=
  match n with
  | 0 => out
  | S n' => match pass_at n' st with
            | Some (mu, logvar, _, _) => Some (mu, logvar)
            | None => None
            end
  end.

End FitSpec.
End FitSpec.

(* ================================================================== *)
(** * src/vjf/module.py: the feature bank and the Kalman update *)

Module RBFPy.
Section RBF.
Context {Sc : Scalar} {E : Exp Sc}.

(** [rbf] of vjf/functional.py is not among the source files: it is taken
    as it is called, [rbf(x, centroid, width)]. *)
Variable rbf : tensor -> tensor -> tensor -> res tensor.

(** class RBF: radial basis functions *)
Record RBF : Type := mkRBF {
  n_basis : nat;
  intercept : bool;
  centroid : tensor;
  logwidth : tensor
}.

(** [RBF.__init__]; [rand shape] is [torch.rand] of that shape. *)
Definition init (rand : list nat -> tensor) (n_dim n_basis : nat) (intercept : bool) : RBF :=
  {| n_basis := n_basis;
     intercept := intercept;
     centroid := tmap (fun x => sub (mul x (of_nat 4)) (of_nat 2)) (rand [n_basis; n_dim]);
     logwidth := zeros [n_basis] |}.

(** [RBF.n_feature] *)
Definition n_feature (self : RBF) : nat :=
  if intercept self then n_basis self + 1 else n_basis self.

Definition ones (s : list nat) : tensor := tabulate s (fun _ => one).

(** [torch.column_stack((a, b))]: a tensor with at most one axis becomes a
    column, and the columns are joined along axis 1. *)
Definition as_column (a : tensor) : tensor :=
  match shape a with
  | [] | [_] => mkT [numel (shape a); 1] (data a)
  | _ => a
  end.

Definition column_stack (a b : tensor) : res tensor :=
  match shape (as_column a), shape (as_column b) with
  | [n; ca], [m; cb] =>
      if n =? m
      then Ok (tab2 n (ca + cb)
                 (fun i j => if j <? ca then get2 (as_column a) i j
                             else get2 (as_column b) i (j - ca)))
      else Raise RuntimeError
  | _, _ => Raise RuntimeError
  end.

(** [RBF.forward] *)
Definition forward (self : RBF) (x : tensor) : res tensor :=
  (output <- rbf x (centroid self) (tmap exp (logwidth self)) ;;
   if intercept self
   then (n <- ModulePy.shape0 output ;; column_stack (ones [n]) output)
   else Ok output)%py.

(** The bank as the [feature] argument of [LinearRegression]. *)
Definition as_feature (self : RBF) : ModulePy.Feature :=
  ModulePy.mkFeature (n_feature self) (forward self).

End RBF.
End RBFPy.

Module KalmanPy.
Section Kalman.
Context {Sc : Scalar}.
Import ModulePy.

(** [predict] and [update] of vjf/kalman.py are not among the source
    files: they are taken as they are called. *)
Class Kalman : Type := {
  predict : tensor -> tensor -> tensor -> tensor -> tensor -> tensor ->
            res (tensor * tensor * tensor);
  update : tensor -> tensor -> tensor -> tensor -> tensor -> tensor ->
           res (tensor * tensor)
}.

Context {K : Kalman}.

(** [tensor * v] for [v: Union[Tensor, float]] *)
Definition times (a : tensor) (v : number) : res tensor :=
  match v with
  | PyFloat c => Ok (tmap (fun x => mul x c) a)
  | PyTensor b => tmul a b
  end.

(** [LinearRegression.kalman] *)
Definition kalman (x target : tensor) (v : number) (diffusion : F)
  : M LinearRegression unit :=
  (lift (assert (leb zero diffusion)) ;;;
   self <- get ;;
   n <- lift (shape0 (w_mean self)) ;;
   let eye := eye n in
   let Q := smul diffusion eye in
   let A := eye in
   H <- lift (feature_forward (feature self) x) ;;
   h <- lift (shape0 H) ;;
   R <- lift (times (Torch.eye h) v) ;;
   p <- lift (predict (w_mean self) (w_chol self) A Q H R) ;;
   let '(yhat, mhat, Vhat) := p in
   r <- lift (update target yhat mhat Vhat H R) ;;
   let '(m, c) := r in
   modify (fun s => set_w_chol c (set_w_mean m s)))%meth.

End Kalman.
End KalmanPy.

(** The shapes [__init__] gives the three weight tensors of a regressor. *)
Module Shapes.
Section Shapes.
Context {Sc : Scalar}.
Import ModulePy.

Definition shapes_ok (self : LinearRegression) : Prop :=
  let n := n_feature (feature self) in
  shape (w_mean self) = [n; n_output self] /\
  shape (w_chol self) = [n; n] /\
  shape (w_precision self) = [n; n].

(** A noise given as a tensor with one entry. *)
Definition scalar_noise (v : number) : Prop :=
  exists a, v = PyTensor a /\ (shape a = [] \/ shape a = [1]).

End Shapes.
End Shapes.

Import Shapes.

(* ================================================================== *)
(** * src/vjf/model.py: reference definitions *)

Module Spec2.
Section Spec2.
Context {Sc : Scalar} {E : Exp Sc}.

(** The Poisson negative log likelihood of the log rates [eta] for the
    counts [target], without the term that does not depend on [eta]:
    [exp(eta) - target * eta], summed over the [d] output dimensions and
    averaged over the [b] elements of the batch. *)
Definition poisson_nll (eta target : nat -> nat -> F) (b d : nat) : F :=
  div (sum_list
         (map (fun i =>
                 sum_list
                   (map (fun j => sub (exp (eta i j)) (mul (target i j) (eta i j)))
                        (seq 0 d)))
              (seq 0 b)))
      (of_nat b).

End Spec2.
End Spec2.

Import Spec2.

(** What a step that does not train leaves alone. *)
Module Frames.
Section Frames.
Context {Sc : Scalar}.

(** model.py: the parameters of the sub-modules, the prior and the
    likelihood. *)
Definition same_params {Weights : Type} (s s' : ModelPy.VJF Weights) : Prop :=
  ModelPy.weights s' = ModelPy.weights s /\
  ModelPy.mean s' = ModelPy.mean s /\
  ModelPy.logvar s' = ModelPy.logvar s /\
  ModelPy.likelihood s' = ModelPy.likelihood s.

(** online.py: the dimensions, the clipping value and what was printed. *)
Definition same_config {Weights : Type} (s s' : OnlinePy.VJF Weights) : Prop :=
  OnlinePy.ydim s' = OnlinePy.ydim s /\
  OnlinePy.xdim s' = OnlinePy.xdim s /\
  OnlinePy.udim s' = OnlinePy.udim s /\
  OnlinePy.clip_gradients s' = OnlinePy.clip_gradients s /\
  OnlinePy.stdout s' = OnlinePy.stdout s.

(** What [s'] has printed since [s]. *)
Definition printed {Weights : Type} (s s' : OnlinePy.VJF Weights) (lines : list string) : Prop :=
  OnlinePy.ydim s' = OnlinePy.ydim s /\
  OnlinePy.xdim s' = OnlinePy.xdim s /\
  OnlinePy.udim s' = OnlinePy.udim s /\
  OnlinePy.clip_gradients s' = OnlinePy.clip_gradients s /\
  OnlinePy.stdout s' = (OnlinePy.stdout s ++ lines)%list.

(** What [fit] may print. *)
Definition fit_lines (lines : list string) : Prop :=
  lines = []
  \/ lines = ["Converged"%string]
  \/ lines = ["Maximum iteration reached."%string].

(** Training is off: [optim=False], or none of the four optimizers is
    switched on. *)
Definition untrained (sw : OnlinePy.switches) (optim : bool) : Prop :=
  optim = false \/ sw = OnlinePy.no_switch.

End Frames.
End Frames.

Import Frames.

(* ================================================================== *)
(** * src/vjf/model.py: VJF.__init__ *)

Module ModelInit.
Section ModelInit.
Context {Sc : Scalar}.

(** [VJF.__init__]: the prior mean and log variance are
    [Parameter(torch.zeros(xdim))]; [weights] stands for the parameters of
    the sub-modules it is given and of the decoder it builds, and for the
    state of its optimizer. *)
Definition init {Weights : Type} (xdim : nat) (likelihood : ModelPy.Likelihood)
    (weights : Weights) : ModelPy.VJF Weights :=
  ModelPy.mkVJF likelihood (repeat zero xdim) (repeat zero xdim) weights 0.

End ModelInit.
End ModelInit.

(* ================================================================== *)
(** * src/vjf/model.py: one iteration of fit *)

Module ModelRound.
Section ModelRound.
Context {Sc : Scalar} {E : Exp Sc} {Weights : Type} {Mods : ModelPy.Modules Weights}.
Import ModelPy.

(** The steps [fit] iterates over: [zip_longest(y, u)], with [u = [None]]
    when there is no control. *)
Definition fit_obs (y u : pyobj) : res (list (pyobj * pyobj)) :=
  (y <- as_tensor y ;;
   us <- match u with
         | PyNone => Ok [PyNone]
         | PyArray _ => (u <- as_tensor u ;; l <- unbind u ;; Ok (map PyArray l))
         end ;;
   ys <- unbind (atleast_2d y) ;;
   Ok (zip_longest (map PyArray ys) us))%py.

(** One iteration that runs to its end: the pass over the sequence, then
    the optimizer step on the loss of the pass. *)
Definition fit_round (obs : list (pyobj * pyobj)) (self : VJF Weights) : VJF Weights :=
  adam (snd (fit_pass obs None [] [] self))
       (fun m => pass_loss obs (set_draws (draws self) m)).

End ModelRound.
End ModelRound.

(* ================================================================== *)
(** * src/vjf/model.py: RBFLDS.simulate *)

Module SimulatePy.
Section Simulate.
Context {Sc : Scalar} {E : Exp Sc}.
Import ModelPy.

(** The loop of [simulate]: steps [t], [t + 1], ...  [randn k shape] is the
    [k]-th standard normal draw, of that shape; step [t] takes the draw
    [2 t] for the weights and the draw [2 t + 1] for the state noise. *)
Fixpoint simulate_loop (self : RBFLDS) (randn : nat -> list nat -> tensor)
    (s : tensor) (step t : nat) (x : tensor) : res tensor :=
  match step with
  | 0 => Ok x
  | S n =>
      (xt <- select0 x t ;;
       m <- rbflds_forward self (randn (2 * t)) xt None true ;;
       x <- set0 x (t + 1) m ;;
       x1 <- select0 x (t + 1) ;;
       noise <- tmul (randn (2 * t + 1) (shape x1)) s ;;
       v <- tadd x1 noise ;;
       x <- set0 x (t + 1) v ;;
       simulate_loop self randn s n (t + 1) x)%py
  end.

(** [RBFLDS.simulate] *)
Definition simulate (self : RBFLDS) (randn : nat -> list nat -> tensor)
    (x0 : tensor) (step : nat) : res tensor :=
  (let x := empty ((step + 1) :: shape x0) in
   x <- set0 x 0 x0 ;;
   let s := tmap exp (smul half (lds_logvar self)) in
   simulate_loop self randn s step 0 x)%py.

End Simulate.
End SimulatePy.

(* ================================================================== *)
(** * src/vjf/online.py: the configuration *)

Module ConfigPy.
Section Config.
Context {Sc : Scalar}.

Local Open Scope string_scope.

(** The values a configuration holds. *)
Inductive value : Type :=
| VNone
| VBool (b : bool)
| VInt (n : Z)
| VFloat (x : F)
| VStr (s : string)
| VTuple (l : list F).

(** A [dict] with string keys: its items in insertion order, one for each
    key. *)
Definition dict : Type := list (string * value).

(** [d.get(key)]: [None] here when the key is missing. *)
Fixpoint lookup (key : string) (d : dict) : option value :=
  match d with
  | [] => None
  | (k, v) :: d' => if String.eqb key k then Some v else lookup key d'
  end.

(** [d.setdefault(key, default)]: the dictionary afterwards. *)
Definition setdefault (key : string) (default : value) (d : dict) : dict :=
  match lookup key d with
  | Some _ => d
  | None => (d ++ [(key, default)])%list
  end.

(** [VJF.set_props]: the configuration afterwards. *)
Definition set_props (config : dict) : dict :=
  let config := setdefault "R" (VFloat one) config in
  let config := setdefault "Q" (VFloat one) config in
  let config := setdefault "likelihood" (VStr "poisson") config in
  let config := setdefault "recognizer" (VStr "mlp") config in
  let config := setdefault "system" (VStr "linear") config in
  let config := setdefault "clip_gradients" VNone config in
  let config := setdefault "activation" (VStr "tanh") config in
  let config := setdefault "batch_norm" (VBool false) config in
  setdefault "optimizer" (VStr "adam") config.

(** The defaults as one dictionary. *)
Definition defaults : dict :=
  [ ("R", VFloat one); ("Q", VFloat one); ("likelihood", VStr "poisson");
    ("recognizer", VStr "mlp"); ("system", VStr "linear");
    ("clip_gradients", VNone); ("activation", VStr "tanh");
    ("batch_norm", VBool false); ("optimizer", VStr "adam") ].

(** A dictionary has one item for each key. *)
Definition unique_keys (d : dict) : Prop := NoDup (map fst d).

End Config.
End ConfigPy.

(* ================================================================== *)
(** * More concrete inputs *)

Module ExampleMore.
Import Exact ExampleExact.

(** A Kalman module that passes the weights on. *)
Definition kalman0 : KalmanPy.Kalman (Sc := Binary32.scalar) := {|
  KalmanPy.predict := fun m c _ _ _ _ => Ok (m, m, c);
  KalmanPy.update := fun _ _ mhat Vhat _ _ => Ok (mhat, Vhat)
|}.

(** Basis functions that are all zero: one row for each input, one column
    for each centroid. *)
Definition rbf0 (x centroid width : tensor) : res tensor :=
  Ok (zeros [size x 0; size centroid 0]).

(** Two basis functions on one input dimension, with intercept. *)
Definition bank0 : RBFPy.RBF := RBFPy.init (fun s => zeros s) 1 2 true.

(** The dynamics over the one-feature regressor. *)
Definition lds0 : ModelPy.RBFLDS := ModelPy.mkRBFLDS regressor0 (mkT [1] [one]).

(** The dynamics over a regressor whose one feature is zero for every
    input, whatever its width. *)
Definition lds1 : ModelPy.RBFLDS :=
  ModelPy.mkRBFLDS
    (ModulePy.init (ModulePy.mkFeature 1 (fun x => Ok (zeros [size x 0; 1]))) 1)
    (mkT [1] [one]).

(** Draws that are all zero. *)
Definition randn0 (k : nat) (s : list nat) : tensor := zeros s.

(** A sequence without time steps. *)
Definition no_obs : tensor := mkT [0; 1] [].

(** Two time steps of observations and one of control, time axis first. *)
Definition ys2 : tensor := mkT [2; 1; 1] [zero; zero].
Definition us1 : tensor := mkT [1; 1; 1] [zero].

(** An initial state of two columns for a model of one state dimension. *)
Definition wide : tensor := mkT [1; 2] [zero; zero].

End ExampleMore.
(* ================================================================== *)
(** * Facts about tensors *)

Unset Implicit Arguments.

Section TensorFacts.
Context {Sc : Scalar}.

Lemma nth_map_seq {A : Type} (g : nat -> A) (n k : nat) (d : A) :
  k < n -> nth k (map g (seq 0 n)) d = g k.
Proof.
  intros Hk.
  rewrite (nth_indep _ d (g 0)) by (rewrite length_map, length_seq; exact Hk).
  rewrite map_nth, seq_nth by exact Hk.
  reflexivity.
Qed.

Lemma wf_tabulate (s : list nat) (g : nat -> F) : wf (tabulate s g).
Proof. unfold wf, tabulate; simpl. now rewrite length_map, length_seq. Qed.

Lemma tabulate_ext (s : list nat) (g h : nat -> F) :
  (forall k, k < numel s -> g k = h k) -> tabulate s g = tabulate s h.
Proof.
  intros E. unfold tabulate. f_equal.
  apply map_ext_in. intros k Hk. apply in_seq in Hk. apply E. lia.
Qed.

Lemma nth_tabulate (s : list nat) (g : nat -> F) (k : nat) :
  k < numel s -> nth k (data (tabulate s g)) zero = g k.
Proof. intros Hk. simpl. now apply nth_map_seq. Qed.

Lemma wf_tabulate_self (a : tensor) :
  wf a -> a = tabulate (shape a) (fun k => nth k (data a) zero).
Proof.
  destruct a as [s d]. unfold wf, tabulate; simpl. intros Hlen. f_equal.
  apply (nth_ext _ _ zero zero).
  - now rewrite length_map, length_seq.
  - intros k Hk. rewrite nth_map_seq by lia. reflexivity.
Qed.

Lemma numel2 (r c : nat) : numel [r; c] = r * c.
Proof. simpl. lia. Qed.

Lemma index2_lt (r c i j : nat) : i < r -> j < c -> i * c + j < r * c.
Proof. intros. nia. Qed.

Lemma index2_div (c i j : nat) : j < c -> (i * c + j) / c = i.
Proof.
  intros Hj. rewrite Nat.div_add_l by lia. rewrite Nat.div_small by exact Hj. lia.
Qed.

Lemma index2_mod (c i j : nat) : j < c -> (i * c + j) mod c = j.
Proof.
  intros Hj. rewrite Nat.add_comm, Nat.Div0.mod_add. now apply Nat.mod_small.
Qed.

Lemma get2_tab2 (r c : nat) (f : nat -> nat -> F) (i j : nat) :
  i < r -> j < c -> get2 (tab2 r c f) i j = f i j.
Proof.
  intros Hi Hj. unfold get2, tab2, size. cbn [shape tabulate nth].
  rewrite nth_tabulate by (rewrite numel2; now apply index2_lt).
  now rewrite index2_div, index2_mod.
Qed.

Lemma shape_tab2 (r c : nat) (f : nat -> nat -> F) : shape (tab2 r c f) = [r; c].
Proof. reflexivity. Qed.

Lemma tab2_ext (r c : nat) (f g : nat -> nat -> F) :
  (forall i j, i < r -> j < c -> f i j = g i j) -> tab2 r c f = tab2 r c g.
Proof.
  intros E. unfold tab2. apply tabulate_ext. intros k Hk. rewrite numel2 in Hk.
  assert (c <> 0) by (intros ->; lia).
  apply E.
  - apply Nat.Div0.div_lt_upper_bound. lia.
  - now apply Nat.mod_upper_bound.
Qed.

(** ** Dot products *)

Lemma dot_ext (n : nat) (f g f' g' : nat -> F) :
  (forall k, k < n -> f k = f' k) -> (forall k, k < n -> g k = g' k) ->
  dot n f g = dot n f' g'.
Proof.
  intros Ef Eg. unfold dot.
  assert (H : forall l acc, (forall k, In k l -> k < n) ->
            fold_left (fun acc k => add acc (mul (f k) (g k))) l acc =
            fold_left (fun acc k => add acc (mul (f' k) (g' k))) l acc).
  { induction l as [|k l IH]; intros acc Hl; simpl; [reflexivity|].
    rewrite Ef, Eg by (apply Hl; now left). apply IH. intros; apply Hl; now right. }
  apply H. intros k Hk. apply in_seq in Hk. lia.
Qed.

Lemma src_same (s : list nat) (k : nat) : k < numel s -> src s s k = k.
Proof.
  revert k. induction s as [|n s IH]; intros k Hk; simpl in *.
  - lia.
  - assert (n <> 0) by (intros ->; lia).
    rewrite IH by (apply Nat.Div0.div_lt_upper_bound; lia).
    destruct (n =? 1) eqn:E.
    + apply Nat.eqb_eq in E. subst n. rewrite Nat.div_1_r. lia.
    + rewrite (Nat.div_mod_eq k n) at 3. lia.
Qed.

Lemma numel_rev (s : list nat) : numel (rev s) = numel s.
Proof.
  induction s as [|n s IH]; simpl; [reflexivity|].
  unfold numel in *. rewrite fold_right_app. simpl.
  rewrite <- IH. clear IH. generalize (rev s). intros l.
  induction l as [|m l IH]; simpl; [lia|]. rewrite IH. lia.
Qed.

Lemma bget_same (a : tensor) (k : nat) :
  k < numel (shape a) -> bget (shape a) a k = nth k (data a) zero.
Proof.
  intros Hk. unfold bget. rewrite src_same; [reflexivity|]. now rewrite numel_rev.
Qed.

End TensorFacts.

(* ================================================================== *)
(** * src/vjf/module.py: the regressor *)

Section RegressionFacts.
Context {Sc : Scalar}.
Import ModulePy.

Lemma triangular_solve_shape (b A H : tensor) (n m : nat) :
  shape b = [n; m] -> triangular_solve b A = Ok H -> shape H = [n; m].
Proof.
  intros Hb. unfold triangular_solve. rewrite Hb.
  destruct (shape A) as [|a [|a' [|? ?]]]; try discriminate.
  destruct ((a =? a') && (a =? n)) eqn:E; [|discriminate].
  apply andb_prop in E. destruct E as [_ E]. apply Nat.eqb_eq in E. subst a.
  intros [= <-]. reflexivity.
Qed.

Ltac run_lift :=
  match goal with
  | |- context [match ?r with Ok _ => _ | Raise _ => _ end] =>
      let E := fresh "E" in destruct r eqn:E; cbn [fst snd]
  end.

(** C1.  The update divides by [diffusion] before anything else is computed
    from it: called with a diffusion equal to zero, on a regressor that holds
    a square precision matrix, [rls] raises [ZeroDivisionError] and leaves
    the regressor untouched.  There is no zero-diffusion path. *)
Theorem rls_zero_diffusion_raises (self : LinearRegression) (n : nat)
    (x target : tensor) (v : number) (diffusion : F) :
  shape (w_precision self) = [n; n] ->
  eqb diffusion zero = true ->
  rls x target v diffusion self = (Raise ZeroDivisionError, self).
Proof.
  intros HP Hz. unfold rls, mbind, lift, get. cbn [fst snd].
  unfold shape0. rewrite HP. unfold py_div. now rewrite Hz.
Qed.

(** A call that returns has passed its check. *)
Lemma rls_returns_checked (x target : tensor) (v : number) (diffusion : F)
    (self : LinearRegression) :
  fst (rls x target v diffusion self) = Ok tt ->
  let P := w_precision (snd (rls x target v diffusion self)) in
  (Pt <- t P ;; allclose P Pt)%py = Ok true.
Proof.
  unfold rls, mbind, lift, get, modify. cbn [fst snd].
  repeat (run_lift; [ | discriminate ]).
  intros _. cbn [w_precision set_w_mean set_w_precision] in *.
  rewrite E17. cbn [bind]. rewrite E18.
  destruct a18; [reflexivity | discriminate E19].
Qed.

(** [rls] on a regressor with one feature and one output, one data
    point. *)
Lemma rls_one_feature (self : LinearRegression) (x : tensor) (p m f y v d : F) :
  w_precision self = mkT [1; 1] [p] ->
  w_mean self = mkT [1; 1] [m] ->
  feature_forward (feature self) x = Ok (mkT [1; 1] [f]) ->
  eqb d zero = false ->
  ltb zero (sub (add p (mul (div one d) one)) zero) = true ->
  isclose (new_precision p f v d) (new_precision p f v d) = true ->
  ltb zero (sub (new_precision p f v d) zero) = true ->
  rls x (mkT [1; 1] [y]) (PyTensor (mkT [1] [v])) d self
  = (Ok tt, set_w_mean (mkT [1; 1] [new_weight p m f y v d])
              (set_w_precision (mkT [1; 1] [new_precision p f v d]) self)).
Proof.
  intros Hp Hm Hf Hd Hpivot Hclose Hpivot'.
  unfold new_weight, gain in *. unfold new_precision, forgotten in *.
  unfold rls, mbind, lift, get, modify. cbn [fst snd].
  rewrite Hp, Hm, Hf. cbn [shape0 shape]. unfold py_div. rewrite Hd.
  cbn. rewrite Hpivot. cbn. rewrite Hclose. cbn. rewrite Hpivot'. cbn.
  reflexivity.
Qed.

Lemma reset_state (self : LinearRegression) :
  reset self
  = (Ok tt, set_w_chol (eye (n_feature (feature self)))
              (set_w_mean (zeros_like (w_mean self)) self)).
Proof. reflexivity. Qed.

End RegressionFacts.

(* ================================================================== *)
(** * The regressor in exact arithmetic *)

Section ExactRegression.
Import Exact ModulePy.
Local Open Scope R_scope.

Ltac over_R := match goal with |- ?a = ?b => change (@eq R a b) end.

Lemma Rbool_true (P Q : Prop) (d : {P} + {Q}) : P -> ~ Q -> Rbool d = true.
Proof. intros HP HQ. destruct d; [reflexivity | contradiction]. Qed.

Lemma Rbool_false (P Q : Prop) (d : {P} + {Q}) : ~ P -> Rbool d = false.
Proof. intros HP. destruct d; [contradiction | reflexivity]. Qed.

Lemma exact_ltb_true (x y : R) : x < y -> ltb (Scalar := Exact.scalar) x y = true.
Proof. intros H. apply Rbool_true; [exact H | tauto]. Qed.

Lemma exact_eqb_false (x y : R) : x <> y -> eqb (Scalar := Exact.scalar) x y = false.
Proof. intros H. now apply Rbool_false. Qed.

Lemma exact_isclose_refl (x : R) : isclose (Sc := Exact.scalar) x x = true.
Proof.
  unfold isclose.
  assert (H : eqb (Scalar := Exact.scalar) x x = true)
    by (apply Rbool_true; [reflexivity | tauto]).
  now rewrite H.
Qed.

Lemma div_sqrt_sq (a x : R) : 0 < x -> a / R_sqrt.sqrt x * (a / R_sqrt.sqrt x) = a * a / x.
Proof.
  intros Hx. assert (Hs : R_sqrt.sqrt x <> 0) by (apply Rgt_not_eq, sqrt_lt_R0, Hx).
  replace (a * a / x) with (a * a / (R_sqrt.sqrt x * R_sqrt.sqrt x))
    by (rewrite sqrt_sqrt by lra; reflexivity).
  field. exact Hs.
Qed.

(** The forgetting step: the stored precision [p] becomes
    [p / (1 + d p)]. *)
Lemma exact_forgotten (p d : R) :
  0 < p -> 0 < d -> forgotten (Sc := Exact.scalar) p d = p / (1 + d * p).
Proof.
  intros Hp Hd. unfold forgotten. cbn [add sub mul div sqrt zero one Exact.scalar]. over_R.
  assert (Hpos : 0 < p + 1 / d * 1 - 0).
  { assert (0 < 1 / d) by (apply Rdiv_lt_0_compat; lra). lra. }
  rewrite (div_sqrt_sq (p - 0) _ Hpos).
  assert (0 < d * p) by (apply Rmult_lt_0_compat; lra).
  field. split; lra.
Qed.

Lemma exact_new_precision (p f v d : R) :
  0 < p -> 0 < v -> 0 < d ->
  new_precision (Sc := Exact.scalar) p f v d = p / (1 + d * p) + f * f / v.
Proof.
  intros Hp Hv Hd. unfold new_precision. rewrite (exact_forgotten p d Hp Hd).
  cbn [add sub mul div sqrt zero one Exact.scalar]. over_R.
  rewrite (div_sqrt_sq f v Hv). lra.
Qed.

Lemma exact_new_precision_pos (p f v d : R) :
  0 < p -> 0 < v -> 0 < d -> 0 < p / (1 + d * p) + f * f / v.
Proof.
  intros Hp Hv Hd.
  assert (0 < d * p) by (apply Rmult_lt_0_compat; lra).
  assert (0 < p / (1 + d * p)) by (apply Rdiv_lt_0_compat; lra).
  assert (0 <= f * f) by nra.
  assert (0 <= f * f / v) by (apply Rmult_le_pos; [lra | left; now apply Rinv_0_lt_compat]).
  lra.
Qed.

(** The new weight, from a zero weight: least squares with the forgotten
    precision as a ridge. *)
Lemma exact_new_weight (p f y v d : R) :
  0 < p -> 0 < v -> 0 < d ->
  new_weight (Sc := Exact.scalar) p 0 f y v d
  = f * y / (f * f + v * p / (1 + d * p)).
Proof.
  intros Hp Hv Hd. unfold new_weight, gain.
  rewrite (exact_new_precision p f v d Hp Hv Hd), (exact_forgotten p d Hp Hd).
  cbn [add sub mul div sqrt zero one Exact.scalar]. over_R.
  pose proof (exact_new_precision_pos p f v d Hp Hv Hd) as Hpos.
  set (P := p / (1 + d * p) + f * f / v) in *.
  assert (HL : R_sqrt.sqrt (P - 0) <> 0) by (apply Rgt_not_eq, sqrt_lt_R0; lra).
  assert (Hsv : R_sqrt.sqrt v <> 0) by (apply Rgt_not_eq, sqrt_lt_R0, Hv).
  assert (Hfy : f / R_sqrt.sqrt v * (y / R_sqrt.sqrt v) = f * y / v).
  { replace (f * y / v) with (f * y / (R_sqrt.sqrt v * R_sqrt.sqrt v))
      by (rewrite sqrt_sqrt by lra; reflexivity).
    field. exact Hsv. }
  rewrite Hfy.
  assert (Hdp : 0 < d * p) by (apply Rmult_lt_0_compat; lra).
  assert (HLL : R_sqrt.sqrt (P - 0) * R_sqrt.sqrt (P - 0) = P).
  { rewrite sqrt_sqrt by lra. lra. }
  set (L := R_sqrt.sqrt (P - 0)) in *.
  transitivity (f * y / v / (L * L)).
  - field; repeat split; first [lra | exact HL].
  - rewrite HLL. unfold P.
    assert (0 < v * p / (1 + d * p)).
    { apply Rdiv_lt_0_compat; [apply Rmult_lt_0_compat|]; lra. }
    assert (0 <= f * f) by nra.
    field; repeat split; first [lra | nra].
Qed.

Lemma ridge_differs (f y c : R) :
  0 < c -> f <> 0 -> y <> 0 -> f * y / (f * f + c) <> y / f.
Proof.
  intros Hc Hf Hy Heq.
  assert (Hden : f * f + c <> 0) by nra.
  assert (E1 : f * y / (f * f + c) * (f * (f * f + c)) = f * f * y) by (field; exact Hden).
  assert (E2 : y / f * (f * (f * f + c)) = y * (f * f + c)) by (field; exact Hf).
  rewrite Heq, E2 in E1.
  assert (E3 : y * c = 0) by lra.
  apply Rmult_integral in E3. destruct E3; [contradiction | lra].
Qed.

End ExactRegression.

Section ResetFacts.
Context {Sc : Scalar}.
Import ModulePy.

Lemma zeros_data (s : list nat) : Forall (eq zero) (data (zeros s)).
Proof.
  unfold zeros, tabulate. cbn [data]. apply Forall_forall.
  intros x Hx. apply in_map_iff in Hx. now destruct Hx as (k & <- & _).
Qed.

(** C8, as the code has it.  [reset] sets the weight mean to zeros of its
    shape and the covariance factor to the identity, and leaves the
    precision as it is.  An [rls] update after it is therefore least
    squares with the stored precision as a ridge, not ordinary least
    squares: in exact arithmetic, for one feature of value [f], the target
    [y], the noise [v > 0], the diffusion [d > 0] and the stored precision
    [p > 0], the update returns with the precision
    [p / (1 + d p) + f^2 / v] and the weight
    [f y / (f^2 + v p / (1 + d p))], which is not the least squares
    solution [y / f] unless [y] is zero. *)
Theorem reset_then_rls (self : LinearRegression) :
  (fst (reset self) = Ok tt /\
   shape (w_mean (snd (reset self))) = shape (w_mean self) /\
   Forall (eq zero) (data (w_mean (snd (reset self)))) /\
   w_chol (snd (reset self)) = eye (n_feature (feature self)) /\
   w_precision (snd (reset self)) = w_precision self) /\
  (forall (exact : @LinearRegression Exact.scalar) (x : @tensor Exact.scalar)
          (p f y v d : R),
     (0 < p)%R -> (0 < v)%R -> (0 < d)%R ->
     w_precision exact = @mkT Exact.scalar [1; 1] [p] ->
     shape (w_mean exact) = [1; 1] ->
     feature_forward (feature exact) x = Ok (@mkT Exact.scalar [1; 1] [f]) ->
     exists after,
       @rls Exact.scalar x (@mkT Exact.scalar [1; 1] [y])
            (PyTensor (@mkT Exact.scalar [1] [v])) d (snd (reset exact))
       = (Ok tt, after) /\
       w_precision after = @mkT Exact.scalar [1; 1] [(p / (1 + d * p) + f * f / v)%R] /\
       w_mean after
       = @mkT Exact.scalar [1; 1] [(f * y / (f * f + v * p / (1 + d * p)))%R] /\
       (f <> 0 -> y <> 0 -> f * y / (f * f + v * p / (1 + d * p)) <> y / f)%R).
Proof.
  split.
  - rewrite reset_state. cbn [fst snd set_w_chol set_w_mean w_mean w_chol w_precision].
    repeat split; try reflexivity. apply zeros_data.
  - intros exact x p f y v d Hp Hv Hd HP HW HF.
    assert (Hdp : (0 < d * p)%R) by (apply Rmult_lt_0_compat; lra).
    pose proof (rls_one_feature (snd (reset exact)) x p 0%R f y v d) as Hrun.
    rewrite reset_state in Hrun |- *.
    cbn [snd set_w_chol set_w_mean w_mean w_chol w_precision feature] in Hrun |- *.
    unfold zeros_like in Hrun |- *. rewrite HW in Hrun |- *.
    specialize (Hrun HP eq_refl HF).
    eexists. split; [apply Hrun|].
    + apply exact_eqb_false. cbn [zero Exact.scalar]. lra.
    + apply exact_ltb_true. cbn [add sub mul div zero one Exact.scalar].
      assert (0 < 1 / d)%R by (apply Rdiv_lt_0_compat; lra). lra.
    + apply exact_isclose_refl.
    + apply exact_ltb_true. rewrite (exact_new_precision p f v d Hp Hv Hd).
      pose proof (exact_new_precision_pos p f v d Hp Hv Hd).
      cbn [sub zero Exact.scalar]. lra.
    + cbn [set_w_chol set_w_mean set_w_precision w_mean w_chol w_precision].
      rewrite (exact_new_precision p f v d Hp Hv Hd), (exact_new_weight p f y v d Hp Hv Hd).
      repeat split.
      intros Hf Hy. apply ridge_differs; [|exact Hf|exact Hy].
      apply Rdiv_lt_0_compat; [apply Rmult_lt_0_compat|]; lra.
Qed.

End ResetFacts.

(* ================================================================== *)
(** * The imports of src/vjf/model.py *)

Section ImportFacts.
Import Imports.
Local Open Scope string_scope.

Ltac run_import load :=
  match goal with
  | |- context [load ?m] => destruct (load m) eqn:?
  | |- context [if forallb ?p ?l then _ else _] => destruct (forallb p l) eqn:?
  end; cbn [bind].

(** What module.py binds once it has run to its end. *)
Lemma module_py_namespace (ext : loader) (mns : namespace) :
  load_module ext = Ok mns ->
  mns = [ "LinearRegression"; "RBF"; "symmetric"; "kalman"; "rbf";
          "Parameter"; "Module"; "functional"; "Tensor"; "linalg"; "torch";
          "Union" ]%list.
Proof.
  unfold load_module, exec_module, module_py. cbn [fold_left bind exec_stmt].
  repeat (run_import ext; try discriminate).
  cbn. now intros [= <-].
Qed.

Lemma exec_module_raise (load : loader) (body : list stmt) (e : exn) :
  fold_left (fun acc s => (ns <- acc ;; exec_stmt load ns s)%py) body (Raise e) = Raise e.
Proof. induction body as [|s body IH]; simpl; [reflexivity | exact IH]. Qed.

(** C9.  Whatever the other modules of the environment are: when module.py
    loads, its namespace has [LinearRegression] and no [bLinReg]; loading
    model.py raises; and so does every attempt to import a name from it,
    [RBFLDS] and [VJF] included. *)
Theorem model_py_import_fails (ext : loader) :
  (forall mns, load_module ext = Ok mns ->
     bound "bLinReg" mns = false /\ bound "LinearRegression" mns = true) /\
  (exists e, load_model ext = Raise e) /\
  (forall name, exists e, import_from_model ext name = Raise e).
Proof.
  assert (H1 : forall mns, load_module ext = Ok mns ->
             bound "bLinReg" mns = false /\ bound "LinearRegression" mns = true).
  { intros mns E. rewrite (module_py_namespace ext mns E). split; reflexivity. }
  assert (H2 : exists e, load_model ext = Raise e).
  { unfold load_model, exec_module, model_py. cbn [fold_left bind exec_stmt].
    unfold package at 1 2 3 4 5 6 7 8 9. cbn [String.eqb Ascii.eqb Bool.eqb].
    repeat (run_import ext; try (eexists; reflexivity)).
    change (package ext "vjf.module") with (load_module ext).
    destruct (load_module ext) as [mns|e] eqn:E.
    - rewrite (module_py_namespace ext mns E). eexists. reflexivity.
    - eexists. reflexivity. }
  split; [exact H1|]. split; [exact H2|].
  intros name. destruct H2 as (e & E). exists e.
  unfold import_from_model. now rewrite E.
Qed.

End ImportFacts.

(* ================================================================== *)
(** * The orchestrators: no previous posterior, no control *)

Section PriorFacts.
Context {Sc : Scalar} {E : Exp Sc}.
Import ModelPy.

Lemma tile_vector (n : nat) (v : list F) :
  tile_rows n (atleast_2d (vector v)) = Ok (broadcast_to_batch n v).
Proof.
  unfold vector, atleast_2d, tile_rows. cbn [shape data].
  rewrite Nat.mul_1_r. reflexivity.
Qed.

(** [VJF.prior] on a batch of [batch] observations. *)
Lemma prior_broadcast {Weights : Type} (self : VJF Weights) (y : tensor) (batch d : nat) :
  shape y = [batch; d] ->
  prior self y =
  Ok (mkDG (broadcast_to_batch batch (mean self)) (broadcast_to_batch batch (logvar self))).
Proof.
  intros Hy. unfold prior, ndim, size. rewrite Hy. cbn [length Nat.eqb assert bind nth].
  change (nth 0 (shape (atleast_2d (vector (mean self)))) 0) with 1.
  change (nth 0 (shape (atleast_2d (vector (logvar self)))) 0) with 1.
  cbn [Nat.eqb]. rewrite !tile_vector. cbn [bind].
  unfold broadcast_to_batch. rewrite !shape_tab2. cbn [nth].
  now rewrite Nat.eqb_refl.
Qed.

Lemma broadcast_one_zero (v : list F) :
  broadcast_to_batch 1 v = zeros [1; 1] -> v = [zero].
Proof.
  unfold broadcast_to_batch, zeros, tab2, tabulate. intros [= Hlen Hdata].
  destruct v as [|x [|x' v]]; try discriminate.
  cbn in Hdata. now injection Hdata as ->.
Qed.

(** [feed] of online.py starts from zeros whatever was learned. *)
Lemma feed_start_not_learned (Weights : Type) :
  ~ feed_starts_from_learned_prior Weights.
Proof.
  intros (learned & (w1 & w2 & Hne) & H). apply Hne.
  assert (G : forall w, learned w = ([zero], [zero])).
  { intros w. specialize (H (OnlinePy.mkVJF 1 1 0 None w 0 []) 1).
    cbn [OnlinePy.feed_start OnlinePy.xdim OnlinePy.weights] in H.
    apply pair_equal_spec in H. destruct H as [H1 H2]. symmetry in H1, H2.
    apply broadcast_one_zero in H1, H2.
    destruct (learned w) as [m l]. cbn [fst snd] in *. now subst. }
  now rewrite !G.
Qed.

(** C2, as the code has it.  In model.py, a filtering step that gets no
    previous posterior is the step from the prior, and the prior of a batch
    is the learned mean and log variance, one row for each element of the
    batch.  In online.py, a step that gets no previous posterior is the
    step from the all-zero mean and log variance of shape (batch, xdim). *)
Theorem filter_without_posterior
    {Weights : Type} {Mods : Modules Weights} (self : VJF Weights)
    (a : tensor) (u : option tensor) (update : bool) (batch d : nat)
    {OWeights OGrads : Type} {parts : OnlinePy.Parts OWeights OGrads}
    (oself : OnlinePy.VJF OWeights) (y ou : tensor) (obatch : nat)
    (sw : OnlinePy.switches) (sample regularize optim : bool) :
  shape (atleast_2d a) = [batch; d] ->
  ModulePy.shape0 y = Ok obatch ->
  prior self (atleast_2d a)
  = Ok (mkDG (broadcast_to_batch batch (mean self))
             (broadcast_to_batch batch (logvar self))) /\
  filter (PyArray a) u None update self
  = filter (PyArray a) u
      (Some (mkDG (broadcast_to_batch batch (mean self))
                  (broadcast_to_batch batch (logvar self))))
      update self /\
  OnlinePy.feed (y, ou) None sw sample regularize optim oself
  = OnlinePy.feed (y, ou)
      (Some (zeros [obatch; OnlinePy.xdim oself], zeros [obatch; OnlinePy.xdim oself]))
      sw sample regularize optim oself.
Proof.
  intros Ha Hy.
  pose proof (prior_broadcast self (atleast_2d a) batch d Ha) as Hp.
  split; [exact Hp|]. split.
  - unfold filter, mbind, lift, get, ret. cbn [as_tensor_dtype]. now rewrite Hp.
  - unfold OnlinePy.feed, mbind, lift, get. now rewrite Hy.
Qed.

End PriorFacts.

Section NoControl.
Context {Sc : Scalar}.
Import ModelPy.

(** C10.  [VJF.filter] of online.py, called with [u = None], raises at the
    conversion of [u] -- with [TypeError] once [y] has been converted -- and
    the model is as it was: no step was taken.  [VJF.filter] of model.py
    does take [u = None]: the call on the example model returns. *)
Theorem online_filter_needs_control {Weights Grads : Type}
    {parts : OnlinePy.Parts Weights Grads}
    (y : pyobj) (q0 : option (tensor * tensor)) (time_major : bool)
    (sw : OnlinePy.switches) (sample regularize optim : bool)
    (self : OnlinePy.VJF Weights) :
  (exists e,
     OnlinePy.filter y PyNone q0 time_major sw sample regularize optim self
     = (Raise e, self)) /\
  (forall a,
     OnlinePy.filter (PyArray a) PyNone q0 time_major sw sample regularize optim self
     = (Raise TypeError, self)) /\
  (exists out after,
     ModelPy.filter (E := ExampleExact.real_exp) (Mods := ExampleExact.modules)
                    (PyArray ExampleExact.obs1) None None true ExampleExact.model0
     = (Ok out, after)).
Proof.
  split; [|split].
  - unfold OnlinePy.filter, mbind, lift. destruct y as [|a]; cbn; eexists; reflexivity.
  - intros a. reflexivity.
  - match goal with |- exists out after, ?run = _ => set (r := run) end.
    assert (H : is_ok (fst r) = true) by (vm_compute; reflexivity).
    destruct r as [[out|e] after]; [|discriminate].
    exists out, after. reflexivity.
Qed.

End NoControl.

(* ================================================================== *)
(** * src/vjf/model.py: the Gaussian likelihood *)

Section LikelihoodFacts.
Context {Sc : Scalar} {E : Exp Sc}.
Import ModelPy.

Lemma broadcast_same2 (b d : nat) : broadcast_shapes [b; d] [b; d] = Some [b; d].
Proof. unfold broadcast_shapes. simpl. now rewrite !Nat.eqb_refl. Qed.

Lemma broadcast_2_1 (b d : nat) : broadcast_shapes [b; d] [1] = Some [b; d].
Proof. unfold broadcast_shapes. simpl. destruct (d =? 1); reflexivity. Qed.

Lemma bget2 (a : tensor) (b d i j : nat) :
  shape a = [b; d] -> i < b -> j < d ->
  bget [b; d] a (i * d + j) = get2 a i j.
Proof.
  intros Ha Hi Hj. rewrite <- Ha. rewrite bget_same.
  - unfold get2, size. now rewrite Ha.
  - rewrite Ha, numel2. now apply index2_lt.
Qed.

Lemma bget_one (b d : nat) (x : F) (k : nat) :
  bget [b; d] (mkT [1] [x]) k = x.
Proof. reflexivity. Qed.

(** Entry [(i, j)] of a two-axis tensor combined with a one-entry tensor. *)
Lemma map2_one (f : F -> F -> F) (a : tensor) (x : F) (b d : nat) :
  shape a = [b; d] ->
  map2 f a (mkT [1] [x]) = Ok (tab2 b d (fun i j => f (get2 a i j) x)).
Proof.
  intros Ha. unfold map2. rewrite Ha. cbn [shape]. rewrite broadcast_2_1. f_equal.
  unfold tab2. apply tabulate_ext. intros k Hk. rewrite numel2 in Hk.
  assert (d <> 0) by (intros ->; lia).
  rewrite (bget_one b d x k).
  rewrite (Nat.div_mod_eq k d) at 1. rewrite (Nat.mul_comm d).
  rewrite bget2; [reflexivity | exact Ha | | now apply Nat.mod_upper_bound].
  apply Nat.Div0.div_lt_upper_bound. lia.
Qed.

Lemma tab2_data_entry (b d : nat) (f : nat -> nat -> F) (g : F -> F) (i j : nat) :
  i < b -> j < d ->
  nth (i * d + j) (map g (data (tab2 b d f))) zero = g (f i j).
Proof.
  intros Hi Hj. unfold tab2, tabulate. cbn [data]. rewrite map_map.
  rewrite nth_map_seq by (rewrite numel2; now apply index2_lt).
  now rewrite index2_div, index2_mod.
Qed.

Lemma sum_rows (b d : nat) (a : tensor) (f : nat -> nat -> F) :
  shape a = [b; d] ->
  (forall i j, i < b -> j < d -> nth (i * d + j) (data a) zero = f i j) ->
  sum_last a = Ok (mkT [b] (map (fun i => sum_list (map (f i) (seq 0 d))) (seq 0 b))).
Proof.
  intros Ha Hf. unfold sum_last. rewrite Ha. cbn [rev app]. f_equal.
  unfold tabulate. f_equal. cbn [numel fold_right]. rewrite Nat.mul_1_r.
  apply map_ext_in. intros i Hi. apply in_seq in Hi. f_equal.
  apply map_ext_in. intros j Hj. apply in_seq in Hj. apply Hf; lia.
Qed.

(** The squared error of two tensors of the same two-axis shape. *)
Lemma mse_loss_same_shape (eta target : tensor) (b d : nat) :
  shape eta = [b; d] -> shape target = [b; d] ->
  exists mse, mse_loss eta target = Ok mse /\ shape mse = [b; d] /\
    forall i j, i < b -> j < d ->
      get2 mse i j = mul (sub (get2 eta i j) (get2 target i j))
                         (sub (get2 eta i j) (get2 target i j)).
Proof.
  intros He Ht. unfold mse_loss, tsub, map2. rewrite He, Ht, broadcast_same2.
  cbn [bind]. eexists. split; [reflexivity|]. split; [reflexivity|].
  intros i j Hi Hj. unfold get2 at 1, size, tmap. cbn [shape data tabulate nth].
  rewrite map_map. rewrite nth_map_seq by (rewrite numel2; now apply index2_lt).
  now rewrite !bget2.
Qed.

(** C7.  Let [mse] be the squared error of [eta] against [target], entry by
    entry.  When it has the two axes (batch, dimension), the loss is
    [0.5 * (mse * exp(-logvar) + logvar)] summed over the dimension axis and
    averaged over the batch axis; when it has any other number of axes the
    assertion fails.  For [eta] and [target] of one shape (b, d), [mse] has
    that shape and its entries are the squares of the differences. *)
Theorem gaussian_loss_formula (logvar : F) (eta target mse : tensor) (b d : nat) :
  mse_loss eta target = Ok mse ->
  (shape mse = [b; d] ->
   gaussian_loss (mkT [1] [logvar]) eta target
   = Ok (scalar_tensor (gaussian_nll (get2 mse) logvar b d))) /\
  (ndim mse <> 2 ->
   gaussian_loss (mkT [1] [logvar]) eta target = Raise AssertionError) /\
  (shape eta = [b; d] -> shape target = [b; d] ->
   shape mse = [b; d] /\
   forall i j, i < b -> j < d ->
     get2 mse i j = mul (sub (get2 eta i j) (get2 target i j))
                        (sub (get2 eta i j) (get2 target i j))).
Proof.
  intros Hmse. split; [|split].
  - intros Hs. unfold gaussian_loss. rewrite Hmse. cbn [bind].
    unfold ndim. rewrite Hs. cbn [length Nat.eqb assert bind].
    unfold tmul, tadd.
    change (tmap exp (tmap neg (mkT [1] [logvar]))) with (mkT [1] [exp (neg logvar)]).
    rewrite (map2_one mul mse (exp (neg logvar)) b d Hs). cbn [bind].
    rewrite (map2_one add _ logvar b d (shape_tab2 _ _ _)). cbn [bind].
    rewrite (sum_rows b d _
               (fun i j => mul half (add (mul (get2 mse i j) (exp (neg logvar))) logvar))).
    + cbn [bind]. unfold Torch.mean, gaussian_nll. cbn [shape data numel fold_right].
      now rewrite Nat.mul_1_r.
    + reflexivity.
    + intros i j Hi Hj. unfold smul, tmap. cbn [data].
      rewrite tab2_data_entry by assumption. now rewrite get2_tab2.
  - intros Hn. unfold gaussian_loss. rewrite Hmse. cbn [bind].
    apply Nat.eqb_neq in Hn. now rewrite Hn.
  - intros He Ht. destruct (mse_loss_same_shape eta target b d He Ht) as (m & Hm & Hs & Hv).
    rewrite Hm in Hmse. injection Hmse as <-. split; assumption.
Qed.

End LikelihoodFacts.

(* ================================================================== *)
(** * src/vjf/model.py: the dynamics *)

Section DynamicsFacts.
Context {Sc : Scalar} {E : Exp Sc}.
Import ModulePy ModelPy.

Lemma numel_snoc (s : list nat) (c : nat) : numel (s ++ [c]) = numel s * c.
Proof. induction s as [|n s IH]; simpl; [lia|]. rewrite IH. lia. Qed.

Lemma data_tab2 (r c : nat) (f : nat -> nat -> F) :
  data (tab2 r c f) = map (fun k => f (k / c) (k mod c)) (seq 0 (r * c)).
Proof. unfold tab2, tabulate. cbn [data]. now rewrite numel2. Qed.

(** [functional.linear(feat, w.t())] is the product [feat @ w], whatever
    the number of axes of [feat]. *)
Lemma linear_apply_weights (feat w : tensor) (a b : nat) :
  shape w = [a; b] ->
  (wt <- t w ;; linear feat wt)%py = apply_weights feat w.
Proof.
  intros Hw. unfold t. rewrite Hw. cbn [bind].
  unfold linear, apply_weights. rewrite shape_tab2, Hw.
  destruct (rev (shape feat)) as [|k lead]; [reflexivity|].
  unfold t. rewrite shape_tab2. cbn [bind].
  unfold mm. rewrite shape_tab2. cbn [shape].
  destruct (k =? a) eqn:Hk; [|reflexivity].
  apply Nat.eqb_eq in Hk. subst k. cbn [bind]. f_equal.
  unfold tabulate. rewrite data_tab2, numel_snoc. f_equal.
  apply map_ext_in. intros n Hn. apply in_seq in Hn.
  assert (b <> 0) by (intros ->; lia).
  apply dot_ext.
  - intros l Hl. unfold get2, size. cbn [shape data nth]. reflexivity.
  - intros l Hl.
    rewrite !get2_tab2; try assumption; try reflexivity;
      now apply Nat.mod_upper_bound.
Qed.

(** On features with two axes the product is [feat.mm(w)]. *)
Lemma apply_weights_mm (feat w : tensor) (r k : nat) :
  shape feat = [r; k] -> apply_weights feat w = mm feat w.
Proof.
  intros Hf. unfold apply_weights, mm. rewrite Hf. cbn [rev app].
  destruct (shape w) as [|k' [|c [|? ?]]]; try reflexivity.
  destruct (k =? k'); [|reflexivity]. f_equal.
  unfold tab2. apply tabulate_ext. intros n Hn.
  apply dot_ext; [|reflexivity].
  intros l Hl. unfold get2, size. now rewrite Hf.
Qed.

Lemma linear_transpose (feat w : tensor) (r k a b : nat) :
  shape feat = [r; k] -> shape w = [a; b] ->
  (wt <- t w ;; linear feat wt)%py = mm feat w.
Proof.
  intros Hf Hw. rewrite (linear_apply_weights feat w a b Hw).
  exact (apply_weights_mm feat w r k Hf).
Qed.

Lemma mm_shape (a b c : tensor) :
  mm a b = Ok c -> exists r k, shape c = [r; k].
Proof.
  unfold mm.
  destruct (shape a) as [|r [|k [|? ?]]]; try discriminate.
  destruct (shape b) as [|k' [|c' [|? ?]]]; try discriminate.
  destruct (k =? k'); [|discriminate].
  intros [= <-]. now exists r, c'.
Qed.

Lemma map2_shape2 (f : F -> F -> F) (a b c : tensor) (r k r' k' : nat) :
  shape a = [r; k] -> shape b = [r'; k'] -> map2 f a b = Ok c ->
  exists r'' k'', shape c = [r''; k''].
Proof.
  intros Ha Hb. unfold map2, broadcast_shapes. rewrite Ha, Hb. cbn [rev app bshape_rev].
  destruct (k =? k'), (k =? 1), (k' =? 1), (r =? r'), (r =? 1), (r' =? 1);
    cbn [option_map rev app]; try discriminate; intros [= <-]; eexists; eexists; reflexivity.
Qed.

(** C5.  For every state [x] and control [u], whatever their number of
    axes, the forward pass of the dynamics returns [x] plus the regressor
    applied to the features of [x] joined with the control along the last
    axis (of [x] alone when there is no control): the features times the
    weights, which are the weight mean, or the weight mean plus
    [w_chol @ noise] when sampling.  On features with two axes that product
    is [feat.mm(w)]. *)
Theorem rbflds_forward_residual (self : RBFLDS) (randn : list nat -> tensor)
    (x : tensor) (u : option tensor) (sampling : bool) (n_feat n_out : nat) :
  shape (w_mean (linreg self)) = [n_feat; n_out] ->
  rbflds_forward self randn x u sampling
  = (xu <- match u with
           | None => Ok x
           | Some u => cat_last x (atleast_2d u)
           end ;;
     feat <- feature_forward (feature (linreg self)) xu ;;
     w <- (if sampling
           then (n <- mm (w_chol (linreg self)) (randn [n_feat; n_out]) ;;
                 tadd (w_mean (linreg self)) n)
           else Ok (w_mean (linreg self))) ;;
     dx <- apply_weights feat w ;;
     tadd x dx)%py
  /\ (forall (feat w : tensor) (r k : nat),
        shape feat = [r; k] -> apply_weights feat w = mm feat w).
Proof.
  intros Hw. split; [|exact apply_weights_mm].
  unfold rbflds_forward, ModulePy.forward.
  destruct (match u with None => Ok x | Some u0 => cat_last x (atleast_2d u0) end)
    as [xu|e]; [|reflexivity]. cbn [bind].
  destruct (feature_forward (feature (linreg self)) xu) as [feat|e]; [|reflexivity].
  cbn [bind]. rewrite Hw. destruct sampling.
  - destruct (mm (w_chol (linreg self)) (randn [n_feat; n_out])) as [n|e] eqn:En;
      [|reflexivity]. cbn [bind].
    destruct (tadd (w_mean (linreg self)) n) as [w|e] eqn:Ew; [|reflexivity].
    cbn [bind].
    destruct (mm_shape _ _ _ En) as (r & k & Hn).
    destruct (map2_shape2 add _ _ _ _ _ _ _ Hw Hn Ew) as (r' & k' & Hs).
    now rewrite (linear_apply_weights feat w r' k' Hs).
  - cbn [bind]. now rewrite (linear_apply_weights feat _ n_feat n_out Hw).
Qed.

End DynamicsFacts.

(* ================================================================== *)
(** * src/vjf/online.py: forecast *)

Section ForecastFacts.
Context {Sc : Scalar} {Weights Grads : Type} {parts : OnlinePy.Parts Weights Grads}.
Import OnlinePy.

Lemma map2_broadcast (f : F -> F -> F) (a b : tensor) (s : list nat) :
  broadcast_shapes (shape a) (shape b) = Some s ->
  exists c, map2 f a b = Ok c /\ shape c = s.
Proof. intros H. unfold map2. rewrite H. eexists. split; reflexivity. Qed.

(** Writing a slice keeps the shape and the other slices. *)
Lemma set0_ok (x v : tensor) (n i : nat) (rest : list nat) :
  shape x = n :: rest -> i < n ->
  broadcast_shapes rest (shape v) = Some rest ->
  exists x', set0 x i v = Ok x' /\ shape x' = n :: rest /\
    (forall k, k < numel (n :: rest) -> k / numel rest <> i ->
       nth k (data x') zero = nth k (data x) zero) /\
    (forall k, k < numel rest ->
       nth (i * numel rest + k) (data x') zero = bget rest v k).
Proof.
  intros Hx Hi Hb. unfold set0. rewrite Hx.
  apply Nat.ltb_lt in Hi. rewrite Hi, Hb. apply Nat.ltb_lt in Hi.
  destruct (list_eq_dec Nat.eq_dec rest rest) as [_|C]; [|now destruct C].
  eexists. split; [reflexivity|]. split; [reflexivity|]. split.
  - intros k Hk Hne. rewrite nth_tabulate by exact Hk.
    apply Nat.eqb_neq in Hne. now rewrite Hne.
  - intros k Hk. assert (Hlt : i * numel rest + k < numel (n :: rest)).
    { cbn [numel fold_right]. fold (numel rest). nia. }
    rewrite nth_tabulate by exact Hlt.
    rewrite index2_div, index2_mod by exact Hk. now rewrite Nat.eqb_refl.
Qed.

Section Run.
Variable self : VJF Weights.
Variable size : nat.

(** What the claim takes for granted of the parts of the model: the system
    maps a batch of states to a batch of states, a normal draw has the shape
    asked for, the noise scale broadcasts against a batch of states, and the
    decoder keeps the time axis. *)
Hypothesis system_shape : forall xi u,
  shape xi = [size; xdim self] ->
  exists m, system (weights self) xi u = Ok m /\ shape m = [size; xdim self].
Hypothesis randn_shape : forall k s, shape (randn k s) = s.
Hypothesis std_shape :
  broadcast_shapes [size; xdim self] (shape (state_noise_std (weights self)))
  = Some [size; xdim self].
Hypothesis decode_shape : forall x n,
  shape x = [n; size; xdim self] ->
  exists y rest, decode (weights self) x = Ok y /\ shape y = n :: rest.

Lemma forecast_loop_ok (u : tensor) (step : nat) :
  forall (i : nat) (x : tensor) (N : nat),
    shape x = [N; size; xdim self] -> i + step < N ->
    exists x', forecast_loop self step i x u = Ok x' /\
      shape x' = [N; size; xdim self] /\
      forall k, k < numel [size; xdim self] ->
        nth k (data x') zero = nth k (data x) zero.
Proof.
  induction step as [|step IH]; intros i x N Hx Hi.
  - exists x. repeat split. exact Hx.
  - cbn [forecast_loop]. unfold select0. rewrite Hx.
    assert (Hlt : (i <? N) = true) by (apply Nat.ltb_lt; lia). rewrite Hlt. cbn [bind].
    destruct (system_shape
                (tabulate [size; xdim self]
                   (fun k => nth (i * numel [size; xdim self] + k) (data x) zero)) u
                eq_refl) as (m & Hm & Hsm).
    rewrite Hm. cbn [bind].
    destruct (map2_broadcast mul (randn (draws self + i) (shape m))
                (state_noise_std (weights self)) [size; xdim self]) as (ns & Hns & Hsn).
    { rewrite randn_shape, Hsm. exact std_shape. }
    unfold tmul. rewrite Hns. cbn [bind].
    destruct (map2_broadcast add m ns [size; xdim self]) as (v & Hv & Hsv).
    { rewrite Hsm, Hsn. apply broadcast_same2. }
    unfold tadd. rewrite Hv. cbn [bind].
    destruct (set0_ok x v N (i + 1) [size; xdim self] Hx) as (x1 & Hx1 & Hs1 & Hkeep & _).
    { lia. }
    { rewrite Hsv. apply broadcast_same2. }
    rewrite Hx1. cbn [bind].
    destruct (IH (i + 1) x1 N Hs1) as (x' & Hx' & Hs' & Hk'); [lia|].
    exists x'. split; [exact Hx'|]. split; [exact Hs'|].
    intros k Hk. rewrite Hk' by exact Hk. apply Hkeep.
    + cbn [numel fold_right] in *. nia.
    + rewrite Nat.div_small by exact Hk. lia.
Qed.

Lemma drop_first_ok (x : tensor) (n : nat) (rest : list nat) :
  shape x = S n :: rest ->
  exists x', drop_first x = Ok x' /\ shape x' = n :: rest.
Proof.
  intros Hx. unfold drop_first. rewrite Hx. eexists. split; [reflexivity|].
  cbn [shape tabulate]. now rewrite Nat.sub_succ, Nat.sub_0_r.
Qed.

(** C6.  With the initial state of shape (size, xdim): [forecast] with
    [inclusive=True] returns a latent and an observation trajectory of
    length [step + 1] whose first latent entry is the initial state; with
    [inclusive=False], on the same draws, it returns those two trajectories
    without their first entry, of length [step]. *)
Theorem forecast_lengths (x0 : tensor) (step : nat) :
  shape (atleast_2d x0) = [size; xdim self] ->
  wf (atleast_2d x0) ->
  exists x y x' y',
    forecast self x0 step true = Ok (x, y) /\
    forecast self x0 step false = Ok (x', y') /\
    Torch.size x 0 = step + 1 /\ Torch.size y 0 = step + 1 /\
    select0 x 0 = Ok (atleast_2d x0) /\
    drop_first x = Ok x' /\ drop_first y = Ok y' /\
    Torch.size x' 0 = step /\ Torch.size y' 0 = step.
Proof.
  intros H0 W0. unfold forecast, ModulePy.shape0. rewrite H0. cbn [bind].
  destruct (set0_ok (empty [step + 1; size; xdim self]) (atleast_2d x0)
              (step + 1) 0 [size; xdim self] eq_refl) as (xa & Hxa & Hsa & _ & Hfirst).
  { lia. }
  { rewrite H0. apply broadcast_same2. }
  rewrite Hxa. cbn [bind].
  destruct (forecast_loop_ok (zeros [size; udim self]) step 0 xa (step + 1) Hsa)
    as (x & Hx & Hsx & Hkeep); [lia|].
  rewrite Hx. cbn [bind].
  destruct (decode_shape x (step + 1) Hsx) as (y & rest & Hy & Hsy).
  rewrite Hy. cbn [bind].
  rewrite Nat.add_1_r in Hsx, Hsy.
  destruct (drop_first_ok x step _ Hsx) as (x' & Hx' & Hsx').
  destruct (drop_first_ok y step _ Hsy) as (y' & Hy' & Hsy').
  rewrite Hx', Hy'. cbn [bind].
  exists x, y, x', y'. unfold Torch.size. rewrite Hsx, Hsy, Hsx', Hsy'. cbn [nth].
  repeat split; try reflexivity; try lia; try assumption.
  unfold select0. rewrite Hsx. cbn [Nat.ltb Nat.leb]. f_equal.
  rewrite (wf_tabulate_self _ W0). rewrite H0.
  apply tabulate_ext. intros k Hk. cbn [Nat.mul Nat.add].
  rewrite Hkeep by exact Hk.
  specialize (Hfirst k Hk). cbn [Nat.mul Nat.add] in Hfirst. rewrite Hfirst.
  rewrite <- H0. now apply bget_same; rewrite H0.
Qed.

End Run.
End ForecastFacts.

(* ================================================================== *)
(** * src/vjf/online.py: the outer loop of fit *)

Section FitFacts.
Context {Sc : Scalar} {Weights Grads : Type} {parts : OnlinePy.Parts Weights Grads}.
Import OnlinePy FitSpec.

Variables (y u : ModelPy.pyobj) (q0 : option (tensor * tensor)) (time_major : bool)
          (T : nat) (sw : switches).

Local Abbreviation loop := (fun n => fit_loop n y u q0 time_major T sw).
Local Abbreviation pass := (fit_pass y u q0 time_major T).
Local Abbreviation update := (fit_update y u q0 time_major T sw).
Local Abbreviation state_at := (state_at y u q0 time_major T sw).
Local Abbreviation pass_at := (pass_at y u q0 time_major T sw).
Local Abbreviation loss_at := (loss_at y u q0 time_major T sw).
Local Abbreviation close_at := (close_at y u q0 time_major T sw).
Local Abbreviation round := (round y u q0 time_major T sw).
Local Abbreviation test_at := (test_at y u q0 time_major T sw).
Local Abbreviation held_at := (held_at y u q0 time_major T sw).
Local Abbreviation out_at := (out_at y u q0 time_major T sw).

Lemma fit_loop_step (n : nat) (out : option (tensor * tensor)) (prev : option F)
    (st : VJF Weights) :
  fit_loop (S n) y u q0 time_major T sw out prev st =
  match pass st with
  | (Ok (mu, logvar, l), s1) =>
      if converged prev l
      then (Ok (Some (mu, logvar), prev), write s1 "Converged")
      else match update st s1 with
           | (Ok _, s2) => fit_loop n y u q0 time_major T sw (Some (mu, logvar)) (Some l) s2
           | (Raise e, s2) => (Raise e, s2)
           end
  | (Raise e, s1) => (Raise e, s1)
  end.
Proof.
  cbn [fit_loop]. unfold mbind at 1. unfold get at 1. unfold mbind at 1.
  destruct (pass st) as [[[[mu logvar] l]|e] s1]; [|reflexivity].
  destruct (converged prev l); [reflexivity|].
  unfold mbind. destruct (update st s1) as [[[]|e] s2]; reflexivity.
Qed.

Lemma state_at_succ (k : nat) (st st' : VJF Weights) :
  round st = Some st' -> state_at (S k) st = state_at k st'.
Proof. intros H. cbn [FitSpec.state_at]. now rewrite H. Qed.

Lemma pass_at_succ (k : nat) (st st' : VJF Weights) :
  round st = Some st' -> pass_at (S k) st = pass_at k st'.
Proof. intros H. unfold FitSpec.pass_at. now rewrite (state_at_succ k st st' H). Qed.

Lemma loss_at_succ (k : nat) (st st' : VJF Weights) :
  round st = Some st' -> loss_at (S k) st = loss_at k st'.
Proof. intros H. unfold FitSpec.loss_at. now rewrite (pass_at_succ k st st' H). Qed.

Lemma test_at_succ (k : nat) (prev : option F) (l : F) (st st' : VJF Weights) :
  round st = Some st' -> loss_at 0 st = Some l ->
  test_at (Some l) k st' = test_at prev (S k) st.
Proof.
  intros Hr Hl. destruct k as [|k]; cbn [FitSpec.test_at FitSpec.close_at].
  - rewrite Hl, (loss_at_succ 0 st st' Hr). reflexivity.
  - now rewrite !(loss_at_succ _ st st' Hr).
Qed.

Lemma held_at_succ (k : nat) (prev : option F) (l : F) (st st' : VJF Weights) :
  round st = Some st' -> loss_at 0 st = Some l ->
  held_at (Some l) k st' = held_at prev (S k) st.
Proof.
  intros Hr Hl. destruct k as [|k]; cbn [FitSpec.held_at].
  - now rewrite Hl.
  - now rewrite (loss_at_succ k st st' Hr).
Qed.

(** What a successful round is made of. *)
Lemma round_inv (st st' : VJF Weights) :
  round st = Some st' ->
  exists mu logvar l s1 r,
    pass st = (Ok (mu, logvar, l), s1) /\ update st s1 = (Ok r, st') /\
    loss_at 0 st = Some l.
Proof.
  unfold FitSpec.round, FitSpec.loss_at, FitSpec.pass_at. cbn [FitSpec.state_at].
  destruct (pass st) as [[[[mu logvar] l]|e] s1]; [|discriminate].
  destruct (update st s1) as [[r|e] s2] eqn:Hu; [|discriminate].
  intros [= <-]. exists mu, logvar, l, s1, r. split; [reflexivity|]. split; [exact Hu|].
  reflexivity.
Qed.

(** The loop stops at the first iteration whose test succeeds. *)
Lemma fit_loop_stops (k : nat) :
  forall (n : nat) (out : option (tensor * tensor)) (prev : option F)
         (st s1 : VJF Weights) (mu logvar : tensor) (l : F),
    k < n ->
    (forall j, j < k -> test_at prev j st = false) ->
    test_at prev k st = true ->
    pass_at k st = Some (mu, logvar, l, s1) ->
    fit_loop n y u q0 time_major T sw out prev st
    = (Ok (Some (mu, logvar), held_at prev k st), write s1 "Converged").
Proof.
  induction k as [|k IH]; intros n out prev st s1 mu logvar l Hn Hno Hyes Hp.
  - destruct n as [|n]; [lia|]. rewrite fit_loop_step.
    unfold FitSpec.pass_at in Hp. cbn [FitSpec.state_at] in Hp.
    cbn [FitSpec.test_at] in Hyes. unfold FitSpec.loss_at, FitSpec.pass_at in Hyes.
    cbn [FitSpec.state_at] in Hyes.
    destruct (pass st) as [[r|e] s]; [|discriminate].
    injection Hp as -> ->. now rewrite Hyes.
  - destruct n as [|n]; [lia|]. rewrite fit_loop_step.
    destruct (round st) as [st'|] eqn:Hr.
    + destruct (round_inv st st' Hr) as (mu0 & lv0 & l0 & s0 & r & Hpass & Hupd & Hl0).
      rewrite Hpass.
      assert (H0 : converged prev l0 = false).
      { specialize (Hno 0 (Nat.lt_0_succ k)). cbn [FitSpec.test_at] in Hno. now rewrite Hl0 in Hno. }
      rewrite H0, Hupd.
      rewrite <- (held_at_succ k prev l0 st st' Hr Hl0).
      apply (IH n (Some (mu0, lv0)) (Some l0) st' s1 mu logvar l).
      * lia.
      * intros j Hj. rewrite (test_at_succ j prev l0 st st' Hr Hl0). apply Hno. lia.
      * now rewrite (test_at_succ k prev l0 st st' Hr Hl0).
      * now rewrite <- (pass_at_succ k st st' Hr).
    + unfold FitSpec.pass_at in Hp. cbn [FitSpec.state_at] in Hp.
      now rewrite Hr in Hp.
Qed.

Lemma out_at_succ (k : nat) (out : option (tensor * tensor)) (mu logvar : tensor) (l : F)
    (s1 st st' : VJF Weights) :
  round st = Some st' -> pass st = (Ok (mu, logvar, l), s1) ->
  out_at (Some (mu, logvar)) k st' = out_at out (S k) st.
Proof.
  intros Hr Hp. destruct k as [|k]; cbn [FitSpec.out_at].
  - unfold FitSpec.pass_at. cbn [FitSpec.state_at]. now rewrite Hp.
  - now rewrite (pass_at_succ k st st' Hr).
Qed.

(** The loop runs out of its budget when no test succeeds. *)
Lemma fit_loop_exhausts (n : nat) :
  forall (out : option (tensor * tensor)) (prev : option F) (st sN : VJF Weights),
    (forall j, j < n -> test_at prev j st = false) ->
    state_at n st = Some sN ->
    fit_loop n y u q0 time_major T sw out prev st
    = (Ok (out_at out n st, held_at prev n st), write sN "Maximum iteration reached.").
Proof.
  induction n as [|n IH]; intros out prev st sN Hno Hs.
  - cbn in Hs. injection Hs as <-. reflexivity.
  - rewrite fit_loop_step. cbn [FitSpec.state_at] in Hs.
    destruct (round st) as [st'|] eqn:Hr; [|discriminate].
    destruct (round_inv st st' Hr) as (mu0 & lv0 & l0 & s0 & r & Hpass & Hupd & Hl0).
    rewrite Hpass.
    assert (H0 : converged prev l0 = false).
    { specialize (Hno 0 (Nat.lt_0_succ n)). cbn [FitSpec.test_at] in Hno. now rewrite Hl0 in Hno. }
    rewrite H0, Hupd.
    rewrite <- (held_at_succ n prev l0 st st' Hr Hl0).
    rewrite <- (out_at_succ n out mu0 lv0 l0 s0 st st' Hr Hpass).
    apply IH; [|exact Hs].
    intros j Hj. rewrite (test_at_succ j prev l0 st st' Hr Hl0). apply Hno. lia.
Qed.

Lemma test_at_none (k : nat) (st : VJF Weights) :
  test_at None k st = close_at k st.
Proof.
  destruct k as [|k]; cbn [FitSpec.test_at FitSpec.close_at]; [|reflexivity].
  now destruct (loss_at 0 st).
Qed.

Lemma fit_unfold (max_iter : nat) (st : VJF Weights) :
  time_steps y time_major = Ok T ->
  fit y u q0 time_major max_iter sw st =
  match fit_loop max_iter y u q0 time_major T sw None None st with
  | (Ok (Some (mu, logvar), loss), s) => (Ok (mu, logvar, loss), s)
  | (Ok (None, _), s) => (Raise UnboundLocalError, s)
  | (Raise e, s) => (Raise e, s)
  end.
Proof.
  intros HT. unfold fit, mbind at 1, lift at 1. rewrite HT. unfold mbind.
  destruct (fit_loop max_iter y u q0 time_major T sw None None st)
    as [[[[[mu logvar]|] loss]|e] s]; reflexivity.
Qed.

(** With a budget of zero the loop body never runs: the report is printed
    and the [return] statement reads the name [mu], which was never
    bound. *)
Lemma fit_no_budget (st : VJF Weights) :
  time_steps y time_major = Ok T ->
  fit y u q0 time_major 0 sw st
  = (Raise UnboundLocalError, write st "Maximum iteration reached.").
Proof. intros HT. rewrite (fit_unfold 0 st HT). reflexivity. Qed.

(** C3, as online.py has it.  Let the iterations of [fit] be numbered from
    0.  If iteration [k >= 1], within the budget, is the first one whose
    total loss [torch.isclose] finds close to that of the iteration before,
    then [fit] prints "Converged" and returns the posterior of that pass
    and the loss of the iteration before, in the state that pass left: the
    update of iteration [k] is not run.  If no iteration of the budget
    passes that test and none raises, [fit] prints "Maximum iteration
    reached." and returns the posterior and the loss of the last iteration,
    after [max_iter] updates. *)
Theorem online_fit_stops_exactly (max_iter : nat) (st : VJF Weights) :
  time_steps y time_major = Ok T ->
  (forall k mu logvar l s1,
     1 <= k -> k < max_iter ->
     (forall j, j < k -> close_at j st = false) ->
     close_at k st = true ->
     pass_at k st = Some (mu, logvar, l, s1) ->
     fit y u q0 time_major max_iter sw st
     = (Ok (mu, logvar, loss_at (k - 1) st), write s1 "Converged")) /\
  (forall sN mu logvar l s1,
     1 <= max_iter ->
     (forall j, j < max_iter -> close_at j st = false) ->
     state_at max_iter st = Some sN ->
     pass_at (max_iter - 1) st = Some (mu, logvar, l, s1) ->
     fit y u q0 time_major max_iter sw st
     = (Ok (mu, logvar, Some l), write sN "Maximum iteration reached.")).
Proof.
  intros HT. split.
  - intros k mu logvar l s1 Hk Hlt Hno Hyes Hp.
    rewrite (fit_unfold max_iter st HT).
    rewrite (fit_loop_stops k max_iter None None st s1 mu logvar l Hlt).
    + destruct k as [|k]; [lia|]. cbn [FitSpec.held_at]. now rewrite Nat.sub_succ, Nat.sub_0_r.
    + intros j Hj. rewrite test_at_none. now apply Hno.
    + now rewrite test_at_none.
    + exact Hp.
  - intros sN mu logvar l s1 Hpos Hno Hs Hp.
    rewrite (fit_unfold max_iter st HT).
    rewrite (fit_loop_exhausts max_iter None None st sN).
    + destruct max_iter as [|n]; [lia|]. cbn [FitSpec.out_at FitSpec.held_at].
      rewrite Nat.sub_succ, Nat.sub_0_r in Hp. unfold FitSpec.loss_at. now rewrite Hp.
    + intros j Hj. rewrite test_at_none. now apply Hno.
    + exact Hs.
Qed.

End FitFacts.

(* ================================================================== *)
(** * src/vjf/module.py: the symmetry check of the regressor *)

Section SymmetryCheck.
Import Binary32 ModulePy Example32.

(** C4.  [rls] stores the new precision and only then asserts that it is
    within tolerance of its transpose; a call that returns has passed that
    assertion.  The code breaks the invariant at a NaN.  The regressor
    [__init__] builds over one feature holds a precision that passes the
    check; the call with the input 0, the noise [tensor([0.])] and the
    diffusion 1 scales the feature to 0 / 0, raises [AssertionError] at the
    check, and leaves the regressor with a stored precision that is not
    within tolerance of its transpose. *)
Theorem rls_nan_fails_symmetry_check :
  let check (lr : LinearRegression) :=
    (Pt <- t (w_precision lr) ;; allclose (w_precision lr) Pt)%py in
  (forall (x target : tensor) (v : number) (diffusion : F) (self : LinearRegression),
     fst (rls x target v diffusion self) = Ok tt ->
     check (snd (rls x target v diffusion self)) = Ok true) /\
  check lr0 = Ok true /\
  fst (rls x0 x0 v0 one lr0) = Raise AssertionError /\
  check (snd (rls x0 x0 v0 one lr0)) = Ok false.
Proof.
  split; [exact rls_returns_checked|].
  repeat split; vm_compute; reflexivity.
Qed.

End SymmetryCheck.

(* ================================================================== *)
(** * Instances of the statements at concrete inputs *)

Lemma ok_run {S : Type} (r : res unit * S) :
  is_ok (fst r) = true -> r = (Ok tt, snd r).
Proof. destruct r as [[[]|e] s]; [reflexivity | discriminate]. Qed.

Lemma some_value {A : Type} (o : option A) :
  is_some o = true -> exists a, o = Some a.
Proof. destruct o as [a|]; [now exists a | discriminate]. Qed.

Section Witnesses32.
Import Binary32 ModulePy Example32.

Lemma rls_zero_diffusion_raises_witness :
  shape (w_precision lr0) = [1; 1] /\
  eqb zero zero = true /\
  rls x1 y1 v1 zero lr0 = (Raise ZeroDivisionError, lr0).
Proof.
  split; [reflexivity|]. split; [reflexivity|].
  apply (rls_zero_diffusion_raises lr0 1 x1 y1 v1 zero); reflexivity.
Defined.

(** Against C2 as stated: nothing that is learned is what [feed] of
    online.py starts from. *)
Lemma feed_prior_counterexample :
  ~ feed_starts_from_learned_prior (Sc := Binary32.scalar) nat.
Proof. exact (feed_start_not_learned nat). Qed.

(** The dynamics over the regressor with two features, on a state with
    one axis. *)
Lemma rbflds_forward_residual_witness :
  shape (w_mean lr2) = [2; 2] /\
  (ModelPy.rbflds_forward (ModelPy.mkRBFLDS lr2 (mkT [1] [one])) zeros point2 None false
   = (feat <- feature_forward (feature lr2) point2 ;;
      dx <- apply_weights feat (w_mean lr2) ;;
      tadd point2 dx)%py
   /\ (forall (feat w : tensor) (r k : nat),
         shape feat = [r; k] -> apply_weights feat w = mm feat w)).
Proof.
  split; [reflexivity|].
  exact (rbflds_forward_residual (ModelPy.mkRBFLDS lr2 (mkT [1] [one])) zeros point2 None
           false 2 2 eq_refl).
Defined.

(** There the forward pass returns: the state (1, 4) with the weights
    [[1, 0], [1, 1]] moves to (1, 4) + (5, 4) = (6, 8), one axis as
    before. *)
Lemma rbflds_forward_one_axis :
  let out := ModelPy.rbflds_forward (ModelPy.mkRBFLDS lr2 (mkT [1] [one])) zeros point2
               None false in
  (o <- out ;; Ok (shape o))%py = Ok [2] /\
  (o <- out ;; allclose o (mkT [2] [num 6; num 8]))%py = Ok true.
Proof. split; vm_compute; reflexivity. Qed.

(** Against C8 as stated: a fresh regressor with one feature, reset, then
    updated with the data point (1, 1) at noise 1 and diffusion 1, ends
    with the weight 2/3 (to binary32), and 2/3 is not within tolerance of
    the least squares solution 1. *)
Lemma rls_after_reset_counterexample :
  ~ rls_after_reset_is_least_squares (Sc := Binary32.scalar).
Proof.
  intros H.
  pose (run := rls x1 y1 v1 one (snd (reset lr0))).
  assert (Hok : is_ok (fst run) = true) by (vm_compute; reflexivity).
  specialize (H lr0 (snd run) x1 y1 v1 one 1 1 eq_refl eq_refl (ok_run run Hok)).
  vm_compute in H. discriminate H.
Qed.

End Witnesses32.

Section WitnessesOnline32.
Import Binary32 OnlinePy ExampleOnline32 FitSpec.

Lemma steady_system_shape (xi u : tensor) :
  shape xi = [1; xdim online0] ->
  exists m, system (Parts := steady) (weights online0) xi u = Ok m /\
            shape m = [1; xdim online0].
Proof. intros H. exists xi. split; [reflexivity | exact H]. Qed.

Lemma steady_decode_shape (x : tensor) (n : nat) :
  shape x = [n; 1; xdim online0] ->
  exists y rest, decode (Parts := steady) (weights online0) x = Ok y /\
                 shape y = n :: rest.
Proof. intros H. exists x, [1; xdim online0]. split; [reflexivity | exact H]. Qed.

(** Three steps ahead from the state 0. *)
Lemma forecast_lengths_witness :
  exists x y x' y',
    forecast (parts := steady) online0 (mkT [1] [zero]) 3 true = Ok (x, y) /\
    forecast (parts := steady) online0 (mkT [1] [zero]) 3 false = Ok (x', y') /\
    Torch.size x 0 = 3 + 1 /\ Torch.size y 0 = 3 + 1 /\
    select0 x 0 = Ok (atleast_2d (mkT [1] [zero])) /\
    drop_first x = Ok x' /\ drop_first y = Ok y' /\
    Torch.size x' 0 = 3 /\ Torch.size y' 0 = 3.
Proof.
  exact (forecast_lengths (parts := steady) online0 1
           steady_system_shape (fun _ _ => eq_refl) eq_refl steady_decode_shape
           (mkT [1] [zero]) 3 eq_refl eq_refl).
Defined.

(** With a loss that never moves, [fit] stops in its second iteration,
    after one update; with a loss that moves by one with every update it
    runs out of its budget of three. *)
Lemma online_fit_stops_exactly_witness :
  time_steps ys false = Ok 2 /\
  (exists out loss st,
     run steady 3 = (Ok (out, loss), write st "Converged") /\ weights st = 1) /\
  (exists out loss st,
     run moving 3 = (Ok (out, loss), write st "Maximum iteration reached.") /\
     weights st = 3).
Proof.
  split; [reflexivity|]. split.
  - destruct (some_value (pass_at (parts := steady) ys us None false 2 all_but_noise 1 online0))
      as ([[[mu logvar] l] s1] & Hp); [vm_compute; reflexivity|].
    exists (mu, logvar), (loss_at (parts := steady) ys us None false 2 all_but_noise (1 - 1) online0), s1.
    split.
    + apply (proj1 (online_fit_stops_exactly (parts := steady) ys us None false 2
                      all_but_noise 3 online0 eq_refl) 1 mu logvar l s1); try lia.
      * intros j Hj. assert (j = 0) as -> by lia. reflexivity.
      * vm_compute. reflexivity.
      * exact Hp.
    + assert (Hw : option_map (fun r => weights (snd r))
                     (pass_at (parts := steady) ys us None false 2 all_but_noise 1 online0)
                   = Some 1) by (vm_compute; reflexivity).
      rewrite Hp in Hw. now injection Hw.
  - destruct (some_value (state_at (parts := moving) ys us None false 2 all_but_noise 3 online0))
      as (sN & Hs); [vm_compute; reflexivity|].
    destruct (some_value (pass_at (parts := moving) ys us None false 2 all_but_noise (3 - 1) online0))
      as ([[[mu logvar] l] s1] & Hp); [vm_compute; reflexivity|].
    exists (mu, logvar), (Some l), sN. split.
    + apply (proj2 (online_fit_stops_exactly (parts := moving) ys us None false 2
                      all_but_noise 3 online0 eq_refl) sN mu logvar l s1); try lia.
      * intros j Hj. destruct j as [|[|[|j]]]; try lia; vm_compute; reflexivity.
      * exact Hs.
      * exact Hp.
    + assert (Hw : option_map (fun s => weights s)
                     (state_at (parts := moving) ys us None false 2 all_but_noise 3 online0)
                   = Some 3) by (vm_compute; reflexivity).
      rewrite Hs in Hw. now injection Hw.
Defined.

End WitnessesOnline32.

Section WitnessesExact.
Import Exact ModelPy ExampleExact.

(** The Gaussian loss of the observation 0 against the prediction 0. *)
Lemma gaussian_loss_formula_witness :
  mse_loss obs1 obs1 = Ok (mkT [1; 1] [((0 - 0) * (0 - 0))%R]) /\
  gaussian_loss (mkT [1] [0%R]) obs1 obs1
  = Ok (scalar_tensor
          (gaussian_nll (get2 (mkT [1; 1] [((0 - 0) * (0 - 0))%R])) 0%R 1 1)).
Proof.
  split; [reflexivity|].
  exact (proj1 (gaussian_loss_formula 0%R obs1 obs1 (mkT [1; 1] [((0 - 0) * (0 - 0))%R])
                  1 1 eq_refl) eq_refl).
Defined.

(** One observation, no previous posterior, in both orchestrators. *)
Lemma filter_without_posterior_witness :
  shape (atleast_2d obs1) = [1; 1] /\
  ModulePy.shape0 obs1 = Ok 1 /\
  prior model0 (atleast_2d obs1)
  = Ok (mkDG (broadcast_to_batch 1 (mean model0)) (broadcast_to_batch 1 (logvar model0))) /\
  filter (Mods := modules) (PyArray obs1) None None true model0
  = filter (Mods := modules) (PyArray obs1) None
      (Some (mkDG (broadcast_to_batch 1 (mean model0))
                  (broadcast_to_batch 1 (logvar model0))))
      true model0 /\
  OnlinePy.feed (parts := parts) (obs1, obs1) None OnlinePy.no_switch true false true online0
  = OnlinePy.feed (parts := parts) (obs1, obs1)
      (Some (zeros [1; OnlinePy.xdim online0], zeros [1; OnlinePy.xdim online0]))
      OnlinePy.no_switch true false true online0.
Proof.
  split; [reflexivity|]. split; [reflexivity|].
  exact (filter_without_posterior (Mods := modules) model0 obs1 None true 1 1
           (parts := parts) online0 obs1 obs1 1 OnlinePy.no_switch true false true
           eq_refl eq_refl).
Defined.

(** Against C3 as stated: [fit] of model.py, on a model whose loss is the
    same in every iteration, makes all three updates of a budget of
    three; and [fit] of online.py with a budget of zero prints its report
    and raises. *)
Lemma fit_counterexample :
  ~ stops_once_settled model_updates model_loss_at /\
  OnlinePy.fit (parts := parts) (PyArray obs1) (PyArray obs1) None true 0
               OnlinePy.no_switch online0
  = (Raise UnboundLocalError, OnlinePy.write online0 "Maximum iteration reached.").
Proof.
  split; [|exact (fit_no_budget (parts := parts) (PyArray obs1) (PyArray obs1) None true 1
                    OnlinePy.no_switch online0 eq_refl)].
  intros H. specialize (H 3 1).
  assert (Hle : model_updates 3 <= 1).
  { apply H; try lia.
    - intros Hnone.
      assert (Hsome : is_some (model_loss_at 1) = true) by (vm_compute; reflexivity).
      rewrite Hnone in Hsome. discriminate.
    - vm_compute. reflexivity. }
  vm_compute in Hle. lia.
Qed.

(** Reset, then one update with the data point (1, 1) at noise 1 and
    diffusion 1, from the identity precision: the weight is
    [1 / (1 + 1 / 2)], two thirds. *)
Lemma reset_then_rls_witness :
  exists after,
    ModulePy.rls point1 point1 noise1 1%R (snd (ModulePy.reset regressor0))
    = (Ok tt, after) /\
    ModulePy.w_precision after = mkT [1; 1] [(1 / (1 + 1 * 1) + 1 * 1 / 1)%R] /\
    ModulePy.w_mean after = mkT [1; 1] [(1 * 1 / (1 * 1 + 1 * 1 / (1 + 1 * 1)))%R] /\
    (1 <> 0 -> 1 <> 0 -> 1 * 1 / (1 * 1 + 1 * 1 / (1 + 1 * 1)) <> 1 / 1)%R.
Proof.
  exact (proj2 (reset_then_rls regressor0) regressor0 point1 1%R 1%R 1%R 1%R 1%R
           Rlt_0_1 Rlt_0_1 Rlt_0_1 eq_refl eq_refl eq_refl).
Defined.

End WitnessesExact.

Section WitnessesImports.
Import Imports ExampleEnv.
Local Open Scope string_scope.

(** With every other module in place, module.py loads and model.py stops
    at its import of [bLinReg]. *)
Lemma complete_environment_import_error :
  is_ok (load_module complete) = true /\
  load_model complete = Raise ImportError /\
  import_from_model complete "RBFLDS" = Raise ImportError /\
  import_from_model complete "VJF" = Raise ImportError.
Proof.
  repeat split; reflexivity.
Qed.

End WitnessesImports.
(* ================================================================== *)
(** * src/vjf/module.py: more of the regressor *)

Section RegressionMore.
Context {Sc : Scalar}.
Import ModulePy.

Ltac run_lift :=
  match goal with
  | |- context [match ?r with Ok _ => _ | Raise _ => _ end] =>
      let E := fresh "E" in destruct r eqn:E; cbn [fst snd]
  end.

Lemma mm_ok_shape (a b c : tensor) (r k k' c' : nat) :
  shape a = [r; k] -> shape b = [k'; c'] -> mm a b = Ok c ->
  shape c = [r; c'] /\ k = k'.
Proof.
  intros Ha Hb. unfold mm. rewrite Ha, Hb.
  destruct (k =? k') eqn:E; [|discriminate].
  intros [= <-]. split; [apply shape_tab2 | now apply Nat.eqb_eq].
Qed.

Lemma mm_mismatch (a b : tensor) (r k k' c' : nat) :
  shape a = [r; k] -> shape b = [k'; c'] -> k <> k' -> mm a b = Raise RuntimeError.
Proof.
  intros Ha Hb Hk. unfold mm. rewrite Ha, Hb.
  destruct (k =? k') eqn:E; [|reflexivity]. apply Nat.eqb_eq in E. contradiction.
Qed.

Lemma mm_defined (a b : tensor) (r k c' : nat) :
  shape a = [r; k] -> shape b = [k; c'] ->
  exists c, mm a b = Ok c /\ shape c = [r; c'].
Proof.
  intros Ha Hb. unfold mm. rewrite Ha, Hb, Nat.eqb_refl.
  eexists. split; [reflexivity | apply shape_tab2].
Qed.

Lemma t_ok_shape (a b : tensor) (r c : nat) :
  shape a = [r; c] -> t a = Ok b -> shape b = [c; r].
Proof. intros Ha. unfold t. rewrite Ha. intros [= <-]. apply shape_tab2. Qed.

Lemma map2_same_shape (f : F -> F -> F) (a b c : tensor) (r k : nat) :
  shape a = [r; k] -> shape b = [r; k] -> map2 f a b = Ok c -> shape c = [r; k].
Proof.
  intros Ha Hb. unfold map2. rewrite Ha, Hb, broadcast_same2. now intros [= <-].
Qed.

Lemma map2_same_defined (f : F -> F -> F) (a b : tensor) (r k : nat) :
  shape a = [r; k] -> shape b = [r; k] ->
  exists c, map2 f a b = Ok c /\ shape c = [r; k].
Proof.
  intros Ha Hb. apply map2_broadcast. rewrite Ha, Hb. apply broadcast_same2.
Qed.

Lemma map2_entry_shape (f : F -> F -> F) (a s c : tensor) (b d : nat) :
  shape a = [b; d] -> shape s = [] \/ shape s = [1] ->
  map2 f a s = Ok c -> shape c = [b; d].
Proof.
  intros Ha Hs. unfold map2. rewrite Ha.
  destruct Hs as [-> | ->].
  - unfold broadcast_shapes. cbn [rev app bshape_rev option_map]. now intros [= <-].
  - rewrite broadcast_2_1. now intros [= <-].
Qed.

Lemma cholesky_shape (A L : tensor) :
  cholesky A = Ok L -> exists n, shape A = [n; n] /\ shape L = [n; n].
Proof.
  unfold cholesky. destruct (shape A) as [|n [|m [|? ?]]]; try discriminate.
  destruct (n =? m) eqn:E; [|discriminate]. apply Nat.eqb_eq in E. subst m.
  destruct (chol_rows A n); [|discriminate]. cbn [bind]. intros [= <-].
  exists n. split; [reflexivity | apply shape_tab2].
Qed.

Lemma cholesky_solve_shape (b L X : tensor) (n m : nat) :
  shape b = [n; m] -> cholesky_solve b L = Ok X -> shape X = [n; m].
Proof.
  intros Hb. unfold cholesky_solve.
  destruct (triangular_solve b L) as [y|] eqn:Ey; [|discriminate]. cbn [bind].
  destruct (t L); [|discriminate]. cbn [bind].
  rewrite (triangular_solve_shape _ _ _ _ _ Hb Ey). intros [= <-]. apply shape_tab2.
Qed.

Lemma init_shapes_ok (feature : Feature) (n_output : nat) :
  shapes_ok (init feature n_output).
Proof. repeat split. Qed.

(** X1.  [rls] writes the precision and, when it returns, the weight mean,
    and nothing else: the covariance factor [w_chol] that [forward] samples
    with, the feature bank and the number of outputs are what they were,
    and a call that raises leaves the weight mean as it was. *)
Theorem rls_frame (x target : tensor) (v : number) (diffusion : F)
    (self : LinearRegression) :
  let after := snd (rls x target v diffusion self) in
  w_chol after = w_chol self /\
  feature after = feature self /\
  n_output after = n_output self /\
  (fst (rls x target v diffusion self) <> Ok tt -> w_mean after = w_mean self).
Proof.
  unfold rls, mbind, lift, get, modify. cbn [fst snd].
  repeat run_lift; cbn [fst snd];
    repeat split; try reflexivity; intros H; now contradiction H.
Qed.

(** X2.  The noise [v] is annotated [Union[Tensor, float]], and
    [torch.sqrt] takes tensors only: with a Python float for [v], [rls]
    never returns, and the regressor is as it was.  The exception is
    [TypeError], unless a step before the square root raises, and then
    every other noise meets that same exception. *)
Theorem rls_float_noise (x target : tensor) (c diffusion : F) (self : LinearRegression) :
  (exists e, fst (rls x target (PyFloat c) diffusion self) = Raise e) /\
  snd (rls x target (PyFloat c) diffusion self) = self /\
  (fst (rls x target (PyFloat c) diffusion self) = Raise TypeError \/
   forall v, rls x target v diffusion self = rls x target (PyFloat c) diffusion self).
Proof.
  split; [|split].
  - unfold rls, mbind, lift, get, modify. cbn [fst snd torch_sqrt].
    repeat (run_lift; [ | eexists; reflexivity ]). eexists; reflexivity.
  - unfold rls, mbind, lift, get, modify. cbn [fst snd torch_sqrt].
    repeat (run_lift; [ | reflexivity ]). reflexivity.
  - unfold rls, mbind, lift, get, modify. cbn [fst snd torch_sqrt].
    repeat (run_lift; [ | right; intros v; reflexivity ]). left. reflexivity.
Qed.

(** X3.  [rls] keeps the shapes [__init__] gave the weights, whether it
    returns or raises: when the features of [x] have [n_feature] columns,
    the target has one row for each row of features and [n_output] columns,
    and the noise is a tensor with one entry, the precision stays
    (n_feature, n_feature) and the weight mean stays (n_feature,
    n_output). *)
Theorem rls_shapes_ok (x target : tensor) (v : number) (diffusion : F)
    (self : LinearRegression) :
  shapes_ok self ->
  (forall feat, feature_forward (feature self) x = Ok feat ->
     exists b, shape feat = [b; n_feature (feature self)] /\
               shape target = [b; n_output self]) ->
  scalar_noise v ->
  shapes_ok (snd (rls x target v diffusion self)).
Proof.
  intros Hinv Hfeat (s & -> & Hs).
  destruct Hinv as (Hm & Hc & Hp).
  assert (Hinv : shapes_ok self) by (repeat split; assumption).
  set (n := n_feature (feature self)) in *.
  unfold rls, mbind, lift, get, modify. cbn [fst snd torch_sqrt].
  repeat (run_lift; [ | exact Hinv ]).
  destruct (Hfeat _ eq_refl) as (b & Hf & Ht).
  pose proof (proj1 (mm_ok_shape _ _ _ _ _ _ _
                (t_ok_shape _ _ _ _ (triangular_solve_shape _ _ _ _ _ Hp E3) E4)
                (triangular_solve_shape _ _ _ _ _ Hp E3) E5)) as S5.
  pose proof (map2_same_shape _ _ _ _ _ _ Hp S5 E6) as S6.
  assert (Ss : shape (tmap sqrt s) = [] \/ shape (tmap sqrt s) = [1]) by exact Hs.
  pose proof (map2_entry_shape _ _ _ _ _ _ Hf Ss E8) as S8.
  pose proof (map2_entry_shape _ _ _ _ _ _ Ht Ss E9) as S9.
  pose proof (proj1 (mm_ok_shape _ _ _ _ _ _ _ S6 Hm E10)) as S10.
  pose proof (t_ok_shape _ _ _ _ S8 E11) as S11.
  pose proof (proj1 (mm_ok_shape _ _ _ _ _ _ _ S11 S9 E12)) as S12.
  pose proof (map2_same_shape _ _ _ _ _ _ S10 S12 E13) as S13.
  pose proof (proj1 (mm_ok_shape _ _ _ _ _ _ _ S11 S8 E14)) as S14.
  pose proof (map2_same_shape _ _ _ _ _ _ S6 S14 E15) as S15.
  assert (Hnew : shapes_ok (set_w_precision a15 self)) by (repeat split; assumption).
  repeat (run_lift; [ | exact Hnew ]).
  repeat split; try assumption.
  exact (cholesky_solve_shape _ _ _ _ _ S13 E20).
Qed.

(** X4.  On a regressor with those shapes, [forward] returns one row for
    each row of features and [n_output] columns, sampling or not, when the
    features of [x] have [n_feature] columns, and raises [RuntimeError] when
    they have another number of columns. *)
Theorem forward_shape (self : LinearRegression) (randn : list nat -> tensor)
    (x feat : tensor) (sampling : bool) (b k : nat) :
  shapes_ok self ->
  (forall s, shape (randn s) = s) ->
  feature_forward (feature self) x = Ok feat ->
  shape feat = [b; k] ->
  (k = n_feature (feature self) ->
   exists out, forward self randn x sampling = Ok out /\
               shape out = [b; n_output self]) /\
  (k <> n_feature (feature self) ->
   forward self randn x sampling = Raise RuntimeError).
Proof.
  intros (Hm & Hc & Hp) Hr Hx Hf.
  set (n := n_feature (feature self)) in *.
  assert (Hw : exists w,
            (if sampling
             then (z <- mm (w_chol self) (randn (shape (w_mean self))) ;;
                   tadd (w_mean self) z)%py
             else Ok (w_mean self)) = Ok w /\ shape w = [n; n_output self]).
  { destruct sampling; [|now exists (w_mean self)].
    destruct (mm_defined (w_chol self) (randn (shape (w_mean self))) n n (n_output self) Hc)
      as (z & Ez & Sz); [now rewrite Hr|].
    rewrite Ez. cbn [bind]. now apply map2_same_defined. }
  destruct Hw as (w & Ew & Sw).
  unfold forward. rewrite Hx. cbn [bind]. rewrite Ew. cbn [bind].
  rewrite (linear_transpose feat w b k n (n_output self) Hf Sw).
  split.
  - intros Hk. rewrite Hk in Hf. exact (mm_defined feat w b n (n_output self) Hf Sw).
  - intros Hk. now apply (mm_mismatch feat w b k n (n_output self)).
Qed.

End RegressionMore.

Section ExactUpdate.
Import Exact ModulePy.
Local Open Scope R_scope.

Ltac over_R := match goal with |- ?a = ?b => change (@eq R a b) end.

(** The new weight from the stored weight [m]: the average of [m] and of
    the data, weighted by the forgotten precision and by [f^2 / v]. *)
Lemma exact_new_weight_from (p m f y v d : R) :
  0 < p -> 0 < v -> 0 < d ->
  new_weight (Sc := Exact.scalar) p m f y v d
  = (p / (1 + d * p) * m + f * y / v) / (p / (1 + d * p) + f * f / v).
Proof.
  intros Hp Hv Hd. unfold new_weight, gain.
  rewrite (exact_new_precision p f v d Hp Hv Hd), (exact_forgotten p d Hp Hd).
  cbn [add sub mul div sqrt zero one Exact.scalar]. over_R.
  pose proof (exact_new_precision_pos p f v d Hp Hv Hd) as Hpos.
  set (q := p / (1 + d * p)) in *.
  set (P := q + f * f / v) in *.
  assert (HL : R_sqrt.sqrt (P - 0) <> 0) by (apply Rgt_not_eq, sqrt_lt_R0; lra).
  assert (Hsv : R_sqrt.sqrt v <> 0) by (apply Rgt_not_eq, sqrt_lt_R0, Hv).
  assert (Hfy : f / R_sqrt.sqrt v * (y / R_sqrt.sqrt v) = f * y / v).
  { replace (f * y / v) with (f * y / (R_sqrt.sqrt v * R_sqrt.sqrt v))
      by (rewrite sqrt_sqrt by lra; reflexivity).
    field. exact Hsv. }
  rewrite Hfy.
  assert (HLL : R_sqrt.sqrt (P - 0) * R_sqrt.sqrt (P - 0) = P).
  { rewrite sqrt_sqrt by lra. lra. }
  set (L := R_sqrt.sqrt (P - 0)) in *.
  transitivity ((q * m + f * y / v) / (L * L)).
  - field; repeat split; first [lra | exact HL].
  - now rewrite HLL.
Qed.

End ExactUpdate.

Section ExactUpdateTheorem.
Import ModulePy.

(** X5.  In exact arithmetic, for one feature of value [f], the target
    [y], the noise [v > 0], the diffusion [d > 0], the stored precision
    [p > 0] and the stored weight [m], [rls] returns: the prior enters with
    the smaller precision [q = p / (1 + d p)], the new precision is
    [q + f^2 / v], and the new weight is the average
    [(q m + f y / v) / (q + f^2 / v)] of the stored weight and the data.
    A data point the stored weight predicts, [y = f m], leaves the weight
    as it is. *)
Theorem exact_rls_update (self : @LinearRegression Exact.scalar) (x : @tensor Exact.scalar)
    (p m f y v d : R) :
  (0 < p)%R -> (0 < v)%R -> (0 < d)%R ->
  w_precision self = @mkT Exact.scalar [1; 1] [p] ->
  w_mean self = @mkT Exact.scalar [1; 1] [m] ->
  feature_forward (feature self) x = Ok (@mkT Exact.scalar [1; 1] [f]) ->
  let q := (p / (1 + d * p))%R in
  exists after,
    @rls Exact.scalar x (@mkT Exact.scalar [1; 1] [y])
         (PyTensor (@mkT Exact.scalar [1] [v])) d self = (Ok tt, after) /\
    w_precision after = @mkT Exact.scalar [1; 1] [(q + f * f / v)%R] /\
    w_mean after = @mkT Exact.scalar [1; 1] [((q * m + f * y / v) / (q + f * f / v))%R] /\
    (q < p)%R /\
    (y = (f * m)%R -> w_mean after = w_mean self).
Proof.
  intros Hp Hv Hd HP HW HF q.
  assert (Hdp : (0 < d * p)%R) by (apply Rmult_lt_0_compat; lra).
  pose proof (rls_one_feature self x p m f y v d HP HW HF) as Hrun.
  pose proof (exact_new_precision_pos p f v d Hp Hv Hd) as Hpos. fold q in Hpos.
  eexists. split; [apply Hrun|].
  - apply exact_eqb_false. cbn [zero Exact.scalar]. lra.
  - apply exact_ltb_true. cbn [add sub mul div zero one Exact.scalar].
    assert (0 < 1 / d)%R by (apply Rdiv_lt_0_compat; lra). lra.
  - apply exact_isclose_refl.
  - apply exact_ltb_true. rewrite (exact_new_precision p f v d Hp Hv Hd).
    cbn [sub zero Exact.scalar]. fold q. lra.
  - cbn [set_w_chol set_w_mean set_w_precision w_mean w_chol w_precision].
    rewrite (exact_new_precision p f v d Hp Hv Hd),
            (exact_new_weight_from p m f y v d Hp Hv Hd).
    fold q. split; [reflexivity|]. split; [reflexivity|]. split.
    + unfold q. apply (Rmult_lt_reg_r (1 + d * p)); [lra|].
      unfold Rdiv. rewrite Rmult_assoc, Rinv_l by lra. nra.
    + intros ->. rewrite HW. do 2 f_equal.
      replace (q * m + f * (f * m) / v)%R with (m * (q + f * f / v))%R by (field; lra).
      unfold Rdiv at 1. rewrite Rmult_assoc, Rinv_r by lra. lra.
Qed.

End ExactUpdateTheorem.

Section KalmanFacts.
Context {Sc : Scalar} {K : KalmanPy.Kalman}.
Import ModulePy KalmanPy.

Ltac run_lift :=
  match goal with
  | |- context [match ?r with Ok _ => _ | Raise _ => _ end] =>
      let E := fresh "E" in destruct r eqn:E; cbn [fst snd]
  end.

(** X6.  [kalman] checks its diffusion first: with a diffusion that is not
    at least zero (a negative number, or NaN) it raises [AssertionError]
    before it reads the regressor or the data, and the regressor is as it
    was. *)
Theorem kalman_negative_diffusion (x target : tensor) (v : number) (diffusion : F)
    (self : LinearRegression) :
  leb zero diffusion = false ->
  kalman x target v diffusion self = (Raise AssertionError, self).
Proof.
  intros Hd. unfold kalman, mbind, lift. now rewrite Hd.
Qed.

(** X7.  [kalman] is all or nothing, and it never writes the precision:
    when it raises, the regressor is as it was; when it returns, only the
    weight mean and the covariance factor [w_chol] have changed. *)
Theorem kalman_frame (x target : tensor) (v : number) (diffusion : F)
    (self : LinearRegression) :
  let after := snd (kalman x target v diffusion self) in
  w_precision after = w_precision self /\
  feature after = feature self /\
  n_output after = n_output self /\
  (fst (kalman x target v diffusion self) <> Ok tt -> after = self).
Proof.
  unfold kalman, mbind, lift, get, modify. cbn [fst snd].
  repeat run_lift; cbn [fst snd];
    repeat match goal with
           | |- context [let '(_, _) := ?p in _] => destruct p
           end;
    cbn [fst snd];
    repeat run_lift; cbn [fst snd];
    repeat match goal with
           | |- context [let '(_, _) := ?p in _] => destruct p
           end;
    cbn [fst snd];
    repeat split; try reflexivity; intros H; now contradiction H.
Qed.

(** X8.  [reset] is a full restart for a regressor whose precision was
    never written: when the precision is still the identity of [__init__]
    and the weight mean has its shape, [reset] gives back exactly the
    regressor [__init__] built.  That is the case after a [kalman] update
    that keeps the shape of the weight mean, since [kalman] never writes the
    precision.  A second [reset] changes nothing more. *)
Theorem reset_restarts (self : LinearRegression) :
  snd (reset (snd (reset self))) = snd (reset self) /\
  (shape (w_mean self) = [n_feature (feature self); n_output self] ->
   w_precision self = eye (n_feature (feature self)) ->
   snd (reset self) = init (feature self) (n_output self)) /\
  (forall (bank : Feature) (outputs : nat) x target v diffusion,
     let after := snd (kalman x target v diffusion (init bank outputs)) in
     shape (w_mean after) = [n_feature bank; outputs] ->
     snd (reset after) = init bank outputs).
Proof.
  assert (H : forall s : LinearRegression,
            shape (w_mean s) = [n_feature (feature s); n_output s] ->
            w_precision s = eye (n_feature (feature s)) ->
            snd (reset s) = init (feature s) (n_output s)).
  { intros s Hm Hp. rewrite reset_state. cbn [snd]. unfold set_w_chol, set_w_mean, init.
    cbn [feature n_output w_mean w_chol w_precision]. unfold zeros_like.
    now rewrite Hm, Hp. }
  split; [rewrite !reset_state; reflexivity|]. split; [exact (H self)|].
  intros bank outputs x target v diffusion after Hs.
  destruct (kalman_frame x target v diffusion (init bank outputs)) as (Hp & Hf & Ho & _).
  fold after in Hp, Hf, Ho. cbn [init feature n_output w_precision] in Hp, Hf, Ho.
  pose proof (H after) as Ha. rewrite Hf, Ho, Hp in Ha.
  apply Ha; [exact Hs | reflexivity].
Qed.

End KalmanFacts.

Section RBFFacts.
Context {Sc : Scalar} {E : Exp Sc}.
Import RBFPy.
Variable rbf : tensor -> tensor -> tensor -> res tensor.

Lemma column_stack_ones (out : tensor) (b c : nat) :
  shape out = [b; c] ->
  column_stack (ones [b]) out
  = Ok (tab2 b (1 + c) (fun i j => if j <? 1 then get2 (as_column (ones [b])) i j
                                   else get2 out i (j - 1))).
Proof.
  intros Ho. unfold column_stack, as_column. rewrite Ho.
  cbn [shape ones tabulate numel fold_right]. rewrite Ho, !Nat.mul_1_r, Nat.eqb_refl.
  reflexivity.
Qed.

(** X9.  The width of what [RBF.forward] returns is [n_feature], as a
    regressor over the bank needs it: when [rbf] gives one column for each
    basis function, [forward] returns that with [intercept=False], and with
    [intercept=True] it puts a column of ones in front of it, so that in
    both cases the result has [n_feature] columns. *)
Theorem rbf_forward_width (self : RBF) (x out : tensor) (b : nat) :
  rbf x (centroid self) (tmap exp (logwidth self)) = Ok out ->
  shape out = [b; n_basis self] ->
  exists feat,
    ModulePy.feature_forward (as_feature rbf self) x = Ok feat /\
    shape feat = [b; ModulePy.n_feature (as_feature rbf self)] /\
    (intercept self = false -> feat = out) /\
    (intercept self = true ->
     forall i, i < b ->
       get2 feat i 0 = one /\
       forall j, j < n_basis self -> get2 feat i (j + 1) = get2 out i j).
Proof.
  intros Ho Hs. cbn [as_feature ModulePy.feature_forward ModulePy.n_feature].
  unfold forward, n_feature. rewrite Ho. cbn [bind].
  destruct (intercept self).
  - unfold ModulePy.shape0. rewrite Hs. cbn [bind].
    rewrite (column_stack_ones out b (n_basis self) Hs).
    eexists. split; [reflexivity|]. split; [|split; [discriminate|]].
    + rewrite shape_tab2. now rewrite Nat.add_comm.
    + intros _ i Hi. split.
      * rewrite get2_tab2 by lia. cbn [Nat.ltb Nat.leb].
        unfold as_column, ones, get2, size, tabulate.
        cbn [shape data numel fold_right nth]. rewrite !Nat.mul_1_r, Nat.add_0_r.
        now rewrite nth_map_seq.
      * intros j Hj. rewrite get2_tab2 by lia.
        replace (j + 1 <? 1) with false by (symmetry; apply Nat.ltb_ge; lia).
        now rewrite Nat.add_sub.
  - exists out. split; [reflexivity|]. split; [exact Hs|]. split; [reflexivity | discriminate].
Qed.

End RBFFacts.

(* ================================================================== *)
(** * src/vjf/model.py: the losses *)

Section LossFacts.
Context {Sc : Scalar} {E : Exp Sc}.
Import ModelPy.

Lemma map2_same2 (f : F -> F -> F) (a c : tensor) (b d : nat) :
  shape a = [b; d] -> shape c = [b; d] ->
  map2 f a c = Ok (tab2 b d (fun i j => f (get2 a i j) (get2 c i j))).
Proof.
  intros Ha Hc. unfold map2. rewrite Ha, Hc, broadcast_same2. f_equal.
  unfold tab2. apply tabulate_ext. intros k Hk. rewrite numel2 in Hk.
  assert (d <> 0) by (intros ->; lia).
  rewrite (Nat.div_mod_eq k d) at 1 2. rewrite (Nat.mul_comm d).
  rewrite !bget2; try assumption; try (now apply Nat.mod_upper_bound);
    try (apply Nat.Div0.div_lt_upper_bound; lia).
  reflexivity.
Qed.

Lemma bshape_rev_nil (s : list nat) : bshape_rev s [] = Some s.
Proof. now destruct s. Qed.

Lemma broadcast_any_1 (s : list nat) :
  broadcast_shapes s [1] = Some (match s with [] => [1] | _ => s end).
Proof.
  unfold broadcast_shapes. cbn [rev app].
  destruct (rev s) as [|n r] eqn:Er.
  - assert (s = []) as -> by (apply (f_equal (@rev nat)) in Er; now rewrite rev_involutive in Er).
    reflexivity.
  - cbn [bshape_rev]. rewrite bshape_rev_nil.
    assert (Es : s = rev (n :: r)) by (now rewrite <- Er, rev_involutive).
    assert (Hs : rev (n :: r) <> []) by (cbn [rev]; now destruct (rev r)).
    assert (Hb : (if n =? 1 then Some (n :: r)
                  else if n =? 1 then Some (1 :: r)
                  else if 1 =? 1 then Some (n :: r) else None) = Some (n :: r))
      by (destruct (n =? 1); reflexivity).
    rewrite Hb. cbn [option_map]. rewrite <- Es.
    destruct s; [now contradiction Hs | reflexivity].
Qed.

Lemma get2_tmap (f : F -> F) (a : tensor) (b d i j : nat) :
  wf a -> shape a = [b; d] -> i < b -> j < d ->
  get2 (tmap f a) i j = f (get2 a i j).
Proof.
  intros Wa Ha Hi Hj. unfold get2, size, tmap. cbn [shape data]. rewrite Ha. cbn [nth].
  assert (Hk : i * d + j < length (data a)).
  { rewrite Wa, Ha, numel2. now apply index2_lt. }
  rewrite (nth_indep _ zero (f zero)) by (now rewrite length_map).
  apply map_nth.
Qed.

(** X10.  For log rates [eta] and counts [target] of one shape (batch,
    dimension), [PoissonLikelihood.loss] is [exp(eta) - target * eta] summed
    over the dimension axis and averaged over the batch axis; and when the
    elementwise loss has another number of axes than two the assertion
    fails. *)
Theorem poisson_loss_formula (eta target : tensor) (b d : nat) :
  (wf eta -> shape eta = [b; d] -> shape target = [b; d] ->
   poisson_loss eta target
   = Ok (scalar_tensor (poisson_nll (get2 eta) (get2 target) b d))) /\
  (forall nll, poisson_nll_loss eta target = Ok nll -> ndim nll <> 2 ->
   poisson_loss eta target = Raise AssertionError).
Proof.
  split.
  - intros We He Ht. unfold poisson_loss, poisson_nll_loss, tmul, tsub.
    rewrite (map2_same2 mul target eta b d Ht He). cbn [bind].
    rewrite (map2_same2 sub (tmap exp eta) _ b d He (shape_tab2 _ _ _)). cbn [bind].
    unfold ndim. rewrite shape_tab2. cbn [length Nat.eqb assert bind].
    rewrite (sum_rows b d _
               (fun i j => sub (exp (get2 eta i j)) (mul (get2 target i j) (get2 eta i j)))).
    + cbn [bind]. unfold Torch.mean, poisson_nll. cbn [shape data numel fold_right].
      now rewrite Nat.mul_1_r.
    + apply shape_tab2.
    + intros i j Hi Hj.
      change (nth (i * d + j) (data ?a) zero) with (get2 a i j) at 1.
      rewrite !get2_tab2 by assumption. now rewrite (get2_tmap exp eta b d i j).
  - intros nll Hn Hd. unfold poisson_loss. rewrite Hn. cbn [bind].
    apply Nat.eqb_neq in Hd. now rewrite Hd.
Qed.

(** X11.  [RBFLDS.loss] is the Gaussian negative log likelihood over
    again: with a log variance of one entry, as both constructors make it,
    it returns what [GaussianLikelihood.loss] returns with that log variance
    on every pair of tensors, and raises what it raises, although it checks
    the number of axes after the arithmetic and not before. *)
Theorem rbflds_loss_is_gaussian (self : RBFLDS) (lv : F) (pt xt : tensor) :
  lds_logvar self = mkT [1] [lv] ->
  rbflds_loss self pt xt = gaussian_loss (mkT [1] [lv]) pt xt.
Proof.
  intros Hl. unfold rbflds_loss, gaussian_loss. rewrite Hl.
  destruct (mse_loss pt xt) as [mse|e]; [|reflexivity]. cbn [bind].
  unfold tmul, tadd, map2, ndim. cbn [shape tmap tabulate]. rewrite broadcast_any_1.
  cbn [bind shape tabulate]. rewrite broadcast_any_1. cbn [bind shape smul tmap tabulate].
  destruct (shape mse) as [|a [|b [|c r]]]; reflexivity.
Qed.

End LossFacts.

(* ================================================================== *)
(** * src/vjf/model.py: filter and fit *)

Section ModelFitFacts.
Context {Sc : Scalar} {E : Exp Sc} {Weights : Type} {Mods : ModelPy.Modules Weights}.
Import ModelPy.

Ltac run_lift :=
  match goal with
  | |- context [match ?r with Ok _ => _ | Raise _ => _ end] =>
      let E := fresh "E" in destruct r eqn:E; cbn [fst snd]
  end.

Lemma same_params_refl (s : VJF Weights) : same_params s s.
Proof. repeat split. Qed.

Lemma same_params_trans (s1 s2 s3 : VJF Weights) :
  same_params s1 s2 -> same_params s2 s3 -> same_params s1 s3.
Proof.
  intros (A1 & A2 & A3 & A4) (B1 & B2 & B3 & B4).
  repeat split; congruence.
Qed.

(** X12.  [filter] with [update=False] never changes what the model has
    learned: whether it returns or raises, the parameters of the
    sub-modules, the prior mean and log variance and the likelihood are what
    they were. *)
Theorem filter_no_update (y : pyobj) (u : option tensor) (qs : option DiagonalGaussian)
    (self : VJF Weights) :
  same_params self (snd (filter y u qs false self)).
Proof.
  unfold filter, mbind, lift, get, modify, ret. cbn [fst snd].
  destruct (as_tensor_dtype y) as [a|e]; cbn [fst snd]; [|apply same_params_refl].
  destruct qs as [q|]; cbn [fst snd].
  - destruct (forward self (draws self) (atleast_2d a) q _) as [[[[[xs pt] qt] xt] py]|e];
      cbn [fst snd]; [|repeat split].
    destruct (loss self (atleast_2d a) xs pt qt xt py false false); cbn [fst snd]; repeat split.
  - destruct (prior self (atleast_2d a)) as [q|e]; cbn [fst snd]; [|repeat split].
    destruct (forward self (draws self) (atleast_2d a) q _) as [[[[[xs pt] qt] xt] py]|e];
      cbn [fst snd]; [|repeat split].
    destruct (loss self (atleast_2d a) xs pt qt xt py false false); cbn [fst snd]; repeat split.
Qed.

Lemma unbind_length (a : tensor) (l : list tensor) :
  unbind a = Ok l -> length l = size a 0.
Proof.
  unfold unbind, size. destruct (shape a) as [|n rest]; [discriminate|].
  intros [= <-]. now rewrite length_map, length_seq.
Qed.

Lemma unbind_atleast_2d (a : tensor) : exists l, unbind (atleast_2d a) = Ok l.
Proof.
  unfold unbind, atleast_2d.
  destruct (shape a) as [|n [|m rest]] eqn:Ea; cbn [shape]; try rewrite Ea; eexists; reflexivity.
Qed.

Lemma zip_longest_length (ys us : list pyobj) :
  length (zip_longest ys us) = Nat.max (length ys) (length us).
Proof. unfold zip_longest. now rewrite length_map, length_seq. Qed.

(** A pass returns one posterior and one loss for each step, and it
    returns only when every step has an observation. *)
Lemma fit_pass_returns (obs : list (pyobj * pyobj)) :
  forall (q : option DiagonalGaussian) (q_seq : list DiagonalGaussian)
         (losses : list tensor) (self after : VJF Weights) out,
    fit_pass obs q q_seq losses self = (Ok out, after) ->
    length (fst out) = length q_seq + length obs /\
    length (snd out) = length losses + length obs /\
    Forall (fun o => fst o <> PyNone) obs.
Proof.
  induction obs as [|[yt ut] obs IH]; intros q q_seq losses self after out.
  - cbn [fit_pass]. unfold ret. intros [= <- <-]. cbn [fst snd length].
    rewrite !Nat.add_0_r. repeat split. constructor.
  - cbn [fit_pass]. unfold mbind at 1.
    destruct (filter yt (as_option ut) q false self) as [[[q' l]|e] s1] eqn:Ef; [|discriminate].
    intros H. apply IH in H. destruct H as (H1 & H2 & H3).
    rewrite length_app in H1, H2. cbn [length] in *.
    split; [lia|]. split; [lia|]. constructor; [|exact H3].
    cbn [fst]. intros ->. unfold filter, mbind, lift in Ef. cbn in Ef. discriminate Ef.
Qed.

Lemma fit_pass_same_params (obs : list (pyobj * pyobj)) :
  forall (q : option DiagonalGaussian) (q_seq : list DiagonalGaussian)
         (losses : list tensor) (self : VJF Weights),
    same_params self (snd (fit_pass obs q q_seq losses self)).
Proof.
  induction obs as [|[yt ut] obs IH]; intros q q_seq losses self.
  - apply same_params_refl.
  - cbn [fit_pass]. unfold mbind at 1.
    pose proof (filter_no_update yt (as_option ut) q self) as Hf.
    destruct (filter yt (as_option ut) q false self) as [[[q' l]|e] s1]; cbn [snd] in *.
    + eapply same_params_trans; [exact Hf | apply IH].
    + exact Hf.
Qed.

Lemma fit_loop_returns (max_iter : nat) (obs : list (pyobj * pyobj)) :
  forall (q0 : option (list DiagonalGaussian)) (self after : VJF Weights) out,
    fit_loop max_iter obs q0 self = (Ok out, after) ->
    (max_iter = 0 /\ out = q0 /\ after = self) \/
    (1 <= max_iter /\ obs <> [] /\ Forall (fun o => fst o <> PyNone) obs /\
     exists q_seq, out = Some q_seq /\ length q_seq = length obs).
Proof.
  induction max_iter as [|n IH]; intros q0 self after out.
  - cbn [fit_loop]. unfold ret. intros [= <- <-]. left. repeat split.
  - cbn [fit_loop]. unfold mbind at 1, get at 1. unfold mbind at 1.
    destruct (fit_pass obs None [] [] self) as [[[q_seq losses]|e] s1] eqn:Ep; [|discriminate].
    apply fit_pass_returns in Ep. cbn [fst snd length] in Ep. destruct Ep as (H1 & H2 & H3).
    unfold mbind at 1, lift at 1.
    destruct (total_loss losses) as [tl|e] eqn:Et; [|discriminate].
    assert (Hne : obs <> []).
    { intros ->. cbn [length] in H2. destruct losses; [discriminate Et | discriminate H2]. }
    unfold mbind at 1, modify at 1.
    intros H. apply IH in H. right. split; [lia|]. split; [exact Hne|]. split; [exact H3|].
    destruct H as [(-> & -> & _) | (_ & _ & _ & qs & -> & Hq)].
    + now exists q_seq.
    + now exists qs.
Qed.

(** X13.  When [fit] returns, it has run at least one iteration, [y] is
    an array with at least one time step, the control has no more time
    steps than [y], and the list returned has one posterior for each
    time step of [y]. *)
Theorem fit_returns (y u : pyobj) (max_iter : nat) (self after : VJF Weights)
    (q_seq : list DiagonalGaussian) :
  fit y u max_iter self = (Ok q_seq, after) ->
  1 <= max_iter /\
  exists a, y = PyArray a /\
    1 <= size (atleast_2d a) 0 /\
    length q_seq = size (atleast_2d a) 0 /\
    match u with
    | PyNone => True
    | PyArray b => size b 0 <= size (atleast_2d a) 0
    end.
Proof.
  unfold fit. unfold mbind at 1, lift at 1.
  destruct y as [|a]; [discriminate|]. cbn [as_tensor].
  unfold mbind at 1.
  set (us := match u with
             | PyNone => ret [PyNone]
             | PyArray _ => _
             end).
  destruct (us self) as [[usl|e] s1] eqn:Eu; [|discriminate].
  assert (Hu : s1 = self /\
               match u with
               | PyNone => usl = [PyNone]
               | PyArray b => length usl = size b 0
               end).
  { subst us. destruct u as [|b].
    - unfold ret in Eu. now injection Eu as <- <-.
    - unfold mbind, lift, ret in Eu. cbn [as_tensor] in Eu.
      destruct (unbind b) as [l|] eqn:El; [|discriminate].
      injection Eu as <- <-. split; [reflexivity|].
      rewrite length_map. now apply unbind_length. }
  destruct Hu as [-> Hu]. clear Eu us.
  unfold mbind at 1, lift at 1.
  destruct (unbind (atleast_2d a)) as [ys|e] eqn:Ey; [|discriminate].
  apply unbind_length in Ey.
  unfold mbind at 1.
  destruct (fit_loop max_iter (zip_longest (map PyArray ys) usl) None self)
    as [[[qs|]|e] s2] eqn:El; try discriminate.
  unfold ret. intros [= <- <-].
  apply fit_loop_returns in El.
  destruct El as [(_ & [=] & _) | (Hm & Hne & Hall & qs' & [= <-] & Hlen)].
  rewrite zip_longest_length, length_map in Hlen.
  assert (Hle : length usl <= length ys).
  { destruct (Nat.le_gt_cases (length usl) (length ys)) as [|Hgt]; [assumption|].
    exfalso. rewrite Forall_forall in Hall.
    apply (Hall (nth (length ys) (map PyArray ys) PyNone, nth (length ys) usl PyNone)).
    - unfold zip_longest. apply in_map_iff. exists (length ys). split; [reflexivity|].
      apply in_seq. rewrite length_map. lia.
    - cbn [fst]. apply nth_overflow. now rewrite length_map. }
  assert (Hpos : 1 <= length ys).
  { destruct ys as [|y0 ys']; [|cbn [length]; lia].
    exfalso. apply Hne. destruct usl; [reflexivity | cbn [length] in Hle; lia]. }
  split; [exact Hm|]. exists a. split; [reflexivity|].
  rewrite <- Ey. split; [exact Hpos|]. split; [lia|].
  destruct u as [|b]; [exact I | now rewrite <- Hu].
Qed.

(** X14.  With [max_iter=0] the loop body never runs and [return q_seq]
    reads a name that was never bound: [fit] raises [UnboundLocalError]
    and the model is as it was. *)
Theorem fit_no_iteration (a : tensor) (u : pyobj) (self : VJF Weights) :
  (u = PyNone \/ exists b, u = PyArray b /\ shape b <> []) ->
  fit (PyArray a) u 0 self = (Raise UnboundLocalError, self).
Proof.
  intros Hu. unfold fit. unfold mbind at 1, lift at 1. cbn [as_tensor].
  destruct (unbind_atleast_2d a) as (ys & Ey).
  destruct Hu as [-> | (b & -> & Hb)].
  - unfold mbind, lift, ret. rewrite Ey. reflexivity.
  - unfold mbind, lift, ret. cbn [as_tensor].
    assert (exists l, unbind b = Ok l) as (l & ->).
    { unfold unbind. destruct (shape b); [now contradiction Hb | eexists; reflexivity]. }
    rewrite Ey. reflexivity.
Qed.

(** X15.  On a sequence without time steps [fit] raises in its first
    iteration and the model is as it was: without a control,
    [zip_longest] pairs the one [None] of [u] with a [None] for [y], and
    the conversion of that observation raises [TypeError]; with a control
    that has no time steps either, there is no loss to average and
    [sum(losses) / len(losses)] raises [ZeroDivisionError]. *)
Theorem fit_empty_sequence (a : tensor) (d n : nat) (self : VJF Weights) :
  shape a = [0; d] ->
  fit (PyArray a) PyNone (S n) self = (Raise TypeError, self) /\
  (forall b rest, shape b = 0 :: rest ->
     fit (PyArray a) (PyArray b) (S n) self = (Raise ZeroDivisionError, self)).
Proof.
  intros Ha.
  assert (Ey : unbind (atleast_2d a) = Ok []).
  { unfold unbind, atleast_2d. rewrite Ha. cbn [shape]. now rewrite Ha. }
  split.
  - unfold fit, mbind, lift, ret. cbn [as_tensor]. rewrite Ey. reflexivity.
  - intros b rest Hb.
    assert (Eb : unbind b = Ok []) by (unfold unbind; now rewrite Hb).
    unfold fit, mbind, lift, ret. cbn [as_tensor]. rewrite Eb, Ey. reflexivity.
Qed.

(** X16.  Before any training the prior of model.py is the start of
    online.py: on a model as [__init__] builds it, [prior(y)] for a batch of
    [b] observations is a mean and a log variance of zeros of shape (b,
    xdim), which is what [feed] of online.py starts from when it gets no
    previous posterior. *)
Theorem fresh_prior_is_zero (xdim : nat) (lik : Likelihood) (w : Weights)
    (y : tensor) (b d : nat)
    {OWeights : Type} (oself : OnlinePy.VJF OWeights) :
  shape y = [b; d] ->
  OnlinePy.xdim oself = xdim ->
  prior (ModelInit.init xdim lik w) y = Ok (mkDG (zeros [b; xdim]) (zeros [b; xdim])) /\
  OnlinePy.feed_start oself b None = (zeros [b; xdim], zeros [b; xdim]).
Proof.
  intros Hy Hx. split.
  - rewrite (prior_broadcast _ y b d Hy). cbn [ModelInit.init mean logvar].
    assert (Hz : broadcast_to_batch b (repeat zero xdim) = zeros [b; xdim]).
    { unfold broadcast_to_batch, zeros, tab2. rewrite repeat_length.
      apply tabulate_ext. intros k _. apply nth_repeat. }
    now rewrite Hz.
  - cbn [OnlinePy.feed_start]. now rewrite Hx.
Qed.

Lemma fit_loop_rounds (max_iter : nat) (obs : list (pyobj * pyobj)) :
  forall (q0 : option (list DiagonalGaussian)) (self after : VJF Weights) out,
    fit_loop max_iter obs q0 self = (Ok out, after) ->
    after = Nat.iter max_iter (ModelRound.fit_round obs) self.
Proof.
  induction max_iter as [|n IH]; intros q0 self after out.
  - cbn [fit_loop Nat.iter nat_rect]. unfold ret. now intros [= _ <-].
  - cbn [fit_loop]. unfold mbind at 1, get at 1. unfold mbind at 1.
    destruct (fit_pass obs None [] [] self) as [[[q_seq losses]|e] s1] eqn:Ep; [|discriminate].
    unfold mbind at 1, lift at 1.
    destruct (total_loss losses) as [tl|e]; [|discriminate].
    unfold mbind at 1, modify at 1.
    intros H. apply IH in H. rewrite H.
    change (Nat.iter (S n) (ModelRound.fit_round obs) self)
      with (ModelRound.fit_round obs (Nat.iter n (ModelRound.fit_round obs) self)).
    rewrite <- (Nat.iter_swap n _ (ModelRound.fit_round obs) self).
    unfold ModelRound.fit_round at 3. now rewrite Ep.
Qed.

(** X17.  [fit] of model.py has no early stop: when it returns it has run
    every one of its [max_iter] iterations, each one a pass over the
    sequence without update followed by one optimizer step on the loss of
    that pass. *)
Theorem fit_runs_every_iteration (y u : pyobj) (max_iter : nat)
    (self after : VJF Weights) (q_seq : list DiagonalGaussian) :
  fit y u max_iter self = (Ok q_seq, after) ->
  exists obs,
    ModelRound.fit_obs y u = Ok obs /\
    after = Nat.iter max_iter (ModelRound.fit_round obs) self.
Proof.
  unfold fit, ModelRound.fit_obs, mbind, lift, ret.
  destruct (as_tensor y) as [a|e]; [|discriminate]. cbn [bind].
  destruct u as [|b]; cbn [as_tensor bind].
  - destruct (unbind (atleast_2d a)) as [ys|e]; [|discriminate]. cbn [bind].
    destruct (fit_loop max_iter (zip_longest (map PyArray ys) [PyNone]) None self)
      as [[[qs|]|e] s2] eqn:El; try discriminate.
    intros [= _ <-]. eexists. split; [reflexivity|]. exact (fit_loop_rounds _ _ _ _ _ _ El).
  - destruct (unbind b) as [l|e]; [|discriminate]. cbn [bind].
    destruct (unbind (atleast_2d a)) as [ys|e]; [|discriminate]. cbn [bind].
    destruct (fit_loop max_iter (zip_longest (map PyArray ys) (map PyArray l)) None self)
      as [[[qs|]|e] s2] eqn:El; try discriminate.
    intros [= _ <-]. eexists. split; [reflexivity|]. exact (fit_loop_rounds _ _ _ _ _ _ El).
Qed.

Lemma atleast_2d_idem (a : tensor) : atleast_2d (atleast_2d a) = atleast_2d a.
Proof.
  unfold atleast_2d. destruct (shape a) as [|n [|m rest]] eqn:Ea; cbn [shape]; try reflexivity.
  now rewrite Ea.
Qed.

(** X18.  [filter] prepends the missing axis: an observation or a control
    with one axis (or none) is filtered as the batch of one element it
    becomes, and nothing changes when the batch axis is already there. *)
Theorem filter_promotes (a : tensor) (u : option tensor) (qs : option DiagonalGaussian)
    (update : bool) (self : VJF Weights) :
  filter (PyArray a) u qs update self
  = filter (PyArray (atleast_2d a)) (option_map atleast_2d u) qs update self.
Proof.
  unfold filter, mbind, lift. cbn [as_tensor_dtype]. cbv beta iota zeta.
  rewrite atleast_2d_idem.
  destruct u as [u|]; cbn [option_map]; [rewrite atleast_2d_idem|]; reflexivity.
Qed.

End ModelFitFacts.

(* ================================================================== *)
(** * src/vjf/model.py: the dynamics with a control *)

Section DynamicsFacts.
Context {Sc : Scalar} {E : Exp Sc}.
Import ModulePy ModelPy.

Lemma cat_last_shape (x u : tensor) (b d b' k : nat) :
  shape x = [b; d] -> shape u = [b'; k] ->
  (b = b' -> exists xu, cat_last x u = Ok xu /\ shape xu = [b; d + k]) /\
  (b <> b' -> cat_last x u = Raise RuntimeError).
Proof.
  intros Hx Hu. unfold cat_last. rewrite Hx, Hu. cbn [rev app].
  destruct (list_eq_dec Nat.eq_dec [b] [b']) as [Heq|Hne].
  - injection Heq as <-. split; [|now intros []].
    intros _. destruct d, k; (eexists; split; reflexivity).
  - split; [|destruct d, k; reflexivity]. intros ->. now contradiction Hne.
Qed.

(** X19.  [RBFLDS.forward] with a control: for a batch [x] of shape (b, d)
    and a control that [atleast_2d] makes (b', k), the regressor sees the
    (b, d + k) tensor that joins them, and the result has the shape of [x]
    when the feature bank gives [n_feature] columns for it and the regressor
    has [d] outputs; a control with another batch size, [b' <> b], raises
    [RuntimeError] before the regressor is called. *)
Theorem rbflds_forward_with_control (self : RBFLDS) (randn : list nat -> tensor)
    (x u : tensor) (sampling : bool) (b d b' k : nat) :
  shape x = [b; d] -> shape (atleast_2d u) = [b'; k] ->
  shapes_ok (linreg self) -> n_output (linreg self) = d ->
  (forall s, shape (randn s) = s) ->
  (forall xu, shape xu = [b; d + k] ->
     exists feat, feature_forward (feature (linreg self)) xu = Ok feat /\
                  shape feat = [b; n_feature (feature (linreg self))]) ->
  (b = b' ->
   exists out, rbflds_forward self randn x (Some u) sampling = Ok out /\
               shape out = [b; d]) /\
  (b <> b' -> rbflds_forward self randn x (Some u) sampling = Raise RuntimeError).
Proof.
  intros Hx Hu Hs Ho Hr Hf.
  destruct (cat_last_shape x (atleast_2d u) b d b' k Hx Hu) as [Hcat Hbad].
  unfold rbflds_forward. split.
  - intros Hb. destruct (Hcat Hb) as (xu & Exu & Sxu). rewrite Exu. cbn [bind].
    destruct (Hf xu Sxu) as (feat & Ef & Sf).
    destruct (proj1 (forward_shape (linreg self) randn xu feat sampling b _ Hs Hr Ef Sf) eq_refl)
      as (dx & Edx & Sdx).
    rewrite Edx. cbn [bind]. rewrite Ho in Sdx.
    exact (map2_same_defined add x dx b d Hx Sdx).
  - intros Hb. now rewrite (Hbad Hb).
Qed.

End DynamicsFacts.

(* ================================================================== *)
(** * src/vjf/model.py: simulate *)

Section SimulateFacts.
Context {Sc : Scalar} {E : Exp Sc}.
Import ModulePy ModelPy SimulatePy.

Variable self : RBFLDS.
Variable randn : nat -> list nat -> tensor.
Variables b d : nat.

(** The dynamics maps a batch of [b] states of dimension [d] to such a
    batch: the regressor has its shapes, as many outputs as the state has
    dimensions, and a feature bank that gives one row of [n_feature]
    features for each state. *)
Hypothesis linreg_shapes : shapes_ok (linreg self).
Hypothesis outputs : n_output (linreg self) = d.
Hypothesis feature_rows : forall x,
  shape x = [b; d] ->
  exists feat, feature_forward (feature (linreg self)) x = Ok feat /\
               shape feat = [b; n_feature (feature (linreg self))].
Hypothesis randn_shape : forall k s, shape (randn k s) = s.
Hypothesis logvar_shape : shape (lds_logvar self) = [1].

Lemma rbflds_forward_keeps_shape (k : nat) (x : tensor) :
  shape x = [b; d] ->
  exists m, rbflds_forward self (randn k) x None true = Ok m /\ shape m = [b; d].
Proof.
  intros Hx. unfold rbflds_forward. cbn [bind].
  destruct (feature_rows x Hx) as (feat & Hf & Sf).
  destruct (proj1 (forward_shape (linreg self) (randn k) x feat true b _
                     linreg_shapes (randn_shape k) Hf Sf) eq_refl) as (dx & Hdx & Sdx).
  rewrite Hdx. cbn [bind]. rewrite outputs in Sdx.
  exact (map2_same_defined add x dx b d Hx Sdx).
Qed.

Lemma select0_ok (x : tensor) (N i : nat) (rest : list nat) :
  shape x = N :: rest -> i < N ->
  select0 x i = Ok (tabulate rest (fun k => nth (i * numel rest + k) (data x) zero)).
Proof.
  intros Hx Hi. unfold select0. rewrite Hx. apply Nat.ltb_lt in Hi. now rewrite Hi.
Qed.

Lemma simulate_loop_ok (s : tensor) (step : nat) :
  shape s = [1] ->
  forall (t : nat) (x : tensor) (N : nat),
    shape x = [N; b; d] -> t + step < N ->
    exists x', simulate_loop self randn s step t x = Ok x' /\
      shape x' = [N; b; d] /\
      forall k, k < numel [b; d] -> nth k (data x') zero = nth k (data x) zero.
Proof.
  intros Hs. induction step as [|step IH]; intros t x N Hx Ht.
  - exists x. repeat split. exact Hx.
  - cbn [simulate_loop]. rewrite (select0_ok x N t [b; d] Hx) by lia. cbn [bind].
    destruct (rbflds_forward_keeps_shape (2 * t) _ (eq_refl :
                shape (tabulate [b; d] (fun k => nth (t * numel [b; d] + k) (data x) zero))
                = [b; d])) as (m & Hm & Sm).
    rewrite Hm. cbn [bind].
    destruct (set0_ok x m N (t + 1) [b; d] Hx) as (x1 & Hx1 & Hs1 & Hkeep1 & _).
    { lia. }
    { rewrite Sm. apply broadcast_same2. }
    rewrite Hx1. cbn [bind].
    rewrite (select0_ok x1 N (t + 1) [b; d] Hs1) by lia. cbn [bind shape tabulate].
    destruct (map2_broadcast mul (randn (2 * t + 1) [b; d]) s [b; d]) as (ns & Hns & Sns).
    { rewrite randn_shape, Hs. apply broadcast_2_1. }
    unfold tmul. rewrite Hns. cbn [bind].
    destruct (map2_same_defined add
                (tabulate [b; d] (fun k => nth ((t + 1) * numel [b; d] + k) (data x1) zero))
                ns b d eq_refl Sns) as (v & Hv & Sv).
    unfold tadd. rewrite Hv. cbn [bind].
    destruct (set0_ok x1 v N (t + 1) [b; d] Hs1) as (x2 & Hx2 & Hs2 & Hkeep2 & _).
    { lia. }
    { rewrite Sv. apply broadcast_same2. }
    rewrite Hx2. cbn [bind].
    destruct (IH (t + 1) x2 N Hs2) as (x' & Hx' & Hs' & Hk'); [lia|].
    exists x'. split; [exact Hx'|]. split; [exact Hs'|].
    intros k Hk. rewrite Hk' by exact Hk.
    assert (Hd : k / numel [b; d] <> t + 1) by (rewrite Nat.div_small by exact Hk; lia).
    assert (Hlt : k < numel [N; b; d]) by (cbn [numel fold_right] in *; nia).
    rewrite Hkeep2 by assumption. now apply Hkeep1.
Qed.

(** X20.  For a batch [x0] of [b] states of dimension [d], [simulate]
    returns a trajectory of shape (step + 1, b, d) whose first entry is
    [x0]. *)
Theorem simulate_trajectory (x0 : tensor) (step : nat) :
  shape x0 = [b; d] -> wf x0 ->
  exists x, simulate self randn x0 step = Ok x /\
    shape x = [step + 1; b; d] /\
    select0 x 0 = Ok x0.
Proof.
  intros H0 W0. unfold simulate. rewrite H0.
  destruct (set0_ok (empty [step + 1; b; d]) x0 (step + 1) 0 [b; d] eq_refl)
    as (xa & Hxa & Hsa & _ & Hfirst).
  { lia. }
  { rewrite H0. apply broadcast_same2. }
  rewrite Hxa. cbn [bind].
  destruct (simulate_loop_ok (tmap exp (smul half (lds_logvar self))) step logvar_shape
              0 xa (step + 1) Hsa) as (x & Hx & Hsx & Hkeep); [lia|].
  exists x. split; [exact Hx|]. split; [exact Hsx|].
  rewrite (select0_ok x (step + 1) 0 [b; d] Hsx) by lia. f_equal.
  rewrite (wf_tabulate_self _ W0). rewrite H0.
  apply tabulate_ext. intros k Hk. cbn [Nat.mul Nat.add].
  rewrite Hkeep by exact Hk.
  specialize (Hfirst k Hk). cbn [Nat.mul Nat.add] in Hfirst. rewrite Hfirst.
  rewrite <- H0. now apply bget_same; rewrite H0.
Qed.

End SimulateFacts.

(* ================================================================== *)
(** * src/vjf/online.py: feed and filter *)

Section OnlineFacts.
Context {Sc : Scalar} {Weights Grads : Type} {parts : OnlinePy.Parts Weights Grads}.
Import ModelPy OnlinePy.

Lemma same_config_refl (s : VJF Weights) : same_config s s.
Proof. repeat split. Qed.

Lemma same_config_trans (s1 s2 s3 : VJF Weights) :
  same_config s1 s2 -> same_config s2 s3 -> same_config s1 s3.
Proof.
  intros (A1 & A2 & A3 & A4 & A5) (B1 & B2 & B3 & B4 & B5).
  repeat split; congruence.
Qed.

Lemma feed_frame (obs : tensor * tensor) (q0 : option (tensor * tensor))
    (sw : switches) (sample regularize optim : bool) (self : VJF Weights) :
  let after := snd (feed obs q0 sw sample regularize optim self) in
  same_config self after /\
  (untrained sw optim -> weights after = weights self).
Proof.
  destruct obs as [y u]. unfold feed, mbind, lift, get, modify, ret. cbn [fst snd].
  destruct (ModulePy.shape0 y) as [batch|e]; cbn [fst snd]; [|now repeat split].
  destruct (feed_start self batch q0) as [mu0 logvar0].
  destruct (recognizer (weights self) y u (mu0, logvar0)) as [q1|e];
    cbn [fst snd]; [|now repeat split].
  destruct (elbo (weights self) (draws self) (mu0, logvar0) q1 (y, u) sample regularize)
    as [el|e]; cbn [fst snd]; [|now repeat split].
  destruct optim; cbn [fst snd].
  - destruct (clip_grad_value _ _) as [g|e]; cbn [fst snd]; [|now repeat split].
    match goal with
    | |- context [recognizer ?w y u (mu0, logvar0)] =>
        lazymatch w with
        | weights self => fail
        | _ => destruct (recognizer w y u (mu0, logvar0))
        end
    end; cbn [fst snd]; (split; [now repeat split|]);
      (intros [H | ->]; [discriminate H | reflexivity]).
  - cbn [take_draw weights].
    destruct (recognizer (weights self) y u (mu0, logvar0)); cbn [fst snd]; now repeat split.
Qed.

Lemma filter_loop_frame (obs : list (tensor * tensor)) (sw : switches)
    (sample regularize optim : bool) :
  forall (i : nat) (q0 : option (tensor * tensor)) (mu logvar : tensor)
         (losses : list (F * F * F)) (self : VJF Weights),
    let after := snd (filter_loop obs i q0 mu logvar losses sw sample regularize optim self) in
    same_config self after /\
    (untrained sw optim -> weights after = weights self).
Proof.
  induction obs as [|o obs IH]; intros i q0 mu logvar losses self.
  - cbn. split; [apply same_config_refl | reflexivity].
  - cbn [filter_loop]. unfold mbind, lift.
    pose proof (feed_frame o q0 sw sample regularize optim self) as Hf. cbv zeta in Hf.
    destruct (feed o q0 sw sample regularize optim self) as [[[q l]|e] s1];
      cbn [fst snd] in *; [|exact Hf].
    destruct (set0 mu i (fst q)) as [mu'|e]; cbn [fst snd]; [|exact Hf].
    destruct (set0 logvar i (snd q)) as [logvar'|e]; cbn [fst snd]; [|exact Hf].
    specialize (IH (i + 1) (Some q) mu' logvar' (losses ++ [l]) s1). cbv zeta in IH.
    destruct Hf as [Hc Hw], IH as [Hc' Hw'].
    split; [eapply same_config_trans; eassumption|].
    intros Hu. rewrite (Hw' Hu). exact (Hw Hu).
Qed.

(** X21.  [filter] changes the trained parameters only through the
    optimizers: with [optim=False], or with the four switches off, the
    parameters are what they were when it returns or raises.  It never
    changes the dimensions or the clipping value of the model, and it prints
    nothing. *)
Theorem online_filter_frame (y u : pyobj) (q0 : option (tensor * tensor))
    (time_major : bool) (sw : switches) (sample regularize optim : bool)
    (self : VJF Weights) :
  let after := snd (filter y u q0 time_major sw sample regularize optim self) in
  same_config self after /\
  (untrained sw optim -> weights after = weights self).
Proof.
  unfold filter, mbind, lift, get, ret. cbn [fst snd].
  repeat match goal with
         | |- context [match ?r with Ok _ => _ | Raise _ => _ end] =>
             lazymatch r with
             | fst _ => fail
             | _ => destruct r; cbn [fst snd];
                    [|split; [apply same_config_refl | reflexivity]]
             end
         end.
  match goal with
  | |- context [filter_loop ?o ?i ?q ?m ?l ?ls sw sample regularize optim self] =>
      pose proof (filter_loop_frame o sw sample regularize optim i q m l ls self) as Hl;
      cbv zeta in Hl;
      destruct (filter_loop o i q m l ls sw sample regularize optim self)
        as [[[[mu logvar] losses]|e] s1]
  end; cbn [fst snd] in *; [|exact Hl].
  destruct (if time_major then Ok mu else transpose01 mu); cbn [fst snd]; [|exact Hl].
  destruct (if time_major then Ok logvar else transpose01 logvar); cbn [fst snd]; exact Hl.
Qed.

Lemma set0_shape (a v a' : tensor) (i : nat) :
  set0 a i v = Ok a' -> shape a' = shape a.
Proof.
  unfold set0. destruct (shape a) as [|n rest]; [discriminate|].
  destruct (i <? n); [|discriminate].
  destruct (broadcast_shapes rest (shape v)) as [s|]; [|discriminate].
  destruct (list_eq_dec Nat.eq_dec s rest); [|discriminate].
  now intros [= <-].
Qed.

Lemma transpose01_shape (a a' : tensor) :
  transpose01 a = Ok a' ->
  exists n m rest, shape a = n :: m :: rest /\ shape a' = m :: n :: rest.
Proof.
  unfold transpose01. destruct (shape a) as [|n [|m rest]]; try discriminate.
  intros [= <-]. now exists n, m, rest.
Qed.

Lemma filter_loop_returns (obs : list (tensor * tensor)) (sw : switches)
    (sample regularize optim : bool) :
  forall (i : nat) (q0 : option (tensor * tensor)) (mu logvar : tensor)
         (losses : list (F * F * F)) (self after : VJF Weights) mu' logvar' losses',
    filter_loop obs i q0 mu logvar losses sw sample regularize optim self
    = (Ok (mu', logvar', losses'), after) ->
    shape mu' = shape mu /\ shape logvar' = shape logvar /\
    length losses' = length losses + length obs.
Proof.
  induction obs as [|o obs IH]; intros i q0 mu logvar losses self after mu' logvar' losses'.
  - cbn [filter_loop]. unfold ret. intros [= <- <- <- <-]. cbn [length]. repeat split. lia.
  - cbn [filter_loop]. unfold mbind, lift.
    destruct (feed o q0 sw sample regularize optim self) as [[[q l]|e] s1]; [|discriminate].
    destruct (set0 mu i (fst q)) as [mu1|e] eqn:Em; [|discriminate].
    destruct (set0 logvar i (snd q)) as [logvar1|e] eqn:El; [|discriminate].
    intros H. apply IH in H. destruct H as (H1 & H2 & H3).
    rewrite (set0_shape _ _ _ _ Em) in H1. rewrite (set0_shape _ _ _ _ El) in H2.
    rewrite length_app in H3. cbn [length] in *. repeat split; try assumption. lia.
Qed.

(** X22.  When [filter] returns, [y] and [u] are arrays, the posterior
    mean and log variance have the layout of [y] with the state dimension
    for the last axis -- (time, batch, xdim) when [time_major], (batch,
    time, xdim) otherwise -- and there is one ELBO triple for each time step
    that both [y] and [u] have: [zip] stops at the shorter of the two. *)
Theorem online_filter_returns (y u : pyobj) (q0 : option (tensor * tensor))
    (time_major : bool) (sw : switches) (sample regularize optim : bool)
    (self after : VJF Weights) (mu logvar : tensor) (losses : list (F * F * F)) :
  filter y u q0 time_major sw sample regularize optim self
  = (Ok (mu, logvar, losses), after) ->
  exists ya ua T B rest,
    y = PyArray ya /\ u = PyArray ua /\
    shape ya = (if time_major then T :: B :: rest else B :: T :: rest) /\
    shape mu = (if time_major then [T; B; xdim self] else [B; T; xdim self]) /\
    shape logvar = shape mu /\
    length losses = Nat.min T (size ua (if time_major then 0 else 1)).
Proof.
  unfold filter, mbind, lift, get, ret.
  destruct y as [|ya]; [discriminate|]. destruct u as [|ua]; [discriminate|].
  cbn [as_tensor_dtype].
  destruct (if time_major then Ok ya else transpose01 ya) as [ys|e] eqn:Eys; [|discriminate].
  destruct (if time_major then Ok ua else transpose01 ua) as [us|e] eqn:Eus; [|discriminate].
  unfold ModulePy.shape0.
  destruct (shape ys) as [|T [|B rest]] eqn:Sys; try discriminate.
  destruct (unbind ys) as [ysl|e] eqn:Uy; [|discriminate].
  destruct (unbind us) as [usl|e] eqn:Uu; [|discriminate].
  apply unbind_length in Uy, Uu. unfold size in Uy. rewrite Sys in Uy. cbn [nth] in Uy.
  destruct (filter_loop (combine ysl usl) 0 q0 _ _ [] sw sample regularize optim self)
    as [[[[mu1 logvar1] losses1]|e] s1] eqn:El; [|discriminate].
  apply filter_loop_returns in El. destruct El as (Hm & Hl & Hn).
  cbn [length] in Hn. rewrite length_combine, Uy, Uu in Hn.
  cbn [shape zeros tabulate] in Hm, Hl.
  destruct time_major.
  - intros [= <- <- <- <-]. injection Eys as <-. injection Eus as <-.
    exists ya, ua, T, B, rest. repeat split; try assumption. congruence.
  - destruct (transpose01 mu1) as [mu2|e] eqn:Tm; [|discriminate].
    destruct (transpose01 logvar1) as [logvar2|e] eqn:Tl; [|discriminate].
    intros [= <- <- <- <-].
    apply transpose01_shape in Eys, Eus, Tm, Tl.
    destruct Eys as (n & m & r & Sya & Sys'). rewrite Sys in Sys'. injection Sys' as <- <- <-.
    destruct Eus as (n' & m' & r' & Sua & Sus).
    destruct Tm as (a1 & b1 & r1 & S1 & S1'). rewrite Hm in S1. injection S1 as <- <- <-.
    destruct Tl as (a2 & b2 & r2 & S2 & S2'). rewrite Hl in S2. injection S2 as <- <- <-.
    exists ya, ua, T, B, rest. repeat split; try assumption; try congruence.
    unfold size in *. rewrite Sua. rewrite Sus in Hn. exact Hn.
Qed.

Lemma set0_keeps (x v x' : tensor) (n i : nat) (rest : list nat) :
  set0 x i v = Ok x' -> shape x = n :: rest ->
  forall k, k < numel (n :: rest) -> k / numel rest <> i ->
    nth k (data x') zero = nth k (data x) zero.
Proof.
  intros Hs Hx k Hk Hi. unfold set0 in Hs. rewrite Hx in Hs.
  destruct (i <? n); [|discriminate].
  destruct (broadcast_shapes rest (shape v)) as [s|]; [|discriminate].
  destruct (list_eq_dec Nat.eq_dec s rest); [|discriminate].
  injection Hs as <-. rewrite nth_tabulate by exact Hk.
  apply Nat.eqb_neq in Hi. now rewrite Hi.
Qed.

Lemma filter_loop_keeps (obs : list (tensor * tensor)) (sw : switches)
    (sample regularize optim : bool) (n : nat) (rest : list nat) :
  forall (i : nat) (q0 : option (tensor * tensor)) (mu logvar : tensor)
         (losses : list (F * F * F)) (self after : VJF Weights) mu' logvar' losses',
    filter_loop obs i q0 mu logvar losses sw sample regularize optim self
    = (Ok (mu', logvar', losses'), after) ->
    shape mu = n :: rest -> shape logvar = n :: rest ->
    forall k, k < numel (n :: rest) -> i + length obs <= k / numel rest ->
      nth k (data mu') zero = nth k (data mu) zero /\
      nth k (data logvar') zero = nth k (data logvar) zero.
Proof.
  induction obs as [|o obs IH]; intros i q0 mu logvar losses self after mu' logvar' losses'.
  - cbn [filter_loop]. unfold ret. intros [= <- <- <- <-]. now split.
  - cbn [filter_loop]. unfold mbind, lift.
    destruct (feed o q0 sw sample regularize optim self) as [[[q l]|e] s1]; [|discriminate].
    destruct (set0 mu i (fst q)) as [mu1|e] eqn:Em; [|discriminate].
    destruct (set0 logvar i (snd q)) as [logvar1|e] eqn:El; [|discriminate].
    intros H Hm Hl k Hk Hi. cbn [length] in Hi.
    assert (Hne : k / numel rest <> i) by lia.
    destruct (IH _ _ _ _ _ _ _ _ _ _ H) with (k := k) as [H1 H2];
      try assumption; try lia.
    + now rewrite (set0_shape _ _ _ _ Em).
    + now rewrite (set0_shape _ _ _ _ El).
    + rewrite H1, H2. split; eapply set0_keeps; eassumption.
Qed.

(** X23.  The loop of [filter] runs over [zip(ys, us)]: when the control
    has fewer time steps than the observations, the later observations are
    not filtered, and their entries of the returned posterior mean and log
    variance are the zeros the two tensors were created with.  (Stated for
    [time_major=True].) *)
Theorem online_filter_short_control (ya ua : tensor) (q0 : option (tensor * tensor))
    (sw : switches) (sample regularize optim : bool) (self after : VJF Weights)
    (mu logvar : tensor) (losses : list (F * F * F)) (T B : nat) (rest : list nat) :
  filter (PyArray ya) (PyArray ua) q0 true sw sample regularize optim self
  = (Ok (mu, logvar, losses), after) ->
  shape ya = T :: B :: rest ->
  forall i, size ua 0 <= i -> i < T ->
    select0 mu i = Ok (zeros [B; xdim self]) /\
    select0 logvar i = Ok (zeros [B; xdim self]).
Proof.
  unfold filter, mbind, lift, get, ret. cbn [as_tensor_dtype].
  intros H Hy. unfold ModulePy.shape0 in H. rewrite Hy in H.
  destruct (unbind ya) as [ysl|e] eqn:Uy; [|discriminate].
  destruct (unbind ua) as [usl|e] eqn:Uu; [|discriminate].
  apply unbind_length in Uy, Uu. unfold size in Uy. rewrite Hy in Uy. cbn [nth] in Uy.
  destruct (filter_loop (combine ysl usl) 0 q0 _ _ [] sw sample regularize optim self)
    as [[[[mu1 logvar1] losses1]|e] s1] eqn:El; [|discriminate].
  injection H as <- <- <- <-.
  pose proof (filter_loop_returns _ _ _ _ _ _ _ _ _ _ _ _ _ _ _ El) as (Sm & Sl & _).
  cbn [shape zeros tabulate] in Sm, Sl.
  intros i Hu Hi. unfold select0. rewrite Sm, Sl.
  apply Nat.ltb_lt in Hi. rewrite Hi. apply Nat.ltb_lt in Hi.
  assert (Hz : forall k, k < numel [B; xdim self] ->
             nth (i * numel [B; xdim self] + k) (data mu1) zero = zero /\
             nth (i * numel [B; xdim self] + k) (data logvar1) zero = zero).
  { intros k Hk.
    assert (Hlt : i * numel [B; xdim self] + k < numel [T; B; xdim self]).
    { cbn [numel fold_right] in *. nia. }
    destruct (filter_loop_keeps _ _ _ _ _ T [B; xdim self] _ _ _ _ _ _ _ _ _ _ El
                eq_refl eq_refl _ Hlt) as [H1 H2].
    - rewrite index2_div by exact Hk. rewrite length_combine, Uy, Uu. cbn [Nat.add]. lia.
    - rewrite H1, H2. unfold zeros. rewrite !nth_tabulate by exact Hlt. now split. }
  split; f_equal; unfold zeros; apply tabulate_ext; intros k Hk; now apply Hz.
Qed.

(** X24.  [time_major=False] is a transposition on the way in and on the
    way out: filtering batch-major [y] and [u] is filtering their
    transposes with [time_major=True] and transposing the posterior mean and
    log variance back; the model ends in the same state and the ELBO terms
    are the same. *)
Theorem online_filter_batch_major (ya ua yt ut : tensor) (q0 : option (tensor * tensor))
    (sw : switches) (sample regularize optim : bool) (self : VJF Weights) :
  transpose01 ya = Ok yt -> transpose01 ua = Ok ut ->
  filter (PyArray ya) (PyArray ua) q0 false sw sample regularize optim self
  = (r <- filter (PyArray yt) (PyArray ut) q0 true sw sample regularize optim ;;
     let '(mu, logvar, losses) := r in
     mu <- lift (transpose01 mu) ;;
     logvar <- lift (transpose01 logvar) ;;
     ret (mu, logvar, losses))%meth self.
Proof.
  intros Hy Hu. unfold filter, mbind, lift, get, ret. cbn [as_tensor_dtype].
  rewrite Hy, Hu.
  repeat match goal with
         | |- context [match ?r with Ok _ => _ | Raise _ => _ end] =>
             destruct r; try reflexivity
         end.
  match goal with
  | |- context [filter_loop ?o ?i ?q ?m ?l ?ls sw sample regularize optim self] =>
      destruct (filter_loop o i q m l ls sw sample regularize optim self)
        as [[[[mu logvar] losses]|e] s1]
  end; [|reflexivity].
  destruct (transpose01 mu); [|reflexivity].
  destruct (transpose01 logvar); reflexivity.
Qed.

(** X25.  What [feed] returns when it trains: the ELBO terms are those of
    the parameters it was called with, and the posterior is the one the
    recognizer gives with the parameters the model has when [feed] returns,
    after the optimizers have stepped; both start from the same previous
    posterior. *)
Theorem feed_returns (y u : tensor) (q0 : option (tensor * tensor))
    (sw : switches) (sample regularize optim : bool) (self after : VJF Weights)
    (q1 : tensor * tensor) (e : F * F * F) :
  feed (y, u) q0 sw sample regularize optim self = (Ok (q1, e), after) ->
  exists batch,
    ModulePy.shape0 y = Ok batch /\
    recognizer (weights after) y u (feed_start self batch q0) = Ok q1 /\
    (exists q, recognizer (weights self) y u (feed_start self batch q0) = Ok q /\
               elbo (weights self) (draws self) (feed_start self batch q0) q (y, u)
                    sample regularize = Ok e).
Proof.
  unfold feed, mbind, lift, get, modify, ret. cbn [fst snd].
  destruct (ModulePy.shape0 y) as [batch|] eqn:Eb; [|discriminate].
  destruct (feed_start self batch q0) as [mu0 logvar0] eqn:Es.
  destruct (recognizer (weights self) y u (mu0, logvar0)) as [q|] eqn:Er; [|discriminate].
  destruct (elbo (weights self) (draws self) (mu0, logvar0) q (y, u) sample regularize)
    as [el|] eqn:Ee; [|discriminate].
  destruct optim.
  - destruct (clip_grad_value _ _) as [g|]; [|discriminate].
    cbn [take_draw set_weights weights draws].
    match goal with
    | |- context [match recognizer ?w y u (mu0, logvar0) with _ => _ end] =>
        destruct (recognizer w y u (mu0, logvar0)) as [q'|] eqn:Er'
    end; [|discriminate].
    intros [= <- <- <-]. exists batch. rewrite Es. split; [reflexivity|].
    cbn [set_weights take_draw weights draws]. split; [exact Er'|].
    exists q. now split.
  - cbn [take_draw weights]. rewrite Er. intros [= <- <- <-].
    exists batch. rewrite Es. split; [reflexivity|]. cbn [weights draws].
    split; [exact Er|]. exists q. now split.
Qed.

End OnlineFacts.

(* ================================================================== *)
(** * src/vjf/online.py: fit and forecast *)

Section OnlineFitFacts.
Context {Sc : Scalar} {Weights Grads : Type} {parts : OnlinePy.Parts Weights Grads}.
Import ModelPy OnlinePy.

Variables (y u : pyobj) (q0 : option (tensor * tensor)) (time_major : bool)
          (T : nat) (sw : switches).

Lemma printed_nothing (s s' : VJF Weights) : same_config s s' <-> printed s s' [].
Proof.
  unfold same_config, printed. rewrite app_nil_r. tauto.
Qed.

Lemma printed_trans (s1 s2 s3 : VJF Weights) (lines : list string) :
  same_config s1 s2 -> printed s2 s3 lines -> printed s1 s3 lines.
Proof.
  intros (A1 & A2 & A3 & A4 & A5) (B1 & B2 & B3 & B4 & B5).
  unfold printed. repeat split; congruence.
Qed.

Lemma printed_write (s : VJF Weights) (line : string) : printed s (write s line) [line].
Proof. repeat split. Qed.

Lemma fit_pass_frame (st : VJF Weights) :
  same_config st (snd (fit_pass y u q0 time_major T st)) /\
  weights (snd (fit_pass y u q0 time_major T st)) = weights st.
Proof.
  unfold fit_pass, mbind, lift, ret.
  pose proof (online_filter_frame y u q0 time_major no_switch true false false st) as Hf.
  cbv zeta in Hf. destruct Hf as [Hc Hw]. specialize (Hw (or_introl eq_refl)).
  destruct (filter y u q0 time_major no_switch true false false st)
    as [[[[mu logvar] elbos]|e] s1]; cbn [fst snd] in *; [|now split].
  destruct (new_loss elbos T); cbn [fst snd]; now split.
Qed.

Lemma fit_update_frame (before st : VJF Weights) :
  same_config st (snd (fit_update y u q0 time_major T sw before st)).
Proof.
  unfold fit_update, mbind, lift, get, modify. cbn [fst snd].
  destruct (clip_grad_value _ _); cbn [fst snd]; repeat split.
Qed.

Lemma fit_loop_prints (n : nat) :
  forall (out : option (tensor * tensor)) (prev : option F) (st : VJF Weights),
  exists lines,
    printed st (snd (fit_loop n y u q0 time_major T sw out prev st)) lines /\
    fit_lines lines /\
    (is_ok (fst (fit_loop n y u q0 time_major T sw out prev st)) = true -> lines <> []).
Proof.
  induction n as [|n IH]; intros out prev st.
  - exists ["Maximum iteration reached."%string]. cbn.
    split; [repeat split|]. split; [right; now right | discriminate].
  - rewrite fit_loop_step.
    destruct (fit_pass_frame st) as [Hc _].
    destruct (fit_pass y u q0 time_major T st) as [[[[mu logvar] l]|e] s1]; cbn [snd] in Hc.
    + destruct (converged prev l).
      * exists ["Converged"%string]. cbn [fst snd]. split.
        { eapply printed_trans; [exact Hc | apply printed_write]. }
        split; [right; now left | discriminate].
      * pose proof (fit_update_frame st s1) as Hu.
        destruct (fit_update y u q0 time_major T sw st s1) as [[[]|e] s2]; cbn [snd] in Hu.
        { destruct (IH (Some (mu, logvar)) (Some l) s2) as (lines & Hp & Hl & Hok).
          exists lines. split; [|now split].
          eapply printed_trans; [|exact Hp]. eapply same_config_trans; eassumption. }
        { exists []. cbn [fst snd]. split.
          - apply printed_nothing. eapply same_config_trans; eassumption.
          - split; [now left | discriminate]. }
    + exists []. cbn [fst snd]. split; [now apply printed_nothing|].
      split; [now left | discriminate].
Qed.

End OnlineFitFacts.

Section OnlineFitMore.
Context {Sc : Scalar} {Weights Grads : Type} {parts : OnlinePy.Parts Weights Grads}.
Import ModelPy OnlinePy.

(** X26.  [fit] never changes the dimensions or the clipping value of the
    model, and it prints at most one line, "Converged" or "Maximum iteration
    reached."; when it returns it has printed exactly one of the two. *)
Theorem online_fit_prints (y u : pyobj) (q0 : option (tensor * tensor))
    (time_major : bool) (max_iter : nat) (sw : switches) (st : VJF Weights) :
  exists lines,
    printed st (snd (fit y u q0 time_major max_iter sw st)) lines /\
    fit_lines lines /\
    (is_ok (fst (fit y u q0 time_major max_iter sw st)) = true -> lines <> []).
Proof.
  unfold fit, mbind, lift, ret.
  destruct (time_steps y time_major) as [T|e]; cbn beta iota.
  - destruct (fit_loop_prints y u q0 time_major T sw max_iter None None st)
      as (lines & Hp & Hl & Hok).
    exists lines.
    destruct (fit_loop max_iter y u q0 time_major T sw None None st)
      as [[[[[mu logvar]|] loss]|e] s]; cbn [fst snd is_ok] in *.
    + now split.
    + split; [exact Hp|]. split; [exact Hl | discriminate].
    + now split.
  - exists []. cbn [fst snd]. split; [now apply printed_nothing, same_config_refl|].
    split; [now left | discriminate].
Qed.

(** X27.  On a sequence without time steps [fit] raises in its first
    iteration, with the model as it was: when [y] has no time steps, there
    is nothing to sum and the division by [T = 0] raises
    [ZeroDivisionError]; when only [u] has none, [zip] yields no step, the
    loss is the Python float that [-0 / T] is, and its [.item()] raises
    [AttributeError]. *)
Theorem online_fit_empty_sequence (ya ua : tensor) (q0 : option (tensor * tensor))
    (time_major : bool) (n B B' T Tu : nat) (rest rest' : list nat)
    (sw : switches) (st : VJF Weights) :
  shape ya = (if time_major then [T; B] else [B; T]) ++ rest ->
  shape ua = (if time_major then [Tu; B'] else [B'; Tu]) ++ rest' ->
  (T = 0 ->
   fit (PyArray ya) (PyArray ua) q0 time_major (S n) sw st
   = (Raise ZeroDivisionError, st)) /\
  (T <> 0 -> Tu = 0 ->
   fit (PyArray ya) (PyArray ua) q0 time_major (S n) sw st
   = (Raise AttributeError, st)).
Proof.
  intros Hy Hu.
  assert (HT : time_steps (PyArray ya) time_major = Ok T).
  { unfold time_steps. rewrite Hy. now destruct time_major. }
  assert (Hf : T = 0 \/ Tu = 0 ->
               exists mu logvar,
                 filter (PyArray ya) (PyArray ua) q0 time_major no_switch true false false st
                 = (Ok (mu, logvar, []), st)).
  { intros H0. unfold filter, mbind, lift, get, ret. cbn [as_tensor_dtype].
    unfold transpose01, ModulePy.shape0, unbind.
    destruct time_major; cbn [app] in Hy, Hu; rewrite ?Hy, ?Hu;
      cbn [shape tabulate zeros]; rewrite ?Hy, ?Hu;
      (destruct H0 as [-> | ->];
       [cbn [seq map combine filter_loop]
       |cbn [seq map]; rewrite combine_nil; cbn [filter_loop]]);
      unfold ret; eexists; eexists; reflexivity. }
  split.
  - intros H0. destruct (Hf (or_introl H0)) as (mu & logvar & Ef).
    unfold fit, mbind at 1, lift at 1. rewrite HT.
    unfold mbind at 1. rewrite fit_loop_step. unfold fit_pass, mbind, lift, ret.
    rewrite Ef. subst T. reflexivity.
  - intros H0 Hz. destruct (Hf (or_intror Hz)) as (mu & logvar & Ef).
    unfold fit, mbind at 1, lift at 1. rewrite HT.
    unfold mbind at 1. rewrite fit_loop_step. unfold fit_pass, mbind, lift, ret.
    rewrite Ef. unfold new_loss.
    destruct (T =? 0) eqn:E0; [apply Nat.eqb_eq in E0; contradiction | reflexivity].
Qed.

(** X28.  [forecast] writes the initial state into the first slice of
    a (step + 1, size, xdim) trajectory: an initial state whose width is
    neither [xdim] nor 1 does not fit, and [forecast] raises [RuntimeError]
    before the system is run. *)
Theorem forecast_wrong_width (self : VJF Weights) (x0 : tensor) (step : nat)
    (inclusive : bool) (size k : nat) :
  shape (atleast_2d x0) = [size; k] ->
  k <> xdim self -> k <> 1 ->
  forecast self x0 step inclusive = Raise RuntimeError.
Proof.
  intros H0 Hk H1. unfold forecast, ModulePy.shape0. rewrite H0. cbn [bind].
  unfold set0, empty. cbn [shape zeros tabulate].
  replace (0 <? step + 1) with true by (symmetry; apply Nat.ltb_lt; lia).
  rewrite H0. unfold broadcast_shapes. cbn [rev app bshape_rev]. rewrite Nat.eqb_refl.
  apply Nat.eqb_neq in H1.
  destruct (xdim self =? k) eqn:E; [apply Nat.eqb_eq in E; congruence|].
  rewrite H1.
  destruct (xdim self =? 1); cbn [option_map rev app bind]; [|reflexivity].
  destruct (list_eq_dec Nat.eq_dec [size; k] [size; xdim self]) as [Heq|]; [|reflexivity].
  injection Heq as ->. now contradiction Hk.
Qed.

End OnlineFitMore.

(* ================================================================== *)
(** * src/vjf/online.py: the configuration *)

Section ConfigFacts.
Context {Sc : Scalar}.
Import ConfigPy.

Local Open Scope string_scope.

Lemma lookup_app (key : string) (d d' : dict) :
  lookup key (d ++ d')%list =
  match lookup key d with
  | Some v => Some v
  | None => lookup key d'
  end.
Proof.
  induction d as [|[k v] d IH]; [reflexivity|].
  cbn [app lookup]. destruct (String.eqb key k); [reflexivity | exact IH].
Qed.

Lemma lookup_setdefault (key k : string) (v : value) (d : dict) :
  lookup key (setdefault k v d) =
  match lookup key d with
  | Some x => Some x
  | None => if String.eqb key k then Some v else None
  end.
Proof.
  unfold setdefault. destruct (lookup k d) as [x|] eqn:Ek.
  - destruct (lookup key d) as [x'|] eqn:Ekey; [reflexivity|].
    destruct (String.eqb key k) eqn:E; [|reflexivity].
    apply String.eqb_eq in E. subst key. congruence.
  - rewrite lookup_app. reflexivity.
Qed.

Lemma setdefault_present (k : string) (v : value) (d : dict) :
  lookup k d <> None -> setdefault k v d = d.
Proof. unfold setdefault. destruct (lookup k d); [reflexivity | now intros []]. Qed.

Lemma lookup_in_keys (key : string) (d : dict) :
  lookup key d = None <-> ~ In key (map fst d).
Proof.
  induction d as [|[k v] d IH]; cbn [lookup map fst In].
  - tauto.
  - destruct (String.eqb key k) eqn:E.
    + apply String.eqb_eq in E. subst. split; [discriminate | intros H; exfalso; apply H; now left].
    + apply String.eqb_neq in E. rewrite IH. split.
      * intros H [H'|H']; [now apply E | now apply H].
      * intros H H'. apply H. now right.
Qed.

Lemma setdefault_unique (k : string) (v : value) (d : dict) :
  unique_keys d -> unique_keys (setdefault k v d).
Proof.
  unfold unique_keys, setdefault. intros Hd.
  destruct (lookup k d) eqn:E; [exact Hd|].
  rewrite map_app. cbn [map fst].
  apply lookup_in_keys in E. revert E Hd.
  induction (map fst d) as [|a l IH]; intros Hn Hd; cbn [app].
  - constructor; [intros [] | constructor].
  - inversion Hd as [|? ? Ha Hl]; subst. constructor.
    + rewrite in_app_iff. intros [H|[H|[]]]; [now apply Ha|].
      apply Hn. now left.
    + apply IH; [|exact Hl]. intros H. apply Hn. now right.
Qed.

(** X29.  [set_props] fills in the nine defaults and overrides nothing:
    a key the configuration has keeps its value -- also a value of [None]
    -- and its place, a default key it lacks gets the default, and no other
    key appears; the keys stay distinct, and a second call changes
    nothing. *)
Theorem set_props_defaults (config : dict) :
  (forall key, lookup key (set_props config) =
               match lookup key config with
               | Some v => Some v
               | None => lookup key defaults
               end) /\
  (exists added, set_props config = (config ++ added)%list) /\
  (unique_keys config -> unique_keys (set_props config)) /\
  set_props (set_props config) = set_props config.
Proof.
  assert (H1 : forall c key, lookup key (set_props c) =
               match lookup key c with
               | Some v => Some v
               | None => lookup key defaults
               end).
  { intros c key. unfold set_props. cbv zeta. rewrite !lookup_setdefault.
    destruct (lookup key c); [reflexivity|]. cbn [lookup defaults].
    repeat match goal with
           | |- context [String.eqb key ?k] => destruct (String.eqb key k); [reflexivity|]
           end.
    reflexivity. }
  split; [apply H1|]. split; [|split].
  - unfold set_props, setdefault. cbv zeta.
    repeat match goal with
           | |- context [match lookup ?k ?d with _ => _ end] =>
               destruct (lookup k d)
           end;
      rewrite <- ?app_assoc; eexists; try reflexivity; now rewrite app_nil_r.
  - intros Hu. unfold set_props. cbv zeta. now repeat apply setdefault_unique.
  - set (c := set_props config).
    assert (Hc : forall key, lookup key defaults <> None -> lookup key c <> None).
    { intros key Hk. unfold c. rewrite H1. now destruct (lookup key config). }
    unfold set_props at 1. cbv zeta.
    repeat match goal with
           | |- context [setdefault ?k ?v c] =>
               rewrite (setdefault_present k v c) by (apply Hc; discriminate)
           end.
    reflexivity.
Qed.

End ConfigFacts.

(* ================================================================== *)
(** * Instances of the statements at concrete inputs, continued *)

Lemma ok_value {A S : Type} (r : res A * S) :
  is_ok (fst r) = true -> exists a, r = (Ok a, snd r).
Proof. destruct r as [[a|e] s]; [now exists a | discriminate]. Qed.

Section WitnessesMore32.
Import Binary32 ModulePy Example32 ExampleMore.

Lemma rls_shapes_ok_witness :
  shapes_ok lr0 /\ scalar_noise v1 /\ shapes_ok (snd (rls x1 y1 v1 one lr0)).
Proof.
  assert (H1 : shapes_ok lr0) by (repeat split).
  assert (H2 : scalar_noise v1).
  { eexists. split; [reflexivity|]. now right. }
  split; [exact H1|]. split; [exact H2|].
  apply (rls_shapes_ok x1 y1 v1 one lr0 H1); [|exact H2].
  intros feat [= <-]. exists 1. now split.
Defined.

Lemma forward_shape_witness :
  (1 = n_feature (feature lr0) ->
   exists out, forward lr0 zeros x1 true = Ok out /\ shape out = [1; n_output lr0]) /\
  (1 <> n_feature (feature lr0) -> forward lr0 zeros x1 true = Raise RuntimeError).
Proof.
  apply (forward_shape lr0 zeros x1 x1 true 1 1); try reflexivity. repeat split.
Defined.

Lemma kalman_negative_diffusion_witness :
  leb zero (neg one) = false /\
  KalmanPy.kalman (K := kalman0) x1 y1 v1 (neg one) lr0 = (Raise AssertionError, lr0).
Proof.
  split; [reflexivity|].
  apply (kalman_negative_diffusion (K := kalman0) x1 y1 v1 (neg one) lr0). reflexivity.
Defined.

End WitnessesMore32.

Section WitnessesMoreExact.
Import Exact ModulePy ModelPy ExampleExact ExampleMore.

Lemma rbf_forward_width_witness :
  exists feat,
    feature_forward (RBFPy.as_feature rbf0 bank0) point1 = Ok feat /\
    shape feat = [1; n_feature (RBFPy.as_feature rbf0 bank0)] /\
    (RBFPy.intercept bank0 = false -> feat = zeros [1; 2]) /\
    (RBFPy.intercept bank0 = true ->
     forall i, i < 1 ->
       get2 feat i 0 = one /\
       forall j, j < RBFPy.n_basis bank0 -> get2 feat i (j + 1) = get2 (zeros [1; 2]) i j).
Proof.
  exact (rbf_forward_width rbf0 bank0 point1 (zeros [1; 2]) 1 eq_refl eq_refl).
Defined.

Lemma rbflds_loss_is_gaussian_witness :
  lds_logvar lds0 = mkT [1] [one] /\
  rbflds_loss lds0 point1 point1 = gaussian_loss (mkT [1] [one]) point1 point1.
Proof.
  split; [reflexivity|].
  exact (rbflds_loss_is_gaussian lds0 one point1 point1 eq_refl).
Defined.

Lemma fit_returns_witness :
  exists q_seq after,
    fit (Mods := modules) (PyArray obs1) PyNone 3 model0 = (Ok q_seq, after) /\
    1 <= 3 /\
    exists a, PyArray obs1 = PyArray a /\
      1 <= size (atleast_2d a) 0 /\
      length q_seq = size (atleast_2d a) 0 /\ True.
Proof.
  destruct (ok_value (fit (Mods := modules) (PyArray obs1) PyNone 3 model0))
    as (q_seq & Hq); [vm_compute; reflexivity|].
  exists q_seq, (snd (fit (Mods := modules) (PyArray obs1) PyNone 3 model0)).
  split; [exact Hq|].
  exact (fit_returns (Mods := modules) (PyArray obs1) PyNone 3 model0 _ q_seq Hq).
Defined.

Lemma fresh_prior_is_zero_witness :
  shape obs1 = [1; 1] /\
  prior (ModelInit.init 1 gaussian_init 0) obs1
  = Ok (mkDG (zeros [1; 1]) (zeros [1; 1])) /\
  OnlinePy.feed_start online0 1 None = (zeros [1; 1], zeros [1; 1]).
Proof.
  split; [reflexivity|].
  exact (fresh_prior_is_zero 1 gaussian_init 0 obs1 1 1 online0 eq_refl eq_refl).
Defined.

Lemma exact_rls_update_witness :
  exists after,
    rls point1 (mkT [1; 1] [1%R]) (PyTensor (mkT [1] [1%R])) 1%R regressor0 = (Ok tt, after) /\
    w_precision after = mkT [1; 1] [(1 / (1 + 1 * 1) + 1 * 1 / 1)%R] /\
    w_mean after
    = mkT [1; 1] [((1 / (1 + 1 * 1) * 0 + 1 * 1 / 1) / (1 / (1 + 1 * 1) + 1 * 1 / 1))%R] /\
    (1 / (1 + 1 * 1) < 1)%R /\
    (1%R = (1 * 0)%R -> w_mean after = w_mean regressor0).
Proof.
  exact (exact_rls_update regressor0 point1 1%R 0%R 1%R 1%R 1%R 1%R
           Rlt_0_1 Rlt_0_1 Rlt_0_1 eq_refl eq_refl eq_refl).
Defined.

Lemma fit_runs_every_iteration_witness :
  exists q_seq after obs,
    fit (Mods := modules) (PyArray obs1) PyNone 3 model0 = (Ok q_seq, after) /\
    ModelRound.fit_obs (PyArray obs1) PyNone = Ok obs /\
    after = Nat.iter 3 (ModelRound.fit_round (Mods := modules) obs) model0.
Proof.
  destruct (ok_value (fit (Mods := modules) (PyArray obs1) PyNone 3 model0))
    as (q_seq & Hq); [vm_compute; reflexivity|].
  destruct (fit_runs_every_iteration (Mods := modules) (PyArray obs1) PyNone 3 model0
              _ q_seq Hq) as (obs & Ho & Ha).
  exists q_seq. eexists. exists obs. split; [exact Hq|]. split; [exact Ho | exact Ha].
Defined.

Lemma online_filter_batch_major_witness :
  transpose01 ys2 = Ok (mkT [1; 2; 1] [zero; zero]) /\
  OnlinePy.filter (parts := parts) (PyArray ys2) (PyArray ys2) None false
    OnlinePy.no_switch true false true online0
  = (r <- OnlinePy.filter (parts := parts) (PyArray (mkT [1; 2; 1] [zero; zero]))
            (PyArray (mkT [1; 2; 1] [zero; zero])) None true
            OnlinePy.no_switch true false true ;;
     let '(mu, logvar, losses) := r in
     mu <- lift (transpose01 mu) ;;
     logvar <- lift (transpose01 logvar) ;;
     ret (mu, logvar, losses))%meth online0.
Proof.
  split; [reflexivity|].
  exact (online_filter_batch_major (parts := parts) ys2 ys2 _ _ None OnlinePy.no_switch
           true false true online0 eq_refl eq_refl).
Defined.

Lemma rbflds_forward_with_control_witness :
  shape point1 = [1; 1] /\ shape (atleast_2d (mkT [1] [one])) = [1; 1] /\
  (1 = 1 ->
   exists out, rbflds_forward lds1 zeros point1 (Some (mkT [1] [one])) true = Ok out /\
               shape out = [1; 1]) /\
  (1 <> 1 ->
   rbflds_forward lds1 zeros point1 (Some (mkT [1] [one])) true = Raise RuntimeError).
Proof.
  split; [reflexivity|]. split; [reflexivity|].
  refine (rbflds_forward_with_control lds1 zeros point1 (mkT [1] [one]) true 1 1 1 1
            eq_refl eq_refl _ eq_refl (fun _ => eq_refl) _).
  - repeat split.
  - intros xu Hxu. eexists. split; [reflexivity|].
    cbn [shape zeros tabulate]. unfold size. now rewrite Hxu.
Defined.

Lemma fit_no_iteration_witness :
  fit (Mods := modules) (PyArray obs1) PyNone 0 model0 = (Raise UnboundLocalError, model0).
Proof.
  apply (fit_no_iteration (Mods := modules) obs1 PyNone model0). now left.
Defined.

Lemma fit_empty_sequence_witness :
  shape no_obs = [0; 1] /\
  fit (Mods := modules) (PyArray no_obs) PyNone 3 model0 = (Raise TypeError, model0) /\
  (forall b rest, shape b = 0 :: rest ->
     fit (Mods := modules) (PyArray no_obs) (PyArray b) 3 model0
     = (Raise ZeroDivisionError, model0)).
Proof.
  split; [reflexivity|].
  exact (fit_empty_sequence (Mods := modules) no_obs 1 2 model0 eq_refl).
Defined.

Lemma simulate_trajectory_witness :
  exists x, SimulatePy.simulate lds0 randn0 point1 3 = Ok x /\
    shape x = [3 + 1; 1; 1] /\
    select0 x 0 = Ok point1.
Proof.
  refine (simulate_trajectory lds0 randn0 1 1 _ eq_refl _ (fun _ _ => eq_refl) eq_refl
            point1 3 eq_refl eq_refl).
  - repeat split.
  - intros x Hx. exists x. now split.
Defined.

Lemma online_filter_returns_witness :
  exists mu logvar losses after ya ua T B rest,
    OnlinePy.filter (parts := parts) (PyArray ys2) (PyArray us1) None true
      OnlinePy.no_switch true false true online0
    = (Ok (mu, logvar, losses), after) /\
    PyArray ys2 = PyArray ya /\ PyArray us1 = PyArray ua /\
    shape ya = T :: B :: rest /\
    shape mu = [T; B; OnlinePy.xdim online0] /\
    shape logvar = shape mu /\
    length losses = Nat.min T (size ua 0).
Proof.
  destruct (ok_value (OnlinePy.filter (parts := parts) (PyArray ys2) (PyArray us1) None true
                        OnlinePy.no_switch true false true online0))
    as ([[mu logvar] losses] & Hr); [vm_compute; reflexivity|].
  destruct (online_filter_returns (parts := parts) _ _ _ _ _ _ _ _ _ _ _ _ _ Hr)
    as (ya & ua & T & B & rest & H).
  exists mu, logvar, losses. eexists. exists ya, ua, T, B, rest.
  split; [exact Hr | exact H].
Defined.

Lemma online_filter_short_control_witness :
  exists mu logvar losses after,
    OnlinePy.filter (parts := parts) (PyArray ys2) (PyArray us1) None true
      OnlinePy.no_switch true false true online0
    = (Ok (mu, logvar, losses), after) /\
    shape ys2 = [2; 1; 1] /\
    forall i, size us1 0 <= i -> i < 2 ->
      select0 mu i = Ok (zeros [1; OnlinePy.xdim online0]) /\
      select0 logvar i = Ok (zeros [1; OnlinePy.xdim online0]).
Proof.
  destruct (ok_value (OnlinePy.filter (parts := parts) (PyArray ys2) (PyArray us1) None true
                        OnlinePy.no_switch true false true online0))
    as ([[mu logvar] losses] & Hr); [vm_compute; reflexivity|].
  exists mu, logvar, losses. eexists. split; [exact Hr|]. split; [reflexivity|].
  exact (online_filter_short_control (parts := parts) ys2 us1 None OnlinePy.no_switch
           true false true online0 _ mu logvar losses 2 1 [1] Hr eq_refl).
Defined.

Lemma feed_returns_witness :
  exists q1 e after batch,
    OnlinePy.feed (parts := parts) (obs1, obs1) None OnlinePy.no_switch true false true online0
    = (Ok (q1, e), after) /\
    ModulePy.shape0 obs1 = Ok batch /\
    OnlinePy.recognizer (Parts := parts) (OnlinePy.weights after) obs1 obs1
      (OnlinePy.feed_start online0 batch None) = Ok q1.
Proof.
  destruct (ok_value (OnlinePy.feed (parts := parts) (obs1, obs1) None OnlinePy.no_switch
                        true false true online0))
    as ([q1 e] & Hr); [vm_compute; reflexivity|].
  destruct (feed_returns (parts := parts) _ _ _ _ _ _ _ _ _ _ _ Hr)
    as (batch & Hb & Hq & _).
  exists q1, e. eexists. exists batch. split; [exact Hr|]. split; [exact Hb | exact Hq].
Defined.

Lemma online_fit_empty_sequence_witness :
  shape (mkT [0; 1; 1] []) = [0; 1] ++ [1] /\
  OnlinePy.fit (parts := parts) (PyArray (mkT [0; 1; 1] [])) (PyArray us1) None true 3
    OnlinePy.no_switch online0 = (Raise ZeroDivisionError, online0).
Proof.
  split; [reflexivity|].
  apply (online_fit_empty_sequence (parts := parts) (mkT [0; 1; 1] []) us1 None true
           2 1 1 0 1 [1] [1] OnlinePy.no_switch online0 eq_refl eq_refl).
  reflexivity.
Defined.

Lemma forecast_wrong_width_witness :
  shape (atleast_2d wide) = [1; 2] /\
  OnlinePy.forecast (parts := parts) online0 wide 3 true = Raise RuntimeError.
Proof.
  split; [reflexivity|].
  apply (forecast_wrong_width (parts := parts) online0 wide 3 true 1 2 eq_refl);
    cbn; lia.
Defined.

End WitnessesMoreExact.
